(** * Spotify recap backend: a shallow embedding of [main.py]

    The handlers of [main.py] are embedded as Rocq functions over a model of
    the Python values they traverse.  The two aggregators ([get_top_albums],
    [get_top_genres]) are pure; the request handlers thread the upstream HTTP
    exchange through a small state-and-exception monad.

    Conventions of the model:
    - a Python object obtained from JSON is a [value]; [dict]s are
      association lists in insertion order, looked up with Python's key
      equality ([True == 1 == 1.0]);
    - a Python [int] is a [Z]; a Python [float] is the rational it denotes
      (not-a-number and the infinities are not represented);
    - a Python [str] is a Rocq [string], one character per code point
      (code points below 256);
    - a raised exception is the [Raise] branch of [result];
    - [print] calls are omitted: they have no effect on the values returned. *)

From Stdlib Require Import ZArith QArith String Ascii List Bool Lia.
From Stdlib Require Import Sorted Permutation.
Import ListNotations.

Set Warnings "-register-all".
Local Open Scope Z_scope.
Local Open Scope list_scope.

(** ** Python values *)

Inductive value : Type :=
| VNone
| VBool (b : bool)
| VInt (z : Z)
| VFloat (q : Q)
| VStr (s : string)
| VList (l : list value)
| VDict (d : list (value * value)).

(** Exceptions the handlers can meet.  [RequestException] stands for
    [requests.exceptions.RequestException] and its subclasses. *)
Inductive requests_error : Type :=
| ConnectionError (msg : string)
| HTTPError (status : Z)
| JSONDecodeError.

Inductive exn : Type :=
| HTTPException (status_code : Z) (detail : string)
| RequestException (e : requests_error)
| AttributeError
| TypeError
| ValueError
| KeyError
| UnicodeEncodeError
| UnicodeDecodeError.

Inductive result (A : Type) : Type :=
| Ok (a : A)
| Raise (e : exn).
Arguments Ok {A} a.
Arguments Raise {A} e.

Definition rbind {A B : Type} (r : result A) (k : A -> result B) : result B :=
  match r with
  | Ok a => k a
  | Raise e => Raise e
  end.

Notation "'let*' x ':=' e 'in' k" := (rbind e (fun x => k))
  (at level 10, x name, e at level 100, k at level 200).

(** [mapM f l]: a list comprehension whose body may raise. *)
Fixpoint mapM {A B : Type} (f : A -> result B) (l : list A) : result (list B) :=
  match l with
  | [] => Ok []
  | x :: r =>
      let* y := f x in
      let* ys := mapM f r in
      Ok (y :: ys)
  end.

(** [foldM f l acc]: a [for] loop over [l] updating [acc], whose body may
    raise. *)
Fixpoint foldM {A S : Type} (f : S -> A -> result S) (l : list A) (acc : S)
  : result S :=
  match l with
  | [] => Ok acc
  | x :: r => let* acc' := f acc x in foldM f r acc'
  end.

Module Py.

(** Truth value of an object, as tested by [not x]. *)
Definition truthy (v : value) : bool :=
  match v with
  | VNone => false
  | VBool b => b
  | VInt z => negb (z =? 0)
  | VFloat q => negb (Qeq_bool q 0)
  | VStr s => negb (String.eqb s "")
  | VList l => match l with [] => false | _ => true end
  | VDict d => match d with [] => false | _ => true end
  end.

(** [list] and [dict] objects have no hash. *)
Definition hashable (v : value) : bool :=
  match v with
  | VList _ | VDict _ => false
  | _ => true
  end.

(** Numeric value of [bool], [int] and [float] objects. *)
Definition num (v : value) : option Q :=
  match v with
  | VBool b => Some (inject_Z (if b then 1 else 0))
  | VInt z => Some (inject_Z z)
  | VFloat q => Some q
  | _ => None
  end.

(** Python's [==] between dictionary keys: numbers compare by value
    across [bool], [int] and [float]; strings compare with strings;
    [None] equals only [None].  Unhashable objects are never keys and
    compare unequal to every key. *)
Definition key_eqb (a b : value) : bool :=
  match num a, num b with
  | Some x, Some y => Qeq_bool x y
  | None, None =>
      match a, b with
      | VNone, VNone => true
      | VStr s, VStr t => String.eqb s t
      | _, _ => false
      end
  | _, _ => false
  end.

(** A dictionary with values in [V], in insertion order. *)
Definition dict (V : Type) : Type := list (value * V).

Fixpoint lookup {V : Type} (d : dict V) (k : value) : option V :=
  match d with
  | [] => None
  | (k', v) :: r => if key_eqb k' k then Some v else lookup r k
  end.

(** [d[k] = v]: an existing key keeps its position (and its key
    object); a new key goes last. *)
Fixpoint set {V : Type} (d : dict V) (k : value) (v : V) : dict V :=
  match d with
  | [] => [(k, v)]
  | (k', v') :: r =>
      if key_eqb k' k then (k', v) :: r else (k', v') :: set r k v
  end.

(** [k in d], raising [TypeError] on an unhashable [k]. *)
Definition contains {V : Type} (d : dict V) (k : value) : result bool :=
  if hashable k
  then Ok (match lookup d k with Some _ => true | None => false end)
  else Raise TypeError.

(** [d.get(k, default)] on a dictionary. *)
Definition dict_get {V : Type} (d : dict V) (k : value) (default : V)
  : result V :=
  if hashable k
  then Ok (match lookup d k with Some v => v | None => default end)
  else Raise TypeError.

(** [d[k]] updated in place through [f]; [KeyError] when [k] is not a
    key. *)
Fixpoint modify {V : Type} (d : dict V) (k : value) (f : V -> V)
  : result (dict V) :=
  match d with
  | [] => Raise KeyError
  | (k', v) :: r =>
      if key_eqb k' k then Ok ((k', f v) :: r)
      else let* r' := modify r k f in Ok ((k', v) :: r')
  end.

(** [dict(pairs)]. *)
Definition of_pairs {V : Type} (l : list (value * V)) : dict V :=
  fold_left (fun d kv => set d (fst kv) (snd kv)) l [].

(** [{**d1, **d2}]. *)
Definition merge {V : Type} (d1 d2 : dict V) : dict V :=
  fold_left (fun d kv => set d (fst kv) (snd kv)) d2 d1.

(** [o.get(k, default)] on an arbitrary object with a string literal
    key: only [dict] has the method. *)
Definition get (o : value) (k : string) (default : value) : result value :=
  match o with
  | VDict d =>
      Ok (match lookup d (VStr k) with Some v => v | None => default end)
  | _ => Raise AttributeError
  end.

Definition chars (s : string) : list value :=
  map (fun c => VStr (String c EmptyString)) (list_ascii_of_string s).

(** The sequence a [for] loop or comprehension runs over. *)
Definition iter (o : value) : result (list value) :=
  match o with
  | VList l => Ok l
  | VDict d => Ok (map fst d)
  | VStr s => Ok (chars s)
  | _ => Raise TypeError
  end.

End Py.

(** ** Sorting

    [list.sort(key=..., reverse=True)] and [sorted(..., reverse=True)] are
    stable: elements with equal keys keep their relative order.  A stable
    sort is determined by its input, so insertion from the right models
    it. *)

Section StableSort.
Context {A : Type} (key : A -> Z).

(** [x] stood left of every element of the sorted list [l]: it goes before
    the first element whose key is not strictly greater. *)
Fixpoint insert_desc (x : A) (l : list A) : list A :=
  match l with
  | [] => [x]
  | y :: r => if key x <? key y then y :: insert_desc x r else x :: y :: r
  end.

Fixpoint sort_desc (l : list A) : list A :=
  match l with
  | [] => []
  | x :: r => insert_desc x (sort_desc r)
  end.

End StableSort.

(** ** The aggregators *)

(** The dictionary stored under each album id in [album_stats]. *)
Record album_stat : Type := {
  name : value;
  artists : list value;
  images : value;
  release_date : value;
  total_tracks : value;
  external_url : value;
  count : Z;
  tracks : list value
}.

Definition incr_count (st : album_stat) : album_stat :=
  {| name := name st; artists := artists st; images := images st;
     release_date := release_date st; total_tracks := total_tracks st;
     external_url := external_url st;
     count := count st + 1; tracks := tracks st |}.

Definition append_track (t : value) (st : album_stat) : album_stat :=
  {| name := name st; artists := artists st; images := images st;
     release_date := release_date st; total_tracks := total_tracks st;
     external_url := external_url st;
     count := count st; tracks := tracks st ++ [t] |}.

(** The dictionary literal created when an album id is first met. *)
Definition new_album_stat (album : value) : result album_stat :=
  let* name_ := Py.get album "name" VNone in
  let* artists_v := Py.get album "artists" (VList []) in
  let* artists_l := Py.iter artists_v in
  let* artists_ := mapM (fun artist => Py.get artist "name" VNone) artists_l in
  let* images_ := Py.get album "images" (VList []) in
  let* release_date_ := Py.get album "release_date" VNone in
  let* total_tracks_ := Py.get album "total_tracks" VNone in
  let* external_urls := Py.get album "external_urls" (VDict []) in
  let* external_url_ := Py.get external_urls "spotify" VNone in
  Ok {| name := name_; artists := artists_; images := images_;
        release_date := release_date_; total_tracks := total_tracks_;
        external_url := external_url_; count := 0; tracks := [] |}.

(** One turn of the loop of [get_top_albums]. *)
Definition album_step (album_stats : Py.dict album_stat) (track : value)
  : result (Py.dict album_stat) :=
  let* album := Py.get track "album" (VDict []) in
  let* album_id := Py.get album "id" VNone in
  if negb (Py.truthy album_id) then Ok album_stats
  else
    let* seen := Py.contains album_stats album_id in
    let* album_stats :=
      (if seen then Ok album_stats
       else let* fresh := new_album_stat album in
            Ok (Py.set album_stats album_id fresh)) in
    let* album_stats := Py.modify album_stats album_id incr_count in
    let* track_name := Py.get track "name" VNone in
    let* popularity := Py.get track "popularity" VNone in
    Py.modify album_stats album_id
      (append_track
         (VDict [(VStr "name", track_name); (VStr "popularity", popularity)])).

(** An element of the list returned by [get_top_albums]:
    [{**stats, 'id': album_id}]. *)
Record top_album : Type := {
  stats : album_stat;
  album_id : value
}.

Definition get_top_albums (tracks_data : value) : result (list top_album) :=
  let* items_v := Py.get tracks_data "items" (VList []) in
  let* items := Py.iter items_v in
  let* album_stats := foldM album_step items [] in
  let top_albums :=
    map (fun kv => {| stats := snd kv; album_id := fst kv |}) album_stats in
  let top_albums := sort_desc (fun x => count (stats x)) top_albums in
  Ok (firstn 10 top_albums).

(** The Python object a [top_album] stands for, keys in creation order. *)
Definition top_album_value (a : top_album) : value :=
  let st := stats a in
  VDict [(VStr "name", name st);
         (VStr "artists", VList (artists st));
         (VStr "images", images st);
         (VStr "release_date", release_date st);
         (VStr "total_tracks", total_tracks st);
         (VStr "external_url", external_url st);
         (VStr "count", VInt (count st));
         (VStr "tracks", VList (tracks st));
         (VStr "id", album_id a)].

(** [genre_count[genre] = genre_count.get(genre, 0) + 1] *)
Definition genre_step (genre_count : Py.dict Z) (genre : value)
  : result (Py.dict Z) :=
  let* n := Py.dict_get genre_count genre 0 in
  Ok (Py.set genre_count genre (n + 1)).

Definition artist_step (genre_count : Py.dict Z) (artist : value)
  : result (Py.dict Z) :=
  let* genres_v := Py.get artist "genres" (VList []) in
  let* genres := Py.iter genres_v in
  foldM genre_step genres genre_count.

Definition get_top_genres (artists_data : value) : result (Py.dict Z) :=
  let* items_v := Py.get artists_data "items" (VList []) in
  let* items := Py.iter items_v in
  let* genre_count := foldM artist_step items [] in
  let sorted_genres := sort_desc snd genre_count in
  Ok (Py.of_pairs (firstn 10 sorted_genres)).

Definition genres_value (g : Py.dict Z) : value :=
  VDict (map (fun kv => (fst kv, VInt (snd kv))) g).

(** ** Text encodings and Base64 *)

Definition bytes : Type := list Byte.byte.

(** [s.encode('ascii')] *)
Definition encode_ascii (s : string) : result bytes :=
  mapM (fun c => if (N_of_ascii c <? 128)%N then Ok (byte_of_ascii c)
                 else Raise UnicodeEncodeError)
       (list_ascii_of_string s).

(** [s.encode('latin1')]: total on code points below 256. *)
Definition encode_latin1 (s : string) : bytes :=
  map byte_of_ascii (list_ascii_of_string s).

(** [b.decode('ascii')] *)
Definition decode_ascii (b : bytes) : result string :=
  let* cs := mapM (fun x => if (Byte.to_N x <? 128)%N then Ok (ascii_of_byte x)
                            else Raise UnicodeDecodeError) b in
  Ok (string_of_list_ascii cs).

Definition b64_alphabet : list ascii :=
  list_ascii_of_string
    "ABCDEFGHIJKLMNOPQRSTUVWXYZabcdefghijklmnopqrstuvwxyz0123456789+/".

Definition b64_digit (n : N) : Byte.byte :=
  byte_of_ascii (nth (N.to_nat n) b64_alphabet "="%char).

Definition b64_pad : Byte.byte := byte_of_ascii "="%char.

(** [base64.b64encode]: three bytes make four digits; a last group of one
    or two bytes is padded. *)
Fixpoint b64encode (bs : bytes) : bytes :=
  match bs with
  | [] => []
  | [a] =>
      let n := (Byte.to_N a * 65536)%N in
      [b64_digit (n / 262144); b64_digit ((n / 4096) mod 64); b64_pad; b64_pad]
  | [a; b] =>
      let n := (Byte.to_N a * 65536 + Byte.to_N b * 256)%N in
      [b64_digit (n / 262144); b64_digit ((n / 4096) mod 64);
       b64_digit ((n / 64) mod 64); b64_pad]
  | a :: b :: c :: r =>
      let n := (Byte.to_N a * 65536 + Byte.to_N b * 256 + Byte.to_N c)%N in
      b64_digit (n / 262144) :: b64_digit ((n / 4096) mod 64)
        :: b64_digit ((n / 64) mod 64) :: b64_digit (n mod 64)
        :: b64encode r
  end.

(** [s.encode('utf-8')]: a code point below 128 is one byte, a code point
    from 128 to 255 is two. *)
Definition encode_utf8 (s : string) : bytes :=
  flat_map (fun c =>
              let n := N_of_ascii c in
              if (n <? 128)%N then [byte_of_ascii c]
              else [byte_of_ascii (ascii_of_N (192 + n / 64)%N);
                    byte_of_ascii (ascii_of_N (128 + n mod 64)%N)])
           (list_ascii_of_string s).

Definition hex_digit (n : N) : ascii :=
  nth (N.to_nat n) (list_ascii_of_string "0123456789ABCDEF") "0"%char.

(** [urllib.parse.quote(s, safe)]: the text is encoded as UTF-8; a byte
    among the always safe ones or among the ASCII characters of [safe]
    stands for itself, any other byte becomes [%XX]. *)
Definition always_safe : string :=
  "ABCDEFGHIJKLMNOPQRSTUVWXYZabcdefghijklmnopqrstuvwxyz0123456789_.-~".

Definition safe_bytes (safe : string) : list ascii :=
  list_ascii_of_string always_safe
  ++ filter (fun c => (N_of_ascii c <? 128)%N) (list_ascii_of_string safe).

Definition quote_byte (safe : string) (b : Byte.byte) : string :=
  if existsb (Ascii.eqb (ascii_of_byte b)) (safe_bytes safe)
  then String (ascii_of_byte b) EmptyString
  else String "%" (String (hex_digit (Byte.to_N b / 16))
                     (String (hex_digit (Byte.to_N b mod 16)) EmptyString)).

Fixpoint quote_from_bytes (bs : bytes) (safe : string) : string :=
  match bs with
  | [] => EmptyString
  | b :: r => (quote_byte safe b ++ quote_from_bytes r safe)%string
  end.

Definition quote (s safe : string) : string :=
  quote_from_bytes (encode_utf8 s) safe.

(** [str(x)] for a value read from the environment, as an f-string or
    [requests] formats it: an unset variable is [None]. *)
Definition format_env (v : option string) : string :=
  match v with
  | Some s => s
  | None => "None"
  end.

Definition env_value (v : option string) : value :=
  match v with
  | Some s => VStr s
  | None => VNone
  end.

(** The header [requests] computes for [auth=(username, password)]
    ([requests.auth._basic_auth_str]): both parts are encoded as Latin-1,
    joined by a colon and Base64-encoded. *)
Definition basic_auth_str (username password : option string) : string :=
  let joined :=
    encode_latin1 (format_env username) ++ encode_latin1 ":"
      ++ encode_latin1 (format_env password) in
  ("Basic "
   ++ string_of_list_ascii (map ascii_of_byte (b64encode joined)))%string.

(** ** The upstream exchange *)

Record request : Type := {
  method : string;
  url : string;
  headers : list (string * string);
  data : option value
}.

Record response : Type := {
  status_code : Z;
  text : string;
  body : option value   (* the parsed body; [None] when it is not JSON *)
}.

(** [response.ok]: [raise_for_status] would not raise. *)
Definition ok (r : response) : bool :=
  negb ((400 <=? status_code r) && (status_code r <? 600)).

Definition raise_for_status (r : response) : result unit :=
  if ok r then Ok tt else Raise (RequestException (HTTPError (status_code r))).

(** [response.json()]; the error is [requests.exceptions.JSONDecodeError]
    (requests 2.27 and later). *)
Definition json (r : response) : result value :=
  match body r with
  | Some v => Ok v
  | None => Raise (RequestException JSONDecodeError)
  end.

(** What a handler hands back to the framework: a JSON response with
    its headers, a redirect with its [Location] header, or a plain
    value. *)
Inductive http_response : Type :=
| JSONResponse (content : value) (hdrs : list (string * string))
| Redirect (location : string)
| Returned (content : value).

(** [RedirectResponse(url=...)]: the response class of the framework puts
    [quote(str(url), safe=":/%#?=@[]!$&'()*+,;")] in the [Location]
    header. *)
Definition redirect_safe : string := ":/%#?=@[]!$&'()*+,;".

Definition RedirectResponse (url : string) : http_response :=
  Redirect (quote url redirect_safe).

(** Status of the reply the framework sends: an [HTTPException] carries
    its own, any other exception that leaves the handler is a 500. *)
Definition reply_status (r : result http_response) : Z :=
  match r with
  | Ok (Redirect _) => 307
  | Ok _ => 200
  | Raise (HTTPException s _) => s
  | Raise _ => 500
  end.

(** The [detail] field of an error reply. *)
Definition reply_detail (r : result http_response) : option string :=
  match r with
  | Raise (HTTPException _ d) => Some d
  | _ => None
  end.

Definition reply_content (r : result http_response) : option value :=
  match r with
  | Ok (JSONResponse c _) | Ok (Returned c) => Some c
  | _ => None
  end.

(** Handlers run against the requests sent so far. *)
Definition M (A : Type) : Type := list request -> result A * list request.

Definition ret {A : Type} (a : A) : M A := fun t => (Ok a, t).
Definition raise {A : Type} (e : exn) : M A := fun t => (Raise e, t).
Definition lift {A : Type} (r : result A) : M A := fun t => (r, t).

Definition mbind {A B : Type} (m : M A) (k : A -> M B) : M B :=
  fun t =>
    match m t with
    | (Ok a, t') => k a t'
    | (Raise e, t') => (Raise e, t')
    end.

Notation "x <- e ;; k" := (mbind e (fun x => k))
  (at level 61, e at next level, right associativity).

(** [try: m except ...: h]; [h e = None] when no clause matches [e]. *)
Definition try_except {A : Type} (m : M A) (h : exn -> option (M A)) : M A :=
  fun t =>
    match m t with
    | (Ok a, t') => (Ok a, t')
    | (Raise e, t') =>
        match h e with
        | Some k => k t'
        | None => (Raise e, t')
        end
    end.

Definition run {A : Type} (m : M A) : result A := fst (m []).

Definition cors_headers : list (string * string) :=
  [("Access-Control-Allow-Origin", "https://spotify-twitter-recap.vercel.app/");
   ("Access-Control-Allow-Credentials", "true")]%string.

Definition cors_headers_full : list (string * string) :=
  [("Access-Control-Allow-Origin", "https://spotify-twitter-recap.vercel.app/");
   ("Access-Control-Allow-Credentials", "true");
   ("Access-Control-Allow-Methods", "GET, POST, OPTIONS");
   ("Access-Control-Allow-Headers",
    "Content-Type, Authorization, Origin")]%string.

(** ** The request handlers *)

Section Handlers.

(** The three settings read from the environment at start-up. *)
Variables SPOTIFY_CLIENT_ID SPOTIFY_CLIENT_SECRET SPOTIFY_REDIRECT_URI
  : option string.

(** The upstream service: its answer to a request, given the requests it
    has already received, is a transport failure or a response. *)
Variable upstream : list request -> request -> string + response.

(** [str(e)] and the text an f-string gives a value. *)
Variable exn_str : exn -> string.
Variable value_str : value -> string.

(** [requests.request(method, url, headers=..., data=..., auth=...)] *)
Definition requests_request (method_ url_ : string)
    (headers_ : list (string * string)) (data_ : option value)
    (auth : option (option string * option string)) : request :=
  {| method := method_; url := url_;
     headers :=
       headers_ ++
       match auth with
       | Some (u, p) => [("Authorization", basic_auth_str u p)]%string
       | None => []
       end;
     data := data_ |}.

Definition send (req : request) : M response :=
  fun t =>
    (match upstream t req with
     | inl msg => Raise (RequestException (ConnectionError msg))
     | inr r => Ok r
     end, t ++ [req]).

Definition requests_get (url_ : string) (headers_ : list (string * string))
  : M response :=
  send (requests_request "GET" url_ headers_ None None).

(** [await request.json()] on the inbound request; [None] is a body that
    is not JSON. *)
Definition request_json (request_body : option value) : result value :=
  match request_body with
  | Some v => Ok v
  | None => Raise ValueError
  end.

(** The [Authorization] value built by [refresh_token]. *)
Definition refresh_authorization : result string :=
  let auth_string :=
    (format_env SPOTIFY_CLIENT_ID ++ ":"
     ++ format_env SPOTIFY_CLIENT_SECRET)%string in
  let* auth_bytes := encode_ascii auth_string in
  let* auth_header := decode_ascii (b64encode auth_bytes) in
  Ok ("Basic " ++ auth_header)%string.

Definition refresh_request (authorization : string) (refresh_token_ : value)
  : request :=
  requests_request "POST" "https://accounts.spotify.com/api/token"
    [("Authorization", authorization);
     ("Content-Type", "application/x-www-form-urlencoded")]%string
    (Some (VDict [(VStr "grant_type", VStr "refresh_token");
                  (VStr "refresh_token", refresh_token_)]))
    None.

Definition refresh_token (request_body : option value) : M http_response :=
  try_except
    (data_ <- lift (request_json request_body) ;;
     refresh_token_ <- lift (Py.get data_ "refresh_token" VNone) ;;
     if negb (Py.truthy refresh_token_)
     then raise (HTTPException 400 "Refresh token is required")
     else
       authorization <- lift refresh_authorization ;;
       response_ <- send (refresh_request authorization refresh_token_) ;;
       if negb (ok response_)
       then raise (HTTPException (status_code response_)
                     ("Failed to refresh token: " ++ text response_)%string)
       else
         token_data <- lift (json response_) ;;
         ret (JSONResponse token_data cors_headers))
    (fun e => Some (raise (HTTPException 500 (exn_str e)))).

(** The clause [except requests.exceptions.RequestException as e]. *)
Definition except_RequestException {A : Type} (detail : exn -> string)
    (e : exn) : option (M A) :=
  match e with
  | RequestException _ => Some (raise (HTTPException 500 (detail e)))
  | _ => None
  end.

Definition bearer (access_token : string) : list (string * string) :=
  [("Authorization", "Bearer " ++ access_token)]%string.

Definition get_recently_played (access_token : string) : M http_response :=
  try_except
    (response_ <- requests_get
        "https://api.spotify.com/v1/me/player/recently-played"
        (bearer access_token) ;;
     if status_code response_ =? 401
     then raise (HTTPException 401 "Token expired")
     else
       _ <- lift (raise_for_status response_) ;;
       content <- lift (json response_) ;;
       ret (Returned content))
    (except_RequestException exn_str).

Definition get_currently_playing (access_token : string) : M http_response :=
  try_except
    (response_ <- requests_get
        "https://api.spotify.com/v1/me/player/currently-playing"
        (bearer access_token) ;;
     if status_code response_ =? 204
     then ret (JSONResponse
                 (VDict [(VStr "is_playing", VBool false);
                         (VStr "track", VNone)])
                 cors_headers_full)
     else if status_code response_ =? 401
     then raise (HTTPException 401 "Token expired")
     else
       _ <- lift (raise_for_status response_) ;;
       data_ <- lift (json response_) ;;
       track_data <- lift (
         let* is_playing := Py.get data_ "is_playing" (VBool false) in
         let* item := Py.get data_ "item" (VDict []) in
         let* name_ := Py.get item "name" VNone in
         let* item := Py.get data_ "item" (VDict []) in
         let* artists_v := Py.get item "artists" (VList []) in
         let* artists_l := Py.iter artists_v in
         let* artists_ :=
           mapM (fun artist => Py.get artist "name" VNone) artists_l in
         let* item := Py.get data_ "item" (VDict []) in
         let* album := Py.get item "album" (VDict []) in
         let* album_name := Py.get album "name" VNone in
         let* item := Py.get data_ "item" (VDict []) in
         let* album := Py.get item "album" (VDict []) in
         let* album_images := Py.get album "images" (VList []) in
         let* item := Py.get data_ "item" (VDict []) in
         let* duration_ms := Py.get item "duration_ms" VNone in
         let* progress_ms := Py.get data_ "progress_ms" VNone in
         let* item := Py.get data_ "item" (VDict []) in
         let* external_urls := Py.get item "external_urls" (VDict []) in
         let* external_url_ := Py.get external_urls "spotify" VNone in
         Ok (VDict
               [(VStr "is_playing", is_playing);
                (VStr "track",
                 VDict
                   [(VStr "name", name_);
                    (VStr "artists", VList artists_);
                    (VStr "album",
                     VDict [(VStr "name", album_name);
                            (VStr "images", album_images)]);
                    (VStr "duration_ms", duration_ms);
                    (VStr "progress_ms", progress_ms);
                    (VStr "external_url", external_url_)])])) ;;
       ret (JSONResponse track_data cors_headers_full))
    (except_RequestException exn_str).

(** The token request of [callback]:
    [requests.post(token_url, data=payload, auth=auth)]. *)
Definition callback_token_request (code : string) : request :=
  requests_request "POST" "https://accounts.spotify.com/api/token" []
    (Some (VDict [(VStr "grant_type", VStr "authorization_code");
                  (VStr "code", VStr code);
                  (VStr "redirect_uri", env_value SPOTIFY_REDIRECT_URI)]))
    (Some (SPOTIFY_CLIENT_ID, SPOTIFY_CLIENT_SECRET)).

(** [requests.get(url, headers=headers).json()] *)
Definition get_json (url_ : string) (headers_ : list (string * string))
  : M value :=
  r <- requests_get url_ headers_ ;;
  lift (json r).

(** [**user_profile] inside a dictionary display. *)
Definition mapping (v : value) : result (Py.dict value) :=
  match v with
  | VDict d => Ok d
  | _ => Raise TypeError
  end.

Definition albums_value (l : list top_album) : value :=
  VList (map top_album_value l).

Definition callback (code : string) : M http_response :=
  try_except
    (response_ <- send (callback_token_request code) ;;
     _ <- lift (raise_for_status response_) ;;
     token_data <- lift (json response_) ;;
     access_token <- lift (Py.get token_data "access_token" VNone) ;;
     refresh_token_ <- lift (Py.get token_data "refresh_token" VNone) ;;
     expires_in <- lift (Py.get token_data "expires_in" (VInt 3600)) ;;
     if negb (Py.truthy access_token) || negb (Py.truthy refresh_token_)
     then raise (HTTPException 400 "Failed to retrieve tokens")
     else
       let headers_ := bearer (value_str access_token) in
       user_profile <- get_json "https://api.spotify.com/v1/me" headers_ ;;
       short_term_artists <- get_json
         "https://api.spotify.com/v1/me/top/artists?time_range=short_term&limit=10"
         headers_ ;;
       medium_term_artists <- get_json
         "https://api.spotify.com/v1/me/top/artists?time_range=medium_term&limit=10"
         headers_ ;;
       medium_term_artists_long <- get_json
         "https://api.spotify.com/v1/me/top/artists?time_range=medium_term&limit=50"
         headers_ ;;
       long_term_artists <- get_json
         "https://api.spotify.com/v1/me/top/artists?time_range=long_term&limit=10"
         headers_ ;;
       short_term_tracks <- get_json
         "https://api.spotify.com/v1/me/top/tracks?time_range=short_term&limit=10"
         headers_ ;;
       medium_term_tracks <- get_json
         "https://api.spotify.com/v1/me/top/tracks?time_range=medium_term&limit=10"
         headers_ ;;
       long_term_tracks <- get_json
         "https://api.spotify.com/v1/me/top/tracks?time_range=long_term&limit=10"
         headers_ ;;
       albums_short <- lift (get_top_albums short_term_tracks) ;;
       albums_medium <- lift (get_top_albums medium_term_tracks) ;;
       albums_long <- lift (get_top_albums long_term_tracks) ;;
       let top_albums :=
         VDict [(VStr "short_term", albums_value albums_short);
                (VStr "medium_term", albums_value albums_medium);
                (VStr "long_term", albums_value albums_long)] in
       short_term_genres <- lift (get_top_genres short_term_artists) ;;
       medium_term_genres <- lift (get_top_genres medium_term_artists) ;;
       long_term_genres <- lift (get_top_genres long_term_artists) ;;
       profile <- lift (mapping user_profile) ;;
       let user_data :=
         Py.merge profile
           [(VStr "access_token", access_token);
            (VStr "refresh_token", refresh_token_);
            (VStr "expires_in", expires_in);
            (VStr "short_term", short_term_artists);
            (VStr "medium_term", medium_term_artists);
            (VStr "long_term", long_term_artists);
            (VStr "long_term_tracks", long_term_tracks);
            (VStr "medium_term_tracks", medium_term_tracks);
            (VStr "medium_term_artists_long", medium_term_artists_long);
            (VStr "short_term_tracks", short_term_tracks);
            (VStr "top_albums", top_albums);
            (VStr "top_genres",
             VDict [(VStr "short_term", genres_value short_term_genres);
                    (VStr "medium_term", genres_value medium_term_genres);
                    (VStr "long_term", genres_value long_term_genres)])] in
       ret (JSONResponse (VDict user_data) cors_headers))
    (except_RequestException
       (fun e => ("Error exchanging token: " ++ exn_str e)%string)).

Definition login_auth_url : string :=
  ("https://accounts.spotify.com/authorize"
   ++ "?response_type=code"
   ++ "&client_id=" ++ format_env SPOTIFY_CLIENT_ID
   ++ "&redirect_uri=" ++ format_env SPOTIFY_REDIRECT_URI
   ++ "&scope=user-read-recently-played user-read-private user-read-email user-top-read user-read-currently-playing")%string.

Definition login : M http_response :=
  try_except
    (ret (RedirectResponse login_auth_url))
    (fun _ => Some (raise (HTTPException 500 "Error redirecting to Spotify."))).

End Handlers.

(** ** Notions the statements are phrased with *)

(** Number of elements of [ks] equal, as keys, to [k]. *)
Fixpoint occurrences (k : value) (ks : list value) : Z :=
  match ks with
  | [] => 0
  | x :: r => (if Py.key_eqb k x then 1 else 0) + occurrences k r
  end.

(** [ks] without the later repetitions of a key. *)
Fixpoint distinct (ks : list value) : list value :=
  match ks with
  | [] => []
  | k :: r => k :: filter (fun x => negb (Py.key_eqb k x)) (distinct r)
  end.

(** Position at which the key [k] is first met in [ks] ([length ks] when
    it never is). *)
Fixpoint first_index (k : value) (ks : list value) : nat :=
  match ks with
  | [] => O
  | x :: r => if Py.key_eqb k x then O else S (first_index k r)
  end.

(** The tracks [get_top_albums] runs over. *)
Definition track_list (tracks_data : value) : result (list value) :=
  let* items_v := Py.get tracks_data "items" (VList []) in
  Py.iter items_v.

(** The album id a track carries ([None] when it has none). *)
Definition track_album_id (track : value) : option value :=
  match Py.get track "album" (VDict []) with
  | Ok album =>
      match Py.get album "id" VNone with
      | Ok i => Some i
      | Raise _ => None
      end
  | Raise _ => None
  end.

Definition belongs_to (k : value) (track : value) : bool :=
  match track_album_id track with
  | Some i => Py.key_eqb k i
  | None => false
  end.

(** The album ids present in a track list, in order, one per track that
    has one. *)
Definition album_ids (items : list value) : list value :=
  flat_map (fun t => match track_album_id t with
                     | Some i => if Py.truthy i then [i] else []
                     | None => []
                     end) items.

(** The entry a track leaves in the [tracks] of its album. *)
Definition track_entry (track : value) : value :=
  VDict [(VStr "name",
          match Py.get track "name" VNone with Ok v => v | Raise _ => VNone end);
         (VStr "popularity",
          match Py.get track "popularity" VNone with
          | Ok v => v
          | Raise _ => VNone
          end)].

(** Each album of [d] holds the entries of the tracks of [items] that
    belong to it, in order. *)
Definition collected (d : Py.dict album_stat) (items : list value) : Prop :=
  Forall (fun kv => tracks (snd kv)
                    = map track_entry (filter (belongs_to (fst kv)) items)) d.

Definition sum_counts (l : list top_album) : Z :=
  fold_right (fun a acc => count (stats a) + acc) 0 l.

(** The genre tags [get_top_genres] runs over, artist after artist. *)
Definition artist_genres (artist : value) : result (list value) :=
  let* genres_v := Py.get artist "genres" (VList []) in
  Py.iter genres_v.

Definition genre_tags (artists_data : value) : result (list value) :=
  let* items_v := Py.get artists_data "items" (VList []) in
  let* items := Py.iter items_v in
  let* per_artist := mapM artist_genres items in
  Ok (concat per_artist).

(** Greater key first; for equal keys, the order [T]. *)
Definition desc_then {A : Type} (key : A -> Z) (T : A -> A -> Prop) (a b : A)
  : Prop :=
  key a > key b \/ (key a = key b /\ T a b).

(** Count descending, then first-seen order. *)
Definition genre_order (tags : list value) (a b : value * Z) : Prop :=
  snd a > snd b \/
  (snd a = snd b /\ (first_index (fst a) tags < first_index (fst b) tags)%nat).

(** [r] is the ranking of the keys of [p]: each distinct key of [p] once,
    with the number of its occurrences, by decreasing count and, for
    equal counts, in first-seen order. *)
Definition ranking (p : list value) (r : list (value * Z)) : Prop :=
  Permutation (map fst r) (distinct p) /\
  Forall (fun kc => snd kc = occurrences (fst kc) p) r /\
  StronglySorted (genre_order p) r.

(** Sum of the counts held in [d]. *)
Definition total {V : Type} (cnt : V -> Z) (d : Py.dict V) : Z :=
  fold_right (fun kv acc => cnt (snd kv) + acc) 0 d.

(** [d] tallies the keys [p] met so far: its keys are the distinct keys
    of [p] in first-seen order, each value counts (through [cnt]) the
    occurrences of its key, and the counts add up to the length of [p]. *)
Definition tallies {V : Type} (cnt : V -> Z) (d : Py.dict V) (p : list value)
  : Prop :=
  map fst d = distinct p /\
  Forall (fun kv => cnt (snd kv) = occurrences (fst kv) p) d /\
  total cnt d = Z.of_nat (length p) /\
  Forall (fun k => Py.hashable k = true) p.

(** An inbound body without a usable [refresh_token]: the field is
    absent, null or the empty string. *)
Definition lacks_refresh_token (d : Py.dict value) : Prop :=
  Py.lookup d (VStr "refresh_token") = None \/
  Py.lookup d (VStr "refresh_token") = Some VNone \/
  Py.lookup d (VStr "refresh_token") = Some (VStr "").

(** A tolerant reading of nested fields: the value under [k], or
    [default] when [k] is absent; the object under [k], or the empty
    object when [k] is absent. *)
Definition at_or (d : Py.dict value) (k : string) (default : value) : value :=
  match Py.lookup d (VStr k) with
  | Some v => v
  | None => default
  end.

Definition sub_object (d : Py.dict value) (k : string) : Py.dict value :=
  match Py.lookup d (VStr k) with
  | Some (VDict x) => x
  | _ => []
  end.

Definition name_of (o : value) : value :=
  match o with
  | VDict x => at_or x "name" VNone
  | _ => VNone
  end.

Definition elements (d : Py.dict value) (k : string) : list value :=
  match Py.lookup d (VStr k) with
  | Some (VList l) => l
  | _ => []
  end.

Definition absent_or_object (d : Py.dict value) (k : string) : Prop :=
  Py.lookup d (VStr k) = None \/
  exists x, Py.lookup d (VStr k) = Some (VDict x).

Definition absent_or_objects (d : Py.dict value) (k : string) : Prop :=
  Py.lookup d (VStr k) = None \/
  exists l, Py.lookup d (VStr k) = Some (VList l) /\
            Forall (fun o => exists x, o = VDict x) l.

(** The payload of [get_currently_playing] under that reading. *)
Definition tolerant_track_data (d : Py.dict value) : value :=
  let item := sub_object d "item" in
  VDict
    [(VStr "is_playing", at_or d "is_playing" (VBool false));
     (VStr "track",
      VDict
        [(VStr "name", at_or item "name" VNone);
         (VStr "artists", VList (map name_of (elements item "artists")));
         (VStr "album",
          VDict [(VStr "name", at_or (sub_object item "album") "name" VNone);
                 (VStr "images",
                  at_or (sub_object item "album") "images" (VList []))]);
         (VStr "duration_ms", at_or item "duration_ms" VNone);
         (VStr "progress_ms", at_or d "progress_ms" VNone);
         (VStr "external_url",
          at_or (sub_object item "external_urls") "spotify" VNone)])].

(** The payload when there is no [item] at all. *)
Definition no_item_track_data (d : Py.dict value) : value :=
  VDict
    [(VStr "is_playing", at_or d "is_playing" (VBool false));
     (VStr "track",
      VDict
        [(VStr "name", VNone);
         (VStr "artists", VList []);
         (VStr "album",
          VDict [(VStr "name", VNone); (VStr "images", VList [])]);
         (VStr "duration_ms", VNone);
         (VStr "progress_ms", at_or d "progress_ms" VNone);
         (VStr "external_url", VNone)])].

(** The sub-fields of [track] in a reply. *)
Definition track_subfields (content : value) : Py.dict value :=
  match content with
  | VDict c => sub_object c "track"
  | _ => []
  end.

(** Every character of [s] is an ASCII character. *)
Definition ascii_only (s : string) : bool :=
  forallb (fun c => (N_of_ascii c <? 128)%N) (list_ascii_of_string s).

(** The scopes [login] asks for. *)
Definition login_scopes : list string :=
  ["user-read-recently-played"; "user-read-private"; "user-read-email";
   "user-top-read"; "user-read-currently-playing"]%string.

(** Percent-encoding of a query parameter value: letters, digits and
    [- . _ ~] stand for themselves, any other character becomes [%XX]. *)
Definition unreserved (c : ascii) : bool :=
  let n := N_of_ascii c in
  ((65 <=? n) && (n <=? 90) || (97 <=? n) && (n <=? 122)
   || (48 <=? n) && (n <=? 57)
   || (n =? 45) || (n =? 46) || (n =? 95) || (n =? 126))%N.

Fixpoint url_quote (s : string) : string :=
  match s with
  | EmptyString => EmptyString
  | String c r =>
      if unreserved c then String c (url_quote r)
      else String "%" (String (hex_digit (N_of_ascii c / 16))
                         (String (hex_digit (N_of_ascii c mod 16))
                            (url_quote r)))
  end.

(** The authorize URL as the specification words it: the scopes joined
    by one space, then escaped as one query parameter value. *)
Definition spec_buildAuthorizeUrl (clientId redirectUri : string)
    (scopes : list string) : string :=
  ("https://accounts.spotify.com/authorize?response_type=code&client_id="
   ++ clientId ++ "&redirect_uri=" ++ redirectUri
   ++ "&scope=" ++ url_quote (String.concat " " scopes))%string.

(** Every character of [s] is one that the quoting of a redirect leaves
    as it is: a letter, a digit or one of [_.-~:/%#?=@[]!$&'()*+,;]. *)
Definition redirect_plain (s : string) : bool :=
  forallb (fun c => existsb (Ascii.eqb c) (safe_bytes redirect_safe))
          (list_ascii_of_string s).

(** The upstream answers the requests [reqs], sent in that order after
    the requests [sent], with the responses [resps]. *)
Fixpoint answered (upstream : list request -> request -> string + response)
    (sent reqs : list request) (resps : list response) : Prop :=
  match reqs, resps with
  | [], [] => True
  | q :: reqs', r :: resps' =>
      upstream sent q = inr r /\ answered upstream (sent ++ [q]) reqs' resps'
  | _, _ => False
  end.

(** The eight addresses [callback] fetches after the token exchange. *)
Definition callback_urls : list string :=
  ["https://api.spotify.com/v1/me";
   "https://api.spotify.com/v1/me/top/artists?time_range=short_term&limit=10";
   "https://api.spotify.com/v1/me/top/artists?time_range=medium_term&limit=10";
   "https://api.spotify.com/v1/me/top/artists?time_range=medium_term&limit=50";
   "https://api.spotify.com/v1/me/top/artists?time_range=long_term&limit=10";
   "https://api.spotify.com/v1/me/top/tracks?time_range=short_term&limit=10";
   "https://api.spotify.com/v1/me/top/tracks?time_range=medium_term&limit=10";
   "https://api.spotify.com/v1/me/top/tracks?time_range=long_term&limit=10"
  ]%string.

Definition succeeds {A : Type} (r : result A) : Prop := exists a, r = Ok a.

(** Inputs of the shape the upstream documents: a track is an object
    whose [album], when present, is an object with a scalar [id], a list of
    artist objects and an [external_urls] object (each of them optional);
    an artist is an object whose [genres], when present, is a list of
    scalars. *)
Definition listed (P : value -> Prop) (d : Py.dict value) (k : string) : Prop :=
  Py.lookup d (VStr k) = None \/
  exists l, Py.lookup d (VStr k) = Some (VList l) /\ Forall P l.

Definition well_formed_album (al : Py.dict value) : Prop :=
  Py.hashable (at_or al "id" VNone) = true /\
  absent_or_objects al "artists" /\
  absent_or_object al "external_urls".

Definition well_formed_track (t : value) : Prop :=
  exists d, t = VDict d /\ absent_or_object d "album" /\
            well_formed_album (sub_object d "album").

Definition well_formed_tracks (tracks_data : value) : Prop :=
  exists d, tracks_data = VDict d /\ listed well_formed_track d "items".

Definition well_formed_artist (a : value) : Prop :=
  exists d, a = VDict d /\
            listed (fun g => Py.hashable g = true) d "genres".

Definition well_formed_artists (artists_data : value) : Prop :=
  exists d, artists_data = VDict d /\ listed well_formed_artist d "items".

(** ** Sample inputs *)

(** A token response without [expires_in]. *)
Definition sample_token_data : Py.dict value :=
  [(VStr "access_token", VStr "a"); (VStr "refresh_token", VStr "r")].

(** A client id with one character outside ASCII (code point 233). *)
Definition latin1_client_id : option string :=
  Some (String "233"%char EmptyString).

(** An upstream that gives every request the same response. *)
Definition upstream_always (r : response)
  : list request -> request -> string + response :=
  fun _ _ => inr r.

Definition sample_response (status : Z) (b : option value) : response :=
  {| status_code := status; text := ""; body := b |}.

Definition sample_exn_str (e : exn) : string :=
  match e with
  | HTTPException _ d => d
  | _ => "error"
  end.

Definition sample_value_str (v : value) : string :=
  match v with
  | VStr s => s
  | _ => ""
  end.

(** [n] artists tagged with the single genre [genre]. *)
Definition artists_tagged (genre : string) (n : nat) : list value :=
  repeat (VDict [(VStr "genres", VList [VStr genre])]) n.

Definition sample_artists : value :=
  VDict [(VStr "items",
          VList (artists_tagged "pop" 15 ++ artists_tagged "rock" 3))].

Definition track_without_album_id : value :=
  VDict [(VStr "album", VDict []); (VStr "name", VStr "t1")].

Definition sample_track (album name_ : string) : value :=
  VDict [(VStr "album", VDict [(VStr "id", VStr album)]);
         (VStr "name", VStr name_)].

Definition sample_items : list value :=
  [sample_track "A1" "t1"; sample_track "A1" "t2"; sample_track "A2" "t3"].

Definition sample_aggregate (album : string) (n : Z) (names : list string)
  : top_album :=
  {| stats :=
       {| name := VNone; artists := []; images := VList [];
          release_date := VNone; total_tracks := VNone;
          external_url := VNone; count := n;
          tracks :=
            map (fun t => VDict [(VStr "name", VStr t);
                                 (VStr "popularity", VNone)]) names |};
     album_id := VStr album |}.

Definition sample_tracks : value := VDict [(VStr "items", VList sample_items)].

Definition sample_top_albums : list top_album :=
  [sample_aggregate "A1" 2 ["t1"; "t2"]%string;
   sample_aggregate "A2" 1 ["t3"]%string].

Definition sample_genres : Py.dict Z := [(VStr "pop", 15); (VStr "rock", 3)].

(** Eleven names, the last of them met twice. *)
Definition ten_names : list string :=
  ["b"; "c"; "d"; "e"; "f"; "g"; "h"; "i"; "j"; "k"]%string.

Definition eleven_names : list string := ten_names ++ ["a"; "a"]%string.

(** Twelve artists over eleven genres, and the ten genres kept. *)
Definition eleven_genres_artists : value :=
  VDict [(VStr "items", VList (flat_map (fun g => artists_tagged g 1)
                                 eleven_names))].

Definition eleven_genres_top : Py.dict Z :=
  (VStr "a", 2) :: map (fun g => (VStr g, 1)) (removelast ten_names).

(** Twelve tracks over eleven albums, and the ten albums kept. *)
Definition eleven_albums_items : list value :=
  map (fun a => sample_track a "t") eleven_names.

Definition eleven_albums_tracks : value :=
  VDict [(VStr "items", VList eleven_albums_items)].

Definition eleven_albums_top : list top_album :=
  sample_aggregate "a" 2 ["t"; "t"]%string
  :: map (fun a => sample_aggregate a 1 ["t"]%string) (removelast ten_names).

(** ** Further notions *)

(** Count descending, then the order in which the album ids were first
    met. *)
Definition album_order (ids : list value) (a b : top_album) : Prop :=
  count (stats a) > count (stats b) \/
  (count (stats a) = count (stats b) /\
   (first_index (album_id a) ids < first_index (album_id b) ids)%nat).

(** The descriptive fields of two album records agree. *)
Definition same_metadata (a b : album_stat) : Prop :=
  name a = name b /\ artists a = artists b /\ images a = images b /\
  release_date a = release_date b /\ total_tracks a = total_tracks b /\
  external_url a = external_url b.

(** Each album of [d] is described by the first track of [items] that
    belongs to it, and is keyed by the id object of that track. *)
Definition sourced (d : Py.dict album_stat) (items : list value) : Prop :=
  Forall (fun kv =>
            exists t album fresh,
              find (belongs_to (fst kv)) items = Some t /\
              Py.get t "album" (VDict []) = Ok album /\
              Py.get album "id" VNone = Ok (fst kv) /\
              new_album_stat album = Ok fresh /\
              same_metadata (snd kv) fresh) d.

(** The exceptions a malformed input provokes. *)
Definition shape_error (e : exn) : Prop :=
  e = AttributeError \/ e = TypeError.

Definition raises_only {A : Type} (P : exn -> Prop) (r : result A) : Prop :=
  forall e, r = Raise e -> P e.

(** The requests a handler has sent when it ends. *)
Definition trace {A : Type} (m : M A) : list request := snd (m []).

(** A track [get_top_albums] can get past: an object whose [album] is
    absent or an object, with an id that is absent, falsy or hashable. *)
Definition usable_track (t : value) : Prop :=
  exists td,
    t = VDict td /\ absent_or_object td "album" /\
    (Py.truthy (at_or (sub_object td "album") "id" VNone) = true ->
     Py.hashable (at_or (sub_object td "album") "id" VNone) = true).

(** The eight fetches of [callback], carrying the token text [t]. *)
Definition callback_fetches (t : string) : list request :=
  map (fun u => requests_request "GET" u (bearer t) None None) callback_urls.

(** What [callback] gathers when every exchange goes through: the token
    response, the profile and the seven listings. *)
Record callback_exchange : Type := {
  cx_token : Py.dict value;
  cx_profile : Py.dict value;
  cx_short_artists : value;
  cx_medium_artists : value;
  cx_medium_artists_long : value;
  cx_long_artists : value;
  cx_short_tracks : value;
  cx_medium_tracks : value;
  cx_long_tracks : value
}.

Definition cx_access_token (x : callback_exchange) : value :=
  at_or (cx_token x) "access_token" VNone.

Definition cx_refresh_token (x : callback_exchange) : value :=
  at_or (cx_token x) "refresh_token" VNone.

Definition cx_bodies (x : callback_exchange) : list value :=
  [VDict (cx_profile x); cx_short_artists x; cx_medium_artists x;
   cx_medium_artists_long x; cx_long_artists x;
   cx_short_tracks x; cx_medium_tracks x; cx_long_tracks x].

(** The upstream answers the token request with a usable token response
    and each of the eight fetches with the JSON bodies of [x], under any
    status code. *)
Definition exchanged (upstream : list request -> request -> string + response)
    (value_str : value -> string) (token_req : request)
    (x : callback_exchange) : Prop :=
  exists r0 rs,
    answered upstream []
      (token_req :: callback_fetches (value_str (cx_access_token x)))
      (r0 :: rs) /\
    ok r0 = true /\ body r0 = Some (VDict (cx_token x)) /\
    Py.truthy (cx_access_token x) = true /\
    Py.truthy (cx_refresh_token x) = true /\
    map body rs = map Some (cx_bodies x).

(** The three aggregations of top albums and of top genres succeed. *)
Definition aggregated (x : callback_exchange)
    (albums : list (list top_album)) (genres : list (Py.dict Z)) : Prop :=
  map get_top_albums
      [cx_short_tracks x; cx_medium_tracks x; cx_long_tracks x]
  = map Ok albums /\
  map get_top_genres
      [cx_short_artists x; cx_medium_artists x; cx_long_artists x]
  = map Ok genres.

Definition terms_value (l : list value) : value :=
  VDict (combine [VStr "short_term"; VStr "medium_term"; VStr "long_term"] l).

(** The payload [callback] composes. *)
Definition composed_payload (x : callback_exchange)
    (albums : list (list top_album)) (genres : list (Py.dict Z))
  : Py.dict value :=
  Py.merge (cx_profile x)
    [(VStr "access_token", cx_access_token x);
     (VStr "refresh_token", cx_refresh_token x);
     (VStr "expires_in", at_or (cx_token x) "expires_in" (VInt 3600));
     (VStr "short_term", cx_short_artists x);
     (VStr "medium_term", cx_medium_artists x);
     (VStr "long_term", cx_long_artists x);
     (VStr "long_term_tracks", cx_long_tracks x);
     (VStr "medium_term_tracks", cx_medium_tracks x);
     (VStr "medium_term_artists_long", cx_medium_artists_long x);
     (VStr "short_term_tracks", cx_short_tracks x);
     (VStr "top_albums", terms_value (map albums_value albums));
     (VStr "top_genres", terms_value (map genres_value genres))].

(** The keys [callback] sets itself. *)
Definition callback_keys : list string :=
  ["access_token"; "refresh_token"; "expires_in"; "short_term";
   "medium_term"; "long_term"; "long_term_tracks"; "medium_term_tracks";
   "medium_term_artists_long"; "short_term_tracks"; "top_albums";
   "top_genres"]%string.

(** A sample exchange: every response is the sample token response. *)
Definition sample_exchange : callback_exchange :=
  {| cx_token := sample_token_data; cx_profile := sample_token_data;
     cx_short_artists := VDict sample_token_data;
     cx_medium_artists := VDict sample_token_data;
     cx_medium_artists_long := VDict sample_token_data;
     cx_long_artists := VDict sample_token_data;
     cx_short_tracks := VDict sample_token_data;
     cx_medium_tracks := VDict sample_token_data;
     cx_long_tracks := VDict sample_token_data |}.

Definition sample_upstream : list request -> request -> string + response :=
  upstream_always (sample_response 200 (Some (VDict sample_token_data))).

(** An upstream that answers the first request and is unreachable
    afterwards. *)
Definition sample_upstream_down
  : list request -> request -> string + response :=
  fun sent _ =>
    match sent with
    | [] => inr (sample_response 200 (Some (VDict sample_token_data)))
    | _ => inl "unreachable"%string
    end.

(** * Properties *)

(** ** Key equality *)

Lemma Qeq_bool_refl' (q : Q) : Qeq_bool q q = true.
Proof. apply Qeq_bool_iff. reflexivity. Qed.

Lemma Qeq_bool_comm (x y : Q) : Qeq_bool x y = Qeq_bool y x.
Proof.
  destruct (Qeq_bool x y) eqn:E, (Qeq_bool y x) eqn:F; try reflexivity.
  - apply Qeq_bool_iff in E. symmetry in E. apply Qeq_bool_iff in E. congruence.
  - apply Qeq_bool_iff in F. symmetry in F. apply Qeq_bool_iff in F. congruence.
Qed.

Lemma Qeq_bool_trans' (x y z : Q) :
  Qeq_bool x y = true -> Qeq_bool y z = true -> Qeq_bool x z = true.
Proof.
  rewrite !Qeq_bool_iff. intros H1 H2. now rewrite H1.
Qed.

Lemma key_eqb_refl (v : value) : Py.hashable v = true -> Py.key_eqb v v = true.
Proof.
  destruct v; simpl; try discriminate; intros _; unfold Py.key_eqb; simpl;
    auto using Qeq_bool_refl', String.eqb_refl.
Qed.

Lemma key_eqb_sym (a b : value) : Py.key_eqb a b = Py.key_eqb b a.
Proof.
  unfold Py.key_eqb.
  destruct (Py.num a) eqn:Ea, (Py.num b) eqn:Eb; try reflexivity.
  - apply Qeq_bool_comm.
  - destruct a, b; try reflexivity. apply String.eqb_sym.
Qed.

Lemma key_eqb_trans (a b c : value) :
  Py.key_eqb a b = true -> Py.key_eqb b c = true -> Py.key_eqb a c = true.
Proof.
  unfold Py.key_eqb.
  destruct (Py.num a) eqn:Ea, (Py.num b) eqn:Eb, (Py.num c) eqn:Ec;
    try discriminate.
  - apply Qeq_bool_trans'.
  - destruct a, b, c; try discriminate; try reflexivity.
    rewrite !String.eqb_eq. congruence.
Qed.

Lemma key_eqb_hashable (a b : value) :
  Py.key_eqb a b = true -> Py.hashable a = true /\ Py.hashable b = true.
Proof.
  unfold Py.key_eqb. destruct a, b; simpl; try discriminate; auto.
Qed.

Lemma truthy_num (v : value) (q : Q) :
  Py.num v = Some q -> Py.truthy v = negb (Qeq_bool q 0).
Proof.
  destruct v; simpl; try discriminate; intros [= <-]; try reflexivity.
  - now destruct b.
  - f_equal. unfold Qeq_bool, inject_Z. simpl. now rewrite Z.mul_1_r.
Qed.

Lemma key_eqb_truthy (a b : value) :
  Py.key_eqb a b = true -> Py.truthy a = Py.truthy b.
Proof.
  unfold Py.key_eqb.
  destruct (Py.num a) eqn:Ea, (Py.num b) eqn:Eb; try discriminate.
  - intros H. rewrite (truthy_num _ _ Ea), (truthy_num _ _ Eb). f_equal.
    destruct (Qeq_bool q 0) eqn:E0, (Qeq_bool q0 0) eqn:E1; try reflexivity.
    + rewrite Qeq_bool_comm in H.
      now rewrite (Qeq_bool_trans' _ _ _ H E0) in E1.
    + now rewrite (Qeq_bool_trans' _ _ _ H E1) in E0.
  - destruct a, b; try discriminate; try reflexivity.
    rewrite String.eqb_eq. now intros ->.
Qed.

(** ** Lists in order *)

Lemma StronglySorted_filter {A : Type} (R : A -> A -> Prop) (f : A -> bool)
    (l : list A) :
  StronglySorted R l -> StronglySorted R (filter f l).
Proof.
  induction 1 as [|a l Hl IH Ha]; simpl; [constructor|].
  destruct (f a); [|exact IH].
  constructor; [exact IH|].
  rewrite Forall_forall in *. intros x Hx. apply filter_In in Hx. now apply Ha.
Qed.

Lemma In_firstn {A : Type} (n : nat) (l : list A) (x : A) :
  In x (firstn n l) -> In x l.
Proof.
  revert n. induction l as [|a l IH]; intros [|n]; simpl; try tauto.
  intros [H|H]; eauto.
Qed.

Lemma StronglySorted_firstn {A : Type} (R : A -> A -> Prop) (n : nat)
    (l : list A) :
  StronglySorted R l -> StronglySorted R (firstn n l).
Proof.
  intros H. revert n. induction H as [|a l Hl IH Ha]; intros [|n]; simpl;
    try constructor.
  - apply IH.
  - rewrite Forall_forall in *. intros x Hx. apply Ha.
    eapply In_firstn; eauto.
Qed.

Lemma StronglySorted_weaken {A : Type} (R S : A -> A -> Prop) (l : list A) :
  (forall a b, R a b -> S a b) -> StronglySorted R l -> StronglySorted S l.
Proof.
  intros HRS. induction 1 as [|a l Hl IH Ha]; constructor; auto.
  eapply Forall_impl; [|exact Ha]. auto.
Qed.

Lemma StronglySorted_weaken_in {A : Type} (R S : A -> A -> Prop) (l : list A) :
  (forall a b, In a l -> In b l -> R a b -> S a b) ->
  StronglySorted R l -> StronglySorted S l.
Proof.
  intros HRS H. induction H as [|a l Hl IH Ha]; constructor.
  - apply IH. intros x y Hx Hy. apply HRS; now right.
  - rewrite Forall_forall in *. intros x Hx.
    apply HRS; [now left | now right | auto].
Qed.

Lemma StronglySorted_perm_sym {A : Type} (R : A -> A -> Prop) (l l' : list A) :
  (forall a b, R a b -> R b a) ->
  Permutation l l' -> StronglySorted R l -> StronglySorted R l'.
Proof.
  intros Hsym. induction 1 as [|x l l' Hp IH|x y l|l l' l'' H1 IH1 H2 IH2];
    intros H; auto.
  - inversion H; subst. constructor; auto.
    eapply Permutation_Forall; eauto.
  - inversion H as [|? ? Hs Hf]; subst. inversion Hs as [|? ? Hs' Hf']; subst.
    inversion Hf; subst. repeat constructor; auto.
Qed.

Lemma StronglySorted_map {A B : Type} (R : B -> B -> Prop) (g : A -> B)
    (l : list A) :
  StronglySorted R (map g l) <-> StronglySorted (fun a b => R (g a) (g b)) l.
Proof.
  induction l as [|a l IH]; simpl.
  - split; constructor.
  - split; intros H; inversion H; subst; constructor;
      try (apply IH; assumption).
    + now apply Forall_map.
    + now apply Forall_map.
Qed.

Lemma StronglySorted_mid {A : Type} (R : A -> A -> Prop) (l1 l2 : list A)
    (a : A) :
  StronglySorted R (l1 ++ a :: l2) -> Forall (R a) l2.
Proof.
  induction l1 as [|x l1 IH]; simpl; intros H; inversion H; subst; auto.
Qed.

(** ** The stable descending sort *)

Section SortFacts.
Context {A : Type} (key : A -> Z).

Lemma insert_desc_perm (x : A) (l : list A) :
  Permutation (insert_desc key x l) (x :: l).
Proof.
  induction l as [|y r IH]; simpl; [reflexivity|].
  destruct (key x <? key y); [|reflexivity].
  rewrite IH. apply perm_swap.
Qed.

Lemma sort_desc_perm (l : list A) : Permutation (sort_desc key l) l.
Proof.
  induction l as [|x r IH]; simpl; [reflexivity|].
  rewrite insert_desc_perm. now constructor.
Qed.

Lemma sort_desc_length (l : list A) : length (sort_desc key l) = length l.
Proof. apply Permutation_length, sort_desc_perm. Qed.

(** Sorting a list already in order for [T] yields a list in order for
    "greater key, or equal key and [T]": equal keys keep their order. *)
Section Ties.
Variable T : A -> A -> Prop.

Lemma insert_desc_sorted (x : A) (l : list A) :
  StronglySorted (desc_then key T) l -> Forall (T x) l ->
  StronglySorted (desc_then key T) (insert_desc key x l).
Proof.
  induction 1 as [|y r Hr IH Hy]; intros HT; simpl.
  - repeat constructor.
  - inversion HT as [|? ? HTy HTr]; subst.
    destruct (key x <? key y) eqn:E.
    + apply Z.ltb_lt in E. constructor; [now apply IH|].
      eapply Permutation_Forall.
      * symmetry. apply insert_desc_perm.
      * constructor; [left; lia | exact Hy].
    + apply Z.ltb_ge in E. constructor; [now constructor|].
      constructor.
      * destruct (Z.eq_dec (key x) (key y)); [right; now split | left; lia].
      * rewrite Forall_forall in *. intros z Hz.
        assert (key y >= key z) by (destruct (Hy z Hz) as [?|[? _]]; lia).
        destruct (Z.eq_dec (key x) (key z)); [right; split; auto | left; lia].
Qed.

Lemma sort_desc_sorted (l : list A) :
  StronglySorted T l -> StronglySorted (desc_then key T) (sort_desc key l).
Proof.
  induction 1 as [|x r Hr IH Hx]; simpl; [constructor|].
  apply insert_desc_sorted; [exact IH|].
  eapply Permutation_Forall; [symmetry; apply sort_desc_perm | exact Hx].
Qed.

End Ties.

Lemma sort_desc_nonincreasing (l : list A) :
  StronglySorted (fun a b => key a >= key b) (sort_desc key l).
Proof.
  apply StronglySorted_weaken with (R := desc_then key (fun _ _ => True)).
  - intros a b [H|[H _]]; lia.
  - apply sort_desc_sorted. induction l; constructor; auto.
    now apply Forall_forall.
Qed.

End SortFacts.

(** ** Counting keys *)

Lemma occurrences_app (k : value) (p q : list value) :
  occurrences k (p ++ q) = occurrences k p + occurrences k q.
Proof. induction p as [|x p IH]; simpl; [reflexivity | rewrite IH; lia]. Qed.

Lemma occurrences_nonneg (k : value) (p : list value) : 0 <= occurrences k p.
Proof.
  induction p as [|x p IH]; simpl; [lia|]. destruct (Py.key_eqb k x); lia.
Qed.

Lemma occurrences_absent (k : value) (p : list value) :
  existsb (Py.key_eqb k) p = false -> occurrences k p = 0.
Proof.
  induction p as [|x p IH]; simpl; [reflexivity|].
  destruct (Py.key_eqb k x); simpl; [discriminate | auto].
Qed.

Lemma existsb_filter_other (a k : value) (l : list value) :
  Py.key_eqb k a = false ->
  existsb (Py.key_eqb k) (filter (fun x => negb (Py.key_eqb a x)) l)
  = existsb (Py.key_eqb k) l.
Proof.
  intros Hka. induction l as [|x l IH]; simpl; [reflexivity|].
  destruct (Py.key_eqb a x) eqn:Eax; simpl; rewrite IH; [|reflexivity].
  destruct (Py.key_eqb k x) eqn:Ekx; [|reflexivity].
  rewrite key_eqb_sym in Eax.
  now rewrite (key_eqb_trans _ _ _ Ekx Eax) in Hka.
Qed.

Lemma existsb_distinct (k : value) (p : list value) :
  existsb (Py.key_eqb k) (distinct p) = existsb (Py.key_eqb k) p.
Proof.
  induction p as [|a p IH]; simpl; [reflexivity|].
  destruct (Py.key_eqb k a) eqn:E; simpl; [reflexivity|].
  now rewrite existsb_filter_other.
Qed.

Lemma distinct_snoc (p : list value) (k : value) :
  distinct (p ++ [k])
  = distinct p ++ (if existsb (Py.key_eqb k) p then [] else [k]).
Proof.
  induction p as [|a p IH]; simpl; [reflexivity|].
  rewrite IH, filter_app. f_equal. f_equal.
  rewrite (key_eqb_sym k a).
  destruct (existsb (Py.key_eqb k) p); simpl.
  - now rewrite orb_true_r.
  - rewrite orb_false_r. now destruct (Py.key_eqb a k).
Qed.

Lemma distinct_pairwise (p : list value) :
  StronglySorted (fun a b => Py.key_eqb a b = false) (distinct p).
Proof.
  induction p as [|a p IH]; simpl; constructor.
  - now apply StronglySorted_filter.
  - apply Forall_forall. intros x Hx. apply filter_In in Hx.
    destruct Hx as [_ Hx]. now apply negb_true_iff in Hx.
Qed.

Lemma distinct_length (p : list value) : (length (distinct p) <= length p)%nat.
Proof.
  induction p as [|a p IH]; simpl; [lia|].
  pose proof (filter_length_le (fun x => negb (Py.key_eqb a x)) (distinct p)).
  lia.
Qed.

(** ** Dictionaries *)

Section DictFacts.
Context {V : Type}.
Implicit Types (d : Py.dict V) (k : value).

Lemma lookup_None d k :
  Py.lookup d k = None <->
  Forall (fun kv => Py.key_eqb (fst kv) k = false) d.
Proof.
  induction d as [|[k' v] r IH]; simpl.
  - split; auto.
  - destruct (Py.key_eqb k' k) eqn:E.
    + split; [discriminate|]. inversion 1; simpl in *; congruence.
    + rewrite IH. split; [intros; constructor; auto | inversion 1; auto].
Qed.

Lemma absent_keys d k :
  Forall (fun kv => Py.key_eqb (fst kv) k = false) d ->
  existsb (Py.key_eqb k) (map fst d) = false.
Proof.
  induction 1 as [|kv r Hkv Hr IH]; simpl; [reflexivity|].
  now rewrite key_eqb_sym, Hkv, IH.
Qed.

Lemma set_absent d k (v : V) :
  Py.lookup d k = None -> Py.set d k v = d ++ [(k, v)].
Proof.
  induction d as [|[k' v'] r IH]; simpl; [reflexivity|].
  destruct (Py.key_eqb k' k); [discriminate|]. intros H. now rewrite IH.
Qed.

Lemma set_present d k (v v0 : V) :
  Py.lookup d k = Some v0 ->
  Py.modify d k (fun _ => v) = Ok (Py.set d k v).
Proof.
  induction d as [|[k' v'] r IH]; simpl; [discriminate|].
  destruct (Py.key_eqb k' k); [reflexivity|]. intros H. now rewrite (IH H).
Qed.

Lemma modify_spec d k (f : V -> V) d' :
  Py.modify d k f = Ok d' ->
  exists d1 k0 v0 d2,
    d = d1 ++ (k0, v0) :: d2 /\ d' = d1 ++ (k0, f v0) :: d2 /\
    Py.key_eqb k0 k = true /\
    Forall (fun kv => Py.key_eqb (fst kv) k = false) d1 /\
    Py.lookup d k = Some v0.
Proof.
  revert d'. induction d as [|[k' v'] r IH]; simpl; intros d'; [discriminate|].
  destruct (Py.key_eqb k' k) eqn:E.
  - intros [= <-]. exists [], k', v', r. simpl. auto.
  - destruct (Py.modify r k f) as [r'|] eqn:M; simpl; [|discriminate].
    intros [= <-].
    destruct (IH _ eq_refl) as (d1 & k0 & v0 & d2 & -> & -> & ? & ? & ?).
    exists ((k', v') :: d1), k0, v0, d2. simpl. repeat split; auto.
Qed.

Lemma modify_present d k (f : V -> V) v0 :
  Py.lookup d k = Some v0 -> exists d', Py.modify d k f = Ok d'.
Proof.
  induction d as [|[k' v'] r IH]; simpl; [discriminate|].
  destruct (Py.key_eqb k' k); [eauto|].
  intros H. destruct (IH H) as [r' ->]. simpl. eauto.
Qed.

Lemma modify_absent_snoc d k (v : V) (f : V -> V) :
  Py.lookup d k = None -> Py.key_eqb k k = true ->
  Py.modify (d ++ [(k, v)]) k f = Ok (d ++ [(k, f v)]).
Proof.
  induction d as [|[k' v'] r IH]; simpl.
  - now intros _ ->.
  - destruct (Py.key_eqb k' k); [discriminate|].
    intros H1 H2. now rewrite IH.
Qed.

Lemma modify_modify d k (f g : V -> V) d1 d2 :
  Py.modify d k f = Ok d1 -> Py.modify d1 k g = Ok d2 ->
  Py.modify d k (fun v => g (f v)) = Ok d2.
Proof.
  revert d1 d2. induction d as [|[k' v'] r IH]; simpl; intros d1 d2;
    [discriminate|].
  destruct (Py.key_eqb k' k) eqn:E.
  - intros [= <-]. simpl. now rewrite E.
  - destruct (Py.modify r k f) as [r1|] eqn:M; simpl; [|discriminate].
    intros [= <-]. simpl. rewrite E.
    destruct (Py.modify r1 k g) as [r2|] eqn:M2; simpl; [|discriminate].
    intros [= <-]. now rewrite (IH _ _ eq_refl M2).
Qed.

(** [dict(pairs)] is [pairs] itself when no key is repeated. *)
Lemma of_pairs_distinct (l : list (value * V)) :
  StronglySorted (fun a b => Py.key_eqb (fst a) (fst b) = false) l ->
  Py.of_pairs l = l.
Proof.
  unfold Py.of_pairs.
  enough (G : forall acc,
    StronglySorted (fun a b => Py.key_eqb (fst a) (fst b) = false) (acc ++ l) ->
    fold_left (fun d kv => Py.set d (fst kv) (snd kv)) l acc = acc ++ l)
    by (intros H; exact (G [] H)).
  induction l as [|[k v] r IH]; simpl; intros acc H.
  - now rewrite app_nil_r.
  - rewrite set_absent.
    + rewrite IH; rewrite <- app_assoc; [reflexivity | exact H].
    + apply lookup_None. clear IH.
      induction acc as [|a acc IHa]; [constructor|].
      simpl in H. inversion H as [|? ? Hs Hf]; subst. constructor.
      * rewrite Forall_forall in Hf. apply (Hf (k, v)).
        apply in_or_app. right. now left.
      * now apply IHa.
Qed.

Section Tally.
Variable cnt : V -> Z.

Lemma total_app d1 d2 : total cnt (d1 ++ d2) = total cnt d1 + total cnt d2.
Proof.
  induction d1 as [|kv r IH]; simpl; [reflexivity | rewrite IH; lia].
Qed.

Lemma tallies_nil : tallies cnt [] [].
Proof. repeat split; constructor. Qed.

Lemma tallies_new d p k (v : V) :
  tallies cnt d p -> Py.lookup d k = None -> cnt v = 1 ->
  Py.hashable k = true ->
  tallies cnt (d ++ [(k, v)]) (p ++ [k]).
Proof.
  intros (Hk & Hc & Ht & Hh) Hl Hv Hhk.
  apply lookup_None in Hl.
  assert (Hex : existsb (Py.key_eqb k) p = false).
  { rewrite <- existsb_distinct, <- Hk. now apply absent_keys. }
  repeat split.
  - now rewrite map_app, Hk, distinct_snoc, Hex.
  - apply Forall_app. split.
    + rewrite Forall_forall in *. intros kv Hkv.
      rewrite occurrences_app, <- (Hc kv Hkv). simpl.
      rewrite (Hl kv Hkv). lia.
    + constructor; [|constructor]. simpl.
      rewrite occurrences_app, (occurrences_absent _ _ Hex). simpl.
      rewrite (key_eqb_refl _ Hhk). lia.
  - rewrite total_app, Ht, length_app. simpl. lia.
  - apply Forall_app. split; auto.
Qed.

(** An update in place touches one entry; no other key of a tally equals
    the updated one. *)
Lemma modify_shape d p k (f : V -> V) d' :
  map fst d = distinct p -> Py.modify d k f = Ok d' ->
  exists d1 k0 v0 d2,
    d = d1 ++ (k0, v0) :: d2 /\ d' = d1 ++ (k0, f v0) :: d2 /\
    Py.key_eqb k0 k = true /\ Py.lookup d k = Some v0 /\
    Forall (fun kv => Py.key_eqb (fst kv) k = false) d1 /\
    Forall (fun kv => Py.key_eqb (fst kv) k = false) d2.
Proof.
  intros Hk Hm.
  destruct (modify_spec _ _ _ _ Hm)
    as (d1 & k0 & v0 & d2 & -> & -> & Hk0 & Hd1 & Hl).
  exists d1, k0, v0, d2. repeat split; auto.
  pose proof (distinct_pairwise p) as Hp. rewrite <- Hk, map_app in Hp.
  simpl in Hp. apply StronglySorted_mid in Hp.
  rewrite Forall_forall in *. intros kv Hkv.
  destruct (Py.key_eqb (fst kv) k) eqn:E; [|reflexivity].
  rewrite key_eqb_sym in E.
  rewrite <- (Hp (fst kv) (in_map fst _ _ Hkv)).
  symmetry. exact (key_eqb_trans _ _ _ Hk0 E).
Qed.

Lemma tallies_bump d p k (f : V -> V) d' :
  tallies cnt d p -> Py.modify d k f = Ok d' ->
  (forall v0, Py.lookup d k = Some v0 -> cnt (f v0) = cnt v0 + 1) ->
  tallies cnt d' (p ++ [k]).
Proof.
  intros (Hk & Hc & Ht & Hh) Hm Hf.
  destruct (modify_shape _ _ _ _ _ Hk Hm)
    as (d1 & k0 & v0 & d2 & -> & -> & Hk0 & Hl & Hd1 & Hd2).
  specialize (Hf _ Hl).
  assert (Hex : existsb (Py.key_eqb k) p = true).
  { rewrite <- existsb_distinct, <- Hk. apply existsb_exists. exists k0.
    split; [|now rewrite key_eqb_sym].
    rewrite map_app. apply in_or_app. right. now left. }
  apply Forall_app in Hc. destruct Hc as [Hc1 Hc2].
  inversion Hc2 as [|? ? Hc0 Hc3]; subst. simpl in Hc0.
  repeat split.
  - rewrite distinct_snoc, Hex, app_nil_r, <- Hk, !map_app. reflexivity.
  - apply Forall_app. split; [|constructor].
    + rewrite Forall_forall in *. intros kv Hkv.
      rewrite occurrences_app, <- (Hc1 kv Hkv). simpl.
      rewrite (Hd1 kv Hkv). lia.
    + simpl. rewrite occurrences_app, Hf, Hc0. simpl. rewrite Hk0. lia.
    + rewrite Forall_forall in *. intros kv Hkv.
      rewrite occurrences_app, <- (Hc3 kv Hkv). simpl.
      rewrite (Hd2 kv Hkv). lia.
  - rewrite total_app in *. simpl in *. rewrite length_app. simpl. lia.
  - apply Forall_app. split; auto. constructor; [|constructor].
    apply (key_eqb_hashable _ _ Hk0).
Qed.

End Tally.
End DictFacts.

Section LookupFacts.
Context {V : Type}.
Implicit Types (d : Py.dict V) (k : value).

Lemma lookup_set_same d k (v : V) :
  Py.hashable k = true -> Py.lookup (Py.set d k v) k = Some v.
Proof.
  intros Hk. induction d as [|[k0 v0] r IH]; simpl.
  - now rewrite key_eqb_refl.
  - destruct (Py.key_eqb k0 k) eqn:E; simpl; rewrite E; auto.
Qed.

Lemma lookup_set_other d k k' (v : V) :
  Py.key_eqb k' k = false -> Py.lookup (Py.set d k' v) k = Py.lookup d k.
Proof.
  intros Hk. induction d as [|[k0 v0] r IH]; simpl.
  - now rewrite Hk.
  - destruct (Py.key_eqb k0 k') eqn:E; simpl.
    + destruct (Py.key_eqb k0 k) eqn:F; [|reflexivity].
      rewrite key_eqb_sym in E.
      now rewrite (key_eqb_trans _ _ _ E F) in Hk.
    + now rewrite IH.
Qed.

End LookupFacts.

(** ** Exceptions and loops *)

Lemma rbind_Ok {A B : Type} (r : result A) (k : A -> result B) (b : B) :
  rbind r k = Ok b -> exists a, r = Ok a /\ k a = Ok b.
Proof. destruct r; simpl; [eauto | discriminate]. Qed.

Lemma Ok_inj {A : Type} (a b : A) : Ok a = Ok b -> a = b.
Proof. now intros [= ->]. Qed.

Ltac bind_inv H :=
  let a := fresh "x" in
  let E := fresh "E" in
  apply rbind_Ok in H; destruct H as (a & E & H).

Lemma foldM_app {A S : Type} (f : S -> A -> result S) (l1 l2 : list A)
    (acc : S) :
  foldM f (l1 ++ l2) acc = (let* a := foldM f l1 acc in foldM f l2 a).
Proof.
  revert acc. induction l1 as [|x l1 IH]; intros acc; simpl; [reflexivity|].
  destruct (f acc x); simpl; auto.
Qed.

(** ** The genre loop *)

Lemma genre_step_tallies (d : Py.dict Z) (p : list value) (k : value)
    (d' : Py.dict Z) :
  tallies (fun n => n) d p -> genre_step d k = Ok d' ->
  tallies (fun n => n) d' (p ++ [k]).
Proof.
  intros Hd. unfold genre_step, Py.dict_get.
  destruct (Py.hashable k) eqn:Hk; simpl; [|discriminate].
  intros [= <-]. destruct (Py.lookup d k) as [n|] eqn:L.
  - eapply (tallies_bump _ _ _ _ (fun _ => n + 1)); eauto.
    + eapply set_present; eauto.
    + intros v0 Hv0. congruence.
  - rewrite set_absent by assumption. apply tallies_new; auto.
Qed.

Lemma genre_loop_tallies (tags : list value) (d : Py.dict Z) (p : list value)
    (d' : Py.dict Z) :
  tallies (fun n => n) d p -> foldM genre_step tags d = Ok d' ->
  tallies (fun n => n) d' (p ++ tags).
Proof.
  revert d p. induction tags as [|k tags IH]; simpl; intros d p Hd H.
  - injection H as <-. now rewrite app_nil_r.
  - bind_inv H. change (k :: tags) with ([k] ++ tags). rewrite app_assoc.
    eapply IH; eauto. eapply genre_step_tallies; eauto.
Qed.

Lemma artist_loop_flat (items : list value) (d d' : Py.dict Z) :
  foldM artist_step items d = Ok d' ->
  exists per, mapM artist_genres items = Ok per /\
              foldM genre_step (concat per) d = Ok d'.
Proof.
  revert d. induction items as [|a items IH]; simpl; intros d H.
  - exists []. auto.
  - bind_inv H. unfold artist_step in E. unfold artist_genres at 1.
    bind_inv E. bind_inv E. rewrite E0. simpl. rewrite E1. simpl.
    destruct (IH _ H) as (per & -> & Hper). simpl.
    eexists. split; [reflexivity|]. simpl. rewrite foldM_app, E. exact Hper.
Qed.

Lemma distinct_first_index (tags : list value) :
  Forall (fun k => Py.hashable k = true) tags ->
  StronglySorted (fun a b => (first_index a tags < first_index b tags)%nat)
                 (distinct tags).
Proof.
  induction 1 as [|k r Hk Hr IH]; simpl; constructor.
  - apply StronglySorted_filter
      with (f := fun x => negb (Py.key_eqb k x)) in IH.
    eapply StronglySorted_weaken_in; [|exact IH].
    intros a b Ha Hb Hab. apply filter_In in Ha, Hb.
    destruct Ha as [_ Ha], Hb as [_ Hb]. apply negb_true_iff in Ha, Hb.
    cbv beta in Hab.
    rewrite (key_eqb_sym a k), (key_eqb_sym b k), Ha, Hb. lia.
  - apply Forall_forall. intros x Hx. apply filter_In in Hx.
    destruct Hx as [_ Hx]. apply negb_true_iff in Hx.
    rewrite (key_eqb_refl _ Hk), (key_eqb_sym x k), Hx. lia.
Qed.

Lemma Forall_firstn_sorted {A : Type} (key : A -> Z) (P : A -> Prop) (n : nat)
    (l : list A) :
  Forall P l -> Forall P (firstn n (sort_desc key l)).
Proof.
  intros H. apply Forall_forall. intros x Hx. apply In_firstn in Hx.
  rewrite Forall_forall in H. apply H.
  eapply Permutation_in; [apply sort_desc_perm | exact Hx].
Qed.

(** Two lists in order for an order that never holds both ways, holding
    the same elements, are the same list. *)
Lemma sorted_perm_unique {A : Type} (R : A -> A -> Prop) (l1 l2 : list A) :
  (forall a b, R a b -> R b a -> False) ->
  StronglySorted R l1 -> StronglySorted R l2 -> Permutation l1 l2 ->
  l1 = l2.
Proof.
  intros Hasym H1. revert l2.
  induction H1 as [|a l1 Hl1 IH Ha]; intros l2 H2 Hp.
  - now apply Permutation_nil in Hp.
  - destruct H2 as [|b l2 Hl2 Hb].
    + symmetry in Hp. now apply Permutation_nil in Hp.
    + assert (a = b) as <-.
      { assert (Hina : In a (b :: l2))
          by (eapply Permutation_in; [exact Hp | now left]).
        assert (Hinb : In b (a :: l1))
          by (eapply Permutation_in; [symmetry; exact Hp | now left]).
        destruct Hina as [E|Hina]; [now symmetry|].
        destruct Hinb as [E|Hinb]; [exact E|].
        rewrite Forall_forall in Ha, Hb.
        destruct (Hasym a b); auto. }
      f_equal. apply IH; [exact Hl2|].
      eapply Permutation_cons_inv. exact Hp.
Qed.

Lemma counted_by_keys (p : list value) (r : list (value * Z)) :
  Forall (fun kc => snd kc = occurrences (fst kc) p) r ->
  r = map (fun k => (k, occurrences k p)) (map fst r).
Proof.
  induction 1 as [|[k c] r Hk Hr IH]; simpl; [reflexivity|].
  simpl in Hk. subst c. now rewrite <- IH.
Qed.

(** There is one ranking of the keys of a list. *)
Lemma ranking_unique (p : list value) (r r' : list (value * Z)) :
  ranking p r -> ranking p r' -> r = r'.
Proof.
  intros (Hk & Hc & Hs) (Hk' & Hc' & Hs').
  apply (sorted_perm_unique (genre_order p)); auto.
  - unfold genre_order. intros a b [H|[H H0]] [H'|[H' H0']]; lia.
  - rewrite (counted_by_keys _ _ Hc), (counted_by_keys _ _ Hc').
    apply Permutation_map. now rewrite Hk, Hk'.
Qed.

(** What is left when the entries of a tally are sorted by decreasing
    count is the ranking of the keys tallied. *)
Lemma tally_ranking (d : Py.dict Z) (p : list value) :
  tallies (fun n => n) d p -> ranking p (sort_desc snd d).
Proof.
  intros (Hk & Hc & _ & Hh). split; [|split].
  - rewrite <- Hk. apply Permutation_map, sort_desc_perm.
  - eapply Permutation_Forall; [symmetry; apply sort_desc_perm | exact Hc].
  - apply (sort_desc_sorted snd
             (fun a b => (first_index (fst a) p < first_index (fst b) p)%nat)).
    apply (StronglySorted_map
             (fun a b => (first_index a p < first_index b p)%nat) fst).
    rewrite Hk. now apply distinct_first_index.
Qed.

(** C7. [get_top_genres] returns an ordered mapping of at most ten genres,
    in order of decreasing count with equal counts in first-seen order,
    each genre with the number of times it occurs among the genre tags of
    all artists.  The mapping is the first ten entries of the ranking of
    all the genres met, and there is but one such ranking: which genres
    are kept, with which counts and in which order, is fixed by the tags.
    Fifteen artists tagged pop and three tagged rock give pop: 15, rock: 3
    in that order. *)
Theorem get_top_genres_spec :
  (forall artists_data out,
     get_top_genres artists_data = Ok out ->
     exists tags,
       genre_tags artists_data = Ok tags /\
       (length out <= 10)%nat /\
       StronglySorted (genre_order tags) out /\
       Forall (fun gc => snd gc = occurrences (fst gc) tags) out /\
       StronglySorted (fun a b => Py.key_eqb (fst a) (fst b) = false) out /\
       (exists rest,
          ranking tags (out ++ rest) /\
          out = firstn 10 (out ++ rest) /\
          (rest <> [] -> length out = 10%nat)) /\
       (forall r, ranking tags r -> out = firstn 10 r)) /\
  get_top_genres sample_artists = Ok sample_genres.
Proof.
  split; [|reflexivity].
  intros artists_data out H. unfold get_top_genres in H.
  bind_inv H. bind_inv H. bind_inv H. cbv beta zeta in H.
  apply Ok_inj in H. subst out.
  destruct (artist_loop_flat _ _ _ E1) as (per & Hper & Hloop).
  pose proof (genre_loop_tallies _ _ [] _ (tallies_nil _) Hloop) as Ht.
  simpl in Ht. pose proof (tally_ranking _ _ Ht) as Hrank.
  destruct Ht as (Hk & Hc & _ & Hh).
  exists (concat per). split.
  { unfold genre_tags. rewrite E. simpl. rewrite E0. simpl. now rewrite Hper. }
  assert (Hdist : StronglySorted
            (fun a b : value * Z => Py.key_eqb (fst a) (fst b) = false)
            (firstn 10 (sort_desc snd x1))).
  { apply StronglySorted_firstn.
    eapply StronglySorted_perm_sym;
      [ intros a b; now rewrite key_eqb_sym
      | symmetry; apply sort_desc_perm | ].
    apply (StronglySorted_map (fun a b => Py.key_eqb a b = false) fst).
    rewrite Hk. apply distinct_pairwise. }
  rewrite (of_pairs_distinct _ Hdist).
  split; [apply firstn_le_length|].
  split; [apply StronglySorted_firstn; apply Hrank|].
  split; [now apply Forall_firstn_sorted|].
  split; [exact Hdist|]. split.
  - exists (skipn 10 (sort_desc snd x1)). rewrite firstn_skipn.
    split; [exact Hrank|]. split; [reflexivity|].
    intros Hrest. rewrite length_firstn.
    destruct (Nat.le_gt_cases (length (sort_desc snd x1)) 10) as [Hle|Hgt];
      [|lia].
    now rewrite (skipn_all2 _ Hle) in Hrest.
  - intros r Hr. f_equal. exact (ranking_unique _ _ _ Hrank Hr).
Qed.

(** Twelve artists over eleven genres, the one met twice coming last: it
    is kept, at the head, and the last of the others is cut off. *)
Lemma get_top_genres_spec_witness :
  exists tags,
    genre_tags eleven_genres_artists = Ok tags /\
    (length eleven_genres_top <= 10)%nat /\
    StronglySorted (genre_order tags) eleven_genres_top /\
    Forall (fun gc => snd gc = occurrences (fst gc) tags) eleven_genres_top /\
    StronglySorted (fun a b => Py.key_eqb (fst a) (fst b) = false)
                   eleven_genres_top /\
    (exists rest,
       ranking tags (eleven_genres_top ++ rest) /\
       eleven_genres_top = firstn 10 (eleven_genres_top ++ rest) /\
       (rest <> [] -> length eleven_genres_top = 10%nat)) /\
    (forall r, ranking tags r -> eleven_genres_top = firstn 10 r).
Proof.
  apply (proj1 get_top_genres_spec eleven_genres_artists). reflexivity.
Defined.

(** ** The album loop *)

Lemma new_album_stat_count (album : value) (st : album_stat) :
  new_album_stat album = Ok st -> count st = 0.
Proof.
  unfold new_album_stat. intros H. repeat bind_inv H.
  apply Ok_inj in H. now subst st.
Qed.

Lemma album_ids_app (l1 l2 : list value) :
  album_ids (l1 ++ l2) = album_ids l1 ++ album_ids l2.
Proof. apply flat_map_app. Qed.

Lemma album_ids_truthy (items : list value) :
  Forall (fun k => Py.truthy k = true) (album_ids items).
Proof.
  apply Forall_forall. intros k Hk. apply in_flat_map in Hk.
  destruct Hk as (t & _ & Hk). destruct (track_album_id t) as [i|]; [|easy].
  destruct (Py.truthy i) eqn:E; [|easy]. destruct Hk as [<-|[]]. exact E.
Qed.

Lemma album_ids_length (items : list value) :
  (length (album_ids items) <= length items)%nat.
Proof.
  induction items as [|t r IH]; simpl; [lia|]. rewrite length_app.
  destruct (track_album_id t) as [i|]; [destruct (Py.truthy i)|]; simpl; lia.
Qed.

Lemma album_step_tallies (d : Py.dict album_stat) (p : list value)
    (t : value) (d' : Py.dict album_stat) :
  tallies count d p -> album_step d t = Ok d' ->
  tallies count d' (p ++ album_ids [t]).
Proof.
  intros Hd H. unfold album_step in H.
  bind_inv H. bind_inv H. rename x into album, x0 into k.
  assert (Hid : track_album_id t = Some k)
    by (unfold track_album_id; now rewrite E, E0).
  unfold album_ids. simpl. rewrite Hid, app_nil_r.
  destruct (Py.truthy k) eqn:Tk; simpl in H.
  2:{ apply Ok_inj in H. subst d'. now rewrite app_nil_r. }
  bind_inv H. unfold Py.contains in E1.
  destruct (Py.hashable k) eqn:Hk; [|discriminate]. apply Ok_inj in E1.
  bind_inv H. bind_inv H. bind_inv H. bind_inv H.
  destruct (Py.lookup d k) as [st0|] eqn:L; subst x.
  - apply Ok_inj in E2. subst x0.
    eapply tallies_bump; eauto using modify_modify.
  - bind_inv E2. apply Ok_inj in E2. subst x0.
    rewrite (set_absent _ _ _ L) in E3.
    rewrite (modify_absent_snoc _ _ _ _ L (key_eqb_refl _ Hk)) in E3.
    apply Ok_inj in E3. subst x1.
    rewrite (modify_absent_snoc _ _ _ _ L (key_eqb_refl _ Hk)) in H.
    apply Ok_inj in H. subst d'.
    apply tallies_new; auto. simpl.
    rewrite (new_album_stat_count _ _ E1). reflexivity.
Qed.

Lemma album_loop_tallies (items : list value) (d : Py.dict album_stat)
    (p : list value) (d' : Py.dict album_stat) :
  tallies count d p -> foldM album_step items d = Ok d' ->
  tallies count d' (p ++ album_ids items).
Proof.
  revert d p. induction items as [|t r IH]; intros d p Hd H; cbn [foldM] in H.
  - apply Ok_inj in H. subst d'. simpl. now rewrite app_nil_r.
  - bind_inv H. change (t :: r) with ([t] ++ r).
    rewrite album_ids_app, app_assoc.
    eapply IH; eauto. eapply album_step_tallies; eauto.
Qed.

Lemma occurrences_album_ids (k : value) (items : list value) :
  Py.truthy k = true ->
  occurrences k (album_ids items)
  = Z.of_nat (length (filter (belongs_to k) items)).
Proof.
  intros Tk. induction items as [|t r IH]; [reflexivity|].
  change (t :: r) with ([t] ++ r).
  rewrite album_ids_app, occurrences_app, IH. simpl. unfold belongs_to at 2.
  destruct (track_album_id t) as [i|]; simpl; [|reflexivity].
  destruct (Py.key_eqb k i) eqn:E.
  - rewrite <- (key_eqb_truthy _ _ E), Tk. simpl. rewrite E. simpl length. lia.
  - destruct (Py.truthy i); simpl; [rewrite E|]; lia.
Qed.

Lemma distinct_incl (p : list value) (k : value) :
  In k (distinct p) -> In k p.
Proof.
  revert k. induction p as [|a p IH]; simpl; intros k; [easy|].
  intros [H|H]; [now left | right]. apply filter_In in H. now apply IH.
Qed.

Lemma sum_counts_perm (l l' : list top_album) :
  Permutation l l' -> sum_counts l = sum_counts l'.
Proof. induction 1; simpl; lia. Qed.

Lemma sum_counts_firstn (n : nat) (l : list top_album) :
  Forall (fun a => 0 <= count (stats a)) l ->
  sum_counts (firstn n l) <= sum_counts l.
Proof.
  intros H. revert n. induction H as [|a l Ha Hl IH]; intros [|n]; simpl;
    try lia.
  - assert (0 <= sum_counts l); [|lia].
    clear IH. induction Hl; simpl; lia.
  - specialize (IH n). lia.
Qed.

Lemma sum_counts_total (d : Py.dict album_stat) :
  sum_counts (map (fun kv => {| stats := snd kv; album_id := fst kv |}) d)
  = total count d.
Proof. induction d as [|kv d IH]; simpl; [reflexivity | now rewrite IH]. Qed.

Lemma new_album_stat_tracks (album : value) (st : album_stat) :
  new_album_stat album = Ok st -> tracks st = [].
Proof.
  unfold new_album_stat. intros H. repeat bind_inv H.
  apply Ok_inj in H. now subst st.
Qed.

Lemma tally_keys_truthy (d : Py.dict album_stat) (items : list value) :
  tallies count d (album_ids items) ->
  Forall (fun kv => Py.truthy (fst kv) = true) d.
Proof.
  intros (Hk & _). apply Forall_forall. intros kv Hkv.
  pose proof (album_ids_truthy items) as Hall. rewrite Forall_forall in Hall.
  apply Hall, distinct_incl. rewrite <- Hk. now apply in_map.
Qed.

Lemma belongs_to_snoc (k i t : value) (items : list value) :
  track_album_id t = Some i ->
  filter (belongs_to k) (items ++ [t])
  = filter (belongs_to k) items ++ (if Py.key_eqb k i then [t] else []).
Proof.
  intros Hid. rewrite filter_app. simpl. unfold belongs_to at 2.
  now rewrite Hid.
Qed.

Lemma collected_others (d : Py.dict album_stat) (items : list value)
    (t i : value) :
  track_album_id t = Some i ->
  Forall (fun kv => Py.key_eqb (fst kv) i = false) d ->
  collected d items -> collected d (items ++ [t]).
Proof.
  intros Hid Hne Hc. unfold collected in *. rewrite Forall_forall in *.
  intros kv Hkv. rewrite (belongs_to_snoc _ _ _ _ Hid), (Hne kv Hkv), app_nil_r.
  now apply Hc.
Qed.

Lemma album_step_collected (d : Py.dict album_stat) (items : list value)
    (t : value) (d' : Py.dict album_stat) :
  tallies count d (album_ids items) -> collected d items ->
  album_step d t = Ok d' -> collected d' (items ++ [t]).
Proof.
  intros Hd Hc H. pose proof (tally_keys_truthy _ _ Hd) as Htr.
  unfold album_step in H.
  bind_inv H. bind_inv H. rename x into album, x0 into k.
  assert (Hid : track_album_id t = Some k)
    by (unfold track_album_id; now rewrite E, E0).
  destruct (Py.truthy k) eqn:Tk; simpl in H.
  2:{ apply Ok_inj in H. subst d'. apply (collected_others _ _ _ _ Hid); auto.
      eapply Forall_impl; [|exact Htr]. intros kv Hkv.
      destruct (Py.key_eqb (fst kv) k) eqn:F; [|reflexivity].
      apply key_eqb_truthy in F. congruence. }
  bind_inv H. unfold Py.contains in E1.
  destruct (Py.hashable k) eqn:Hk; [|discriminate]. apply Ok_inj in E1.
  bind_inv H. bind_inv H. bind_inv H. bind_inv H.
  assert (Hentry : VDict [(VStr "name", x2); (VStr "popularity", x3)]
                   = track_entry t)
    by (unfold track_entry; now rewrite E4, E5).
  rewrite Hentry in H. clear Hentry.
  destruct (Py.lookup d k) as [st0|] eqn:L; subst x.
  - apply Ok_inj in E2. subst x0.
    pose proof (modify_modify _ _ _ _ _ _ E3 H) as Hm.
    destruct Hd as (Hkeys & _).
    destruct (modify_shape _ _ _ _ _ Hkeys Hm)
      as (d1 & k0 & v0 & d2 & -> & -> & Hk0 & _ & Hd1 & Hd2).
    unfold collected in *. apply Forall_app in Hc. destruct Hc as [Hc1 Hc2].
    inversion Hc2 as [|? ? Hc0 Hc3]; subst.
    apply Forall_app. split; [|constructor].
    + now apply (collected_others _ _ _ _ Hid).
    + cbn [fst snd] in *. rewrite (belongs_to_snoc _ _ _ _ Hid), Hk0, map_app.
      cbn [append_track incr_count tracks map]. now rewrite Hc0.
    + now apply (collected_others _ _ _ _ Hid).
  - bind_inv E2. apply Ok_inj in E2. subst x0.
    rewrite (set_absent _ _ _ L) in E3.
    rewrite (modify_absent_snoc _ _ _ _ L (key_eqb_refl _ Hk)) in E3.
    apply Ok_inj in E3. subst x1.
    rewrite (modify_absent_snoc _ _ _ _ L (key_eqb_refl _ Hk)) in H.
    apply Ok_inj in H. subst d'.
    pose proof L as Hne. apply lookup_None in Hne.
    apply Forall_app. split; [now apply (collected_others _ _ _ _ Hid)|].
    constructor; [|constructor]. cbn [fst snd].
    rewrite (belongs_to_snoc _ _ _ _ Hid), (key_eqb_refl _ Hk), map_app.
    cbn [append_track incr_count tracks map].
    rewrite (new_album_stat_tracks _ _ E1).
    assert (Hnone : filter (belongs_to k) items = []).
    { apply length_zero_iff_nil.
      pose proof (occurrences_album_ids k items Tk) as Hocc.
      rewrite occurrences_absent in Hocc; [lia|].
      destruct Hd as (Hkeys & _).
      rewrite <- existsb_distinct, <- Hkeys. now apply absent_keys. }
    now rewrite Hnone.
Qed.

Lemma album_loop_collected (items : list value) (d : Py.dict album_stat)
    (done : list value) (d' : Py.dict album_stat) :
  tallies count d (album_ids done) -> collected d done ->
  foldM album_step items d = Ok d' -> collected d' (done ++ items).
Proof.
  revert d done. induction items as [|t r IH]; intros d done Hd Hc H;
    cbn [foldM] in H.
  - apply Ok_inj in H. subst d'. now rewrite app_nil_r.
  - bind_inv H. change (t :: r) with ([t] ++ r). rewrite app_assoc.
    eapply IH; eauto.
    + rewrite album_ids_app. eapply album_step_tallies; eauto.
    + eapply album_step_collected; eauto.
Qed.

(** What the body of [get_top_albums] establishes, shared by the
    statements below. *)
Lemma get_top_albums_inv (tracks_data : value) (out : list top_album) :
  get_top_albums tracks_data = Ok out ->
  exists items d,
    track_list tracks_data = Ok items /\
    tallies count d (album_ids items) /\
    collected d items /\
    out = firstn 10
            (sort_desc (fun x => count (stats x))
               (map (fun kv => {| stats := snd kv; album_id := fst kv |}) d)).
Proof.
  intros H. unfold get_top_albums in H.
  bind_inv H. bind_inv H. bind_inv H. cbv beta zeta in H.
  apply Ok_inj in H. exists x0, x1.
  split; [|split; [|split; [|now symmetry]]].
  - unfold track_list. now rewrite E.
  - exact (album_loop_tallies _ _ [] _ (tallies_nil _) E1).
  - apply (album_loop_collected _ _ [] _ (tallies_nil _)); [constructor|].
    exact E1.
Qed.

(** The example of the specification: two tracks of album A1 and one of
    album A2. *)
Example get_top_albums_sample :
  get_top_albums sample_tracks = Ok sample_top_albums.
Proof. reflexivity. Qed.

(** C3. The list returned by [get_top_albums] has at most ten elements and
    at most as many as there are distinct album ids in the input; its
    counts add up to at most the length of the input; it is sorted by
    non-increasing count. *)
Theorem get_top_albums_bounds (tracks_data : value) (out : list top_album) :
  get_top_albums tracks_data = Ok out ->
  exists items,
    track_list tracks_data = Ok items /\
    (length out <= 10)%nat /\
    (length out <= length (distinct (album_ids items)))%nat /\
    sum_counts out <= Z.of_nat (length items) /\
    StronglySorted (fun a b => count (stats a) >= count (stats b)) out.
Proof.
  intros H.
  destruct (get_top_albums_inv _ _ H) as (items & d & Hi & Ht & _ & ->).
  destruct Ht as (Hk & Hc & Hs & _).
  exists items. split; [exact Hi|].
  split; [apply firstn_le_length|].
  split; [|split].
  - rewrite length_firstn, sort_desc_length, length_map, <- Hk, length_map. lia.
  - etransitivity; [apply sum_counts_firstn|].
    + eapply Permutation_Forall; [symmetry; apply sort_desc_perm|].
      apply Forall_map. eapply Forall_impl; [|exact Hc].
      intros kv Hkv. cbn [stats album_id]. rewrite Hkv.
      apply occurrences_nonneg.
    + rewrite (sum_counts_perm _ _ (sort_desc_perm _ _)), sum_counts_total, Hs.
      pose proof (album_ids_length items). lia.
  - apply StronglySorted_firstn.
    apply (sort_desc_nonincreasing (fun x => count (stats x))).
Qed.

Lemma get_top_albums_bounds_witness :
  exists items,
    track_list sample_tracks = Ok items /\
    (length sample_top_albums <= 10)%nat /\
    (length sample_top_albums <= length (distinct (album_ids items)))%nat /\
    sum_counts sample_top_albums <= Z.of_nat (length items) /\
    StronglySorted (fun a b => count (stats a) >= count (stats b))
                   sample_top_albums.
Proof.
  apply (get_top_albums_bounds sample_tracks). reflexivity.
Defined.

(** C4. The count of every aggregate returned by [get_top_albums] is the
    number of input tracks whose album id equals the aggregate's id, and
    its [tracks] are the entries of exactly those tracks; a track without
    an album id belongs to no aggregate, and the input made of one such
    track gives the empty list. *)
Theorem get_top_albums_counts :
  (forall tracks_data out items,
     get_top_albums tracks_data = Ok out ->
     track_list tracks_data = Ok items ->
     Forall (fun a =>
               count (stats a)
               = Z.of_nat (length (filter (belongs_to (album_id a)) items)) /\
               tracks (stats a)
               = map track_entry (filter (belongs_to (album_id a)) items))
            out /\
     (forall t i,
        In t items -> track_album_id t = Some i -> Py.truthy i = false ->
        Forall (fun a => belongs_to (album_id a) t = false) out)) /\
  get_top_albums (VDict [(VStr "items", VList [track_without_album_id])])
  = Ok [].
Proof.
  split; [|reflexivity].
  intros tracks_data out items H Hitems.
  destruct (get_top_albums_inv _ _ H) as (items' & d & Hi & Ht & Hcol & ->).
  assert (items' = items) by congruence. subst items'.
  pose proof (tally_keys_truthy _ _ Ht) as Htr.
  destruct Ht as (Hk & Hc & _ & _).
  split.
  - apply Forall_firstn_sorted, Forall_map. unfold collected in Hcol.
    rewrite Forall_forall in *. intros kv Hkv. cbn [stats album_id].
    split; [|now apply Hcol].
    rewrite (Hc kv Hkv). apply occurrences_album_ids. now apply Htr.
  - intros t i _ Hid Hi0.
    apply Forall_firstn_sorted, Forall_map. simpl.
    eapply Forall_impl; [|exact Htr]. intros kv Hkv. cbn [stats album_id].
    unfold belongs_to.
    rewrite Hid. destruct (Py.key_eqb (fst kv) i) eqn:E; [|reflexivity].
    apply key_eqb_truthy in E. congruence.
Qed.

Lemma get_top_albums_counts_witness :
  Forall (fun a =>
            count (stats a)
            = Z.of_nat (length (filter (belongs_to (album_id a))
                                       sample_items)) /\
            tracks (stats a)
            = map track_entry (filter (belongs_to (album_id a)) sample_items))
         sample_top_albums /\
  (forall t i,
     In t sample_items -> track_album_id t = Some i -> Py.truthy i = false ->
     Forall (fun a => belongs_to (album_id a) t = false) sample_top_albums).
Proof.
  apply (proj1 get_top_albums_counts sample_tracks); reflexivity.
Defined.

Lemma names_of_objects (l : list value) :
  Forall (fun o => exists x, o = VDict x) l ->
  mapM (fun artist => Py.get artist "name" VNone) l = Ok (map name_of l).
Proof.
  induction 1 as [|o l [x ->] Hl IH]; simpl; [reflexivity|].
  now rewrite IH.
Qed.

(** ** The aggregators return on well-formed input *)

Lemma foldM_succeeds {A S : Type} (f : S -> A -> result S) (l : list A)
    (acc : S) :
  Forall (fun x => forall s, succeeds (f s x)) l -> succeeds (foldM f l acc).
Proof.
  intros H. revert acc. induction H as [|x l Hx Hl IH]; intros acc; simpl.
  - now exists acc.
  - destruct (Hx acc) as [s ->]. simpl. apply IH.
Qed.

Lemma lookup_skip {V : Type} (d1 d2 : Py.dict V) (k : value) :
  Forall (fun kv => Py.key_eqb (fst kv) k = false) d1 ->
  Py.lookup (d1 ++ d2) k = Py.lookup d2 k.
Proof.
  induction 1 as [|[k0 v0] r Hkv Hr IH]; simpl; [reflexivity|].
  simpl in Hkv. now rewrite Hkv.
Qed.

Lemma modify_twice {V : Type} (d : Py.dict V) (k : value) (f g : V -> V)
    (v0 : V) :
  Py.lookup d k = Some v0 ->
  exists d1 d2, Py.modify d k f = Ok d1 /\ Py.modify d1 k g = Ok d2.
Proof.
  intros L. destruct (modify_present _ _ f _ L) as [d1 H1].
  exists d1. destruct (modify_spec _ _ _ _ H1)
    as (a & k0 & v & b & -> & -> & Hk0 & Ha & _).
  destruct (modify_present (a ++ (k0, f v) :: b) k g (f v)) as [d2 H2].
  - rewrite (lookup_skip _ _ _ Ha). simpl. now rewrite Hk0.
  - eauto.
Qed.

Lemma new_album_stat_succeeds (al : Py.dict value) :
  absent_or_objects al "artists" -> absent_or_object al "external_urls" ->
  succeeds (new_album_stat (VDict al)).
Proof.
  intros Hart Hext. unfold new_album_stat, succeeds. cbn [Py.get rbind].
  destruct Hart as [Ha | (l & Ha & Hl)]; rewrite Ha;
    destruct Hext as [He | [ex He]]; rewrite He;
    cbn [rbind Py.get Py.iter mapM];
    rewrite ?(names_of_objects _ Hl); cbn [rbind]; eauto.
Qed.

Lemma album_step_succeeds (t : value) :
  well_formed_track t -> forall d, succeeds (album_step d t).
Proof.
  intros (td & -> & Halbum & Hid & Hart & Hext) d.
  unfold album_step. cbn [Py.get rbind].
  assert (Hal : match Py.lookup td (VStr "album") with
                | Some v => v
                | None => VDict []
                end = VDict (sub_object td "album")).
  { unfold sub_object. destruct Halbum as [-> | [x ->]]; reflexivity. }
  rewrite Hal. cbn [Py.get rbind].
  fold (at_or (sub_object td "album") "id" VNone).
  set (k := at_or (sub_object td "album") "id" VNone) in *.
  destruct (Py.truthy k); cbn [negb]; [|now exists d].
  unfold Py.contains. rewrite Hid. cbn [rbind].
  destruct (Py.lookup d k) as [st0|] eqn:L; cbn [rbind].
  - destruct (modify_twice d k incr_count
                (append_track
                   (VDict [(VStr "name", at_or td "name" VNone);
                           (VStr "popularity", at_or td "popularity" VNone)]))
                _ L) as (d1 & d2 & -> & H2).
    cbn [rbind]. unfold at_or in H2. rewrite H2. now exists d2.
  - destruct (new_album_stat_succeeds _ Hart Hext) as [fresh ->]. cbn [rbind].
    rewrite (set_absent _ _ _ L).
    rewrite (modify_absent_snoc _ _ _ _ L (key_eqb_refl _ Hid)). cbn [rbind].
    rewrite (modify_absent_snoc _ _ _ _ L (key_eqb_refl _ Hid)). eexists.
    reflexivity.
Qed.

(** [get_top_albums] returns a list on every well-formed input. *)
Lemma get_top_albums_total (tracks_data : value) :
  well_formed_tracks tracks_data -> succeeds (get_top_albums tracks_data).
Proof.
  intros (d & -> & Hitems). unfold get_top_albums. cbn [Py.get rbind].
  assert (G : exists l, Py.iter match Py.lookup d (VStr "items") with
                                | Some v => v
                                | None => VList []
                                end = Ok l /\ Forall well_formed_track l).
  { destruct Hitems as [-> | (l & -> & Hl)]; eexists; split;
      try reflexivity; auto. }
  destruct G as (l & -> & Hl). cbn [rbind].
  destruct (foldM_succeeds album_step l []) as [stats_ ->].
  - eapply Forall_impl; [|exact Hl]. intros t Ht. now apply album_step_succeeds.
  - cbn [rbind]. eexists. reflexivity.
Qed.

Lemma artist_step_succeeds (a : value) :
  well_formed_artist a -> forall d, succeeds (artist_step d a).
Proof.
  intros (ad & -> & Hg) d. unfold artist_step. cbn [Py.get rbind].
  assert (G : exists l, Py.iter match Py.lookup ad (VStr "genres") with
                                | Some v => v
                                | None => VList []
                                end = Ok l /\
                        Forall (fun g => Py.hashable g = true) l).
  { destruct Hg as [-> | (l & -> & Hl)]; eexists; split;
      try reflexivity; auto. }
  destruct G as (l & -> & Hl). cbn [rbind].
  apply foldM_succeeds. eapply Forall_impl; [|exact Hl].
  intros g Hgh s. unfold genre_step, Py.dict_get. rewrite Hgh. cbn [rbind].
  eexists. reflexivity.
Qed.

(** [get_top_genres] returns a mapping on every well-formed input. *)
Lemma get_top_genres_total (artists_data : value) :
  well_formed_artists artists_data -> succeeds (get_top_genres artists_data).
Proof.
  intros (d & -> & Hitems). unfold get_top_genres. cbn [Py.get rbind].
  assert (G : exists l, Py.iter match Py.lookup d (VStr "items") with
                                | Some v => v
                                | None => VList []
                                end = Ok l /\ Forall well_formed_artist l).
  { destruct Hitems as [-> | (l & -> & Hl)]; eexists; split;
      try reflexivity; auto. }
  destruct G as (l & -> & Hl). cbn [rbind].
  destruct (foldM_succeeds artist_step l []) as [gc ->].
  - eapply Forall_impl; [|exact Hl]. intros a Ha.
    now apply artist_step_succeeds.
  - cbn [rbind]. eexists. reflexivity.
Qed.

(** ** Encodings *)

Lemma list_ascii_of_string_app (a b : string) :
  list_ascii_of_string (a ++ b)
  = list_ascii_of_string a ++ list_ascii_of_string b.
Proof. induction a as [|c a IH]; simpl; [reflexivity | now rewrite IH]. Qed.

Lemma encode_latin1_app (a b : string) :
  encode_latin1 (a ++ b) = encode_latin1 a ++ encode_latin1 b.
Proof.
  unfold encode_latin1. now rewrite list_ascii_of_string_app, map_app.
Qed.

Lemma string_app_assoc (a b c : string) :
  (a ++ (b ++ c) = (a ++ b) ++ c)%string.
Proof. induction a as [|x a IH]; simpl; [reflexivity | now rewrite IH]. Qed.

Lemma encode_utf8_app (a b : string) :
  encode_utf8 (a ++ b) = encode_utf8 a ++ encode_utf8 b.
Proof.
  unfold encode_utf8. now rewrite list_ascii_of_string_app, flat_map_app.
Qed.

Lemma quote_from_bytes_app (x y : bytes) (safe : string) :
  quote_from_bytes (x ++ y) safe
  = (quote_from_bytes x safe ++ quote_from_bytes y safe)%string.
Proof.
  induction x as [|b x IH]; simpl; [reflexivity|].
  now rewrite IH, string_app_assoc.
Qed.

Lemma quote_app (a b safe : string) :
  quote (a ++ b) safe = (quote a safe ++ quote b safe)%string.
Proof.
  unfold quote. now rewrite encode_utf8_app, quote_from_bytes_app.
Qed.

(** The characters a redirect leaves alone are ASCII characters. *)
Lemma redirect_safe_ascii (c : ascii) :
  existsb (Ascii.eqb c) (safe_bytes redirect_safe) = true ->
  (N_of_ascii c <? 128)%N = true.
Proof.
  destruct c as [[|] [|] [|] [|] [|] [|] [|] [|]]; vm_compute; intros H;
    first [reflexivity | exact H].
Qed.

Lemma quote_plain (s : string) :
  redirect_plain s = true -> quote s redirect_safe = s.
Proof.
  unfold redirect_plain, quote, encode_utf8.
  induction s as [|c s IH]; [reflexivity|].
  cbn [list_ascii_of_string forallb flat_map]. intros H.
  apply andb_true_iff in H. destruct H as [Hc Hs].
  cbv zeta. rewrite (redirect_safe_ascii c Hc).
  cbn [app quote_from_bytes]. unfold quote_byte.
  rewrite ascii_of_byte_of_ascii, Hc. cbn [String.append].
  now rewrite (IH Hs).
Qed.

(** Quoting on samples: a space, a character outside ASCII (code point
    233, two bytes in UTF-8), and characters a redirect leaves alone. *)
Example quote_vectors :
  quote "a b" redirect_safe = "a%20b"%string /\
  quote (String "233"%char EmptyString) redirect_safe = "%C3%A9"%string /\
  quote "https://h/p?a=b&c=d" redirect_safe = "https://h/p?a=b&c=d"%string /\
  quote "a/b c" "" = "a%2Fb%20c"%string.
Proof. repeat split. Qed.

(** The scopes of [login] hold letters, hyphens and the joining spaces:
    the quoting of the redirect escapes them as a query parameter value
    is escaped. *)
Lemma quote_login_scopes :
  quote (String.concat " " login_scopes) redirect_safe
  = url_quote (String.concat " " login_scopes).
Proof. vm_compute. reflexivity. Qed.

(** The [Location] header of the redirect [login] answers with. *)
Lemma login_location (client_id redirect_uri : option string) :
  quote (login_auth_url client_id redirect_uri) redirect_safe
  = ("https://accounts.spotify.com/authorize?response_type=code&client_id="
     ++ quote (format_env client_id) redirect_safe
     ++ "&redirect_uri=" ++ quote (format_env redirect_uri) redirect_safe
     ++ "&scope=" ++ url_quote (String.concat " " login_scopes))%string.
Proof.
  rewrite <- quote_login_scopes.
  transitivity
    (quote
       ("https://accounts.spotify.com/authorize?response_type=code&client_id="
        ++ format_env client_id
        ++ "&redirect_uri=" ++ format_env redirect_uri
        ++ "&scope=" ++ String.concat " " login_scopes) redirect_safe);
    [reflexivity|].
  now rewrite !quote_app.
Qed.

Lemma ascii_only_app (a b : string) :
  ascii_only (a ++ b) = ascii_only a && ascii_only b.
Proof.
  unfold ascii_only. now rewrite list_ascii_of_string_app, forallb_app.
Qed.

Lemma encode_ascii_latin1 (s : string) :
  ascii_only s = true -> encode_ascii s = Ok (encode_latin1 s).
Proof.
  unfold ascii_only, encode_ascii, encode_latin1.
  induction (list_ascii_of_string s) as [|c l IH]; simpl; [reflexivity|].
  intros H. apply andb_true_iff in H. destruct H as [Hc Hl].
  rewrite Hc. simpl. now rewrite (IH Hl).
Qed.

(** The test vectors of RFC 4648. *)
Example b64encode_vectors :
  map (fun s => string_of_list_ascii
                  (map ascii_of_byte (b64encode (encode_latin1 s))))
      [""; "f"; "fo"; "foo"; "foob"; "fooba"; "foobar"]%string
  = [""; "Zg=="; "Zm8="; "Zm9v"; "Zm9vYg=="; "Zm9vYmE="; "Zm9vYmFy"]%string.
Proof. reflexivity. Qed.

Lemma b64_digit_ascii (n : N) : (Byte.to_N (b64_digit n) < 128)%N.
Proof.
  unfold b64_digit.
  destruct (nth_in_or_default (N.to_nat n) b64_alphabet "="%char) as [H | ->];
    [|reflexivity].
  revert H. generalize (nth (N.to_nat n) b64_alphabet "="%char). intros c.
  unfold b64_alphabet. simpl.
  intros H; repeat (destruct H as [<- | H]; [reflexivity|]); destruct H.
Qed.

Lemma b64encode_ascii (bs : bytes) :
  Forall (fun x => (Byte.to_N x < 128)%N) (b64encode bs).
Proof.
  remember (length bs) as n eqn:Hn. revert bs Hn.
  induction n as [n IH] using lt_wf_ind. intros bs Hn.
  destruct bs as [|a [|b [|c r]]]; simpl.
  - constructor.
  - repeat constructor; apply b64_digit_ascii.
  - repeat constructor; apply b64_digit_ascii.
  - repeat (constructor; [apply b64_digit_ascii|]).
    apply (IH (length r)); [simpl in Hn; lia | reflexivity].
Qed.

Lemma decode_ascii_ok (b : bytes) :
  Forall (fun x => (Byte.to_N x < 128)%N) b ->
  decode_ascii b = Ok (string_of_list_ascii (map ascii_of_byte b)).
Proof.
  unfold decode_ascii. intros H.
  assert (G : mapM (fun x => if (Byte.to_N x <? 128)%N
                             then Ok (ascii_of_byte x)
                             else Raise UnicodeDecodeError) b
              = Ok (map ascii_of_byte b)).
  { induction H as [|x l Hx Hl IH]; simpl; [reflexivity|].
    apply N.ltb_lt in Hx. rewrite Hx. simpl. now rewrite IH. }
  now rewrite G.
Qed.

(** ** The request handlers *)

Section HandlerFacts.
Variables SPOTIFY_CLIENT_ID SPOTIFY_CLIENT_SECRET SPOTIFY_REDIRECT_URI
  : option string.
Variable upstream : list request -> request -> string + response.
Variable exn_str : exn -> string.
Variable value_str : value -> string.

(** The routes, served with this configuration against this upstream. *)
Local Abbreviation POST_refresh_token :=
  (refresh_token SPOTIFY_CLIENT_ID SPOTIFY_CLIENT_SECRET upstream exn_str)
  (only parsing).
Local Abbreviation GET_recently_played :=
  (get_recently_played upstream exn_str) (only parsing).
Local Abbreviation GET_currently_playing :=
  (get_currently_playing upstream exn_str) (only parsing).
Local Abbreviation GET_callback :=
  (callback SPOTIFY_CLIENT_ID SPOTIFY_CLIENT_SECRET SPOTIFY_REDIRECT_URI
     upstream exn_str value_str) (only parsing).
Local Abbreviation GET_login :=
  (login SPOTIFY_CLIENT_ID SPOTIFY_REDIRECT_URI) (only parsing).
Local Abbreviation token_request :=
  (callback_token_request SPOTIFY_CLIENT_ID SPOTIFY_CLIENT_SECRET
     SPOTIFY_REDIRECT_URI) (only parsing).
Local Abbreviation refresh_header :=
  (refresh_authorization SPOTIFY_CLIENT_ID SPOTIFY_CLIENT_SECRET)
  (only parsing).
Local Abbreviation basic_auth :=
  (basic_auth_str SPOTIFY_CLIENT_ID SPOTIFY_CLIENT_SECRET) (only parsing).
Local Abbreviation auth_url :=
  (login_auth_url SPOTIFY_CLIENT_ID SPOTIFY_REDIRECT_URI) (only parsing).

(** C1. On a body whose [refresh_token] field is absent, null or empty
    the handler raises the 400 it is meant to answer with, but its own
    [except Exception] clause catches that and the reply is a 500. *)
Theorem refresh_token_missing_field (d : Py.dict value) :
  lacks_refresh_token d ->
  let out := run (POST_refresh_token (Some (VDict d))) in
  out = Raise (HTTPException 500
                 (exn_str (HTTPException 400 "Refresh token is required"))) /\
  reply_status out = 500.
Proof.
  intros H. unfold refresh_token, run, try_except, mbind, lift. simpl.
  destruct H as [-> | [-> | ->]]; simpl; auto.
Qed.

(** C2. When the token endpoint answers a refresh with an error status,
    the handler raises an exception carrying that status, but its own
    [except Exception] clause catches it and the reply is a 500. *)
Theorem refresh_token_upstream_failure (d : Py.dict value) (tok : value)
    (h : string) (r : response) :
  Py.lookup d (VStr "refresh_token") = Some tok ->
  Py.truthy tok = true ->
  refresh_header = Ok h ->
  upstream [] (refresh_request h tok) = inr r ->
  ok r = false ->
  let out := run (POST_refresh_token (Some (VDict d))) in
  out = Raise (HTTPException 500
                 (exn_str (HTTPException (status_code r)
                    ("Failed to refresh token: " ++ text r)%string))) /\
  reply_status out = 500.
Proof.
  intros Hd Ht Hh Hu Hr.
  unfold refresh_token, run, try_except, mbind, lift, send. simpl.
  rewrite Hd, Ht, Hh. simpl. rewrite Hu, Hr. simpl. auto.
Qed.

(** C8. When the upstream answers 401, [get_recently_played] and
    [get_currently_playing] reply with status 401 and detail
    "Token expired": the [HTTPException] is not a [RequestException] and
    passes the [except] clause. *)
Theorem token_expired_is_401 (access_token : string) (r : response) :
  status_code r = 401 ->
  (upstream []
     (requests_request "GET"
        "https://api.spotify.com/v1/me/player/recently-played"
        (bearer access_token) None None) = inr r ->
   let out := run (GET_recently_played access_token) in
   reply_status out = 401 /\ reply_detail out = Some "Token expired"%string) /\
  (upstream []
     (requests_request "GET"
        "https://api.spotify.com/v1/me/player/currently-playing"
        (bearer access_token) None None) = inr r ->
   let out := run (GET_currently_playing access_token) in
   reply_status out = 401 /\ reply_detail out = Some "Token expired"%string).
Proof.
  intros Hs. split; intros Hu.
  - cbv [get_recently_played run try_except mbind requests_get send fst].
    rewrite Hu, Hs. simpl. auto.
  - cbv [get_currently_playing run try_except mbind requests_get send fst].
    rewrite Hu, Hs. simpl. auto.
Qed.

(** C5 (as amended). On a 200 payload that is an object whose [item],
    [item.album] and [item.external_urls] are each absent or an object
    (and [item.artists] absent or a list of objects),
    [get_currently_playing] does not fail: it replies with the tolerant
    reading of the payload.  Without an [item] the scalar sub-fields of
    [track] are null and the list-valued ones ([artists], [album.images])
    are empty lists. *)
Theorem currently_playing_tolerates_absent (access_token : string)
    (r : response) (d : Py.dict value) :
  upstream []
    (requests_request "GET"
       "https://api.spotify.com/v1/me/player/currently-playing"
       (bearer access_token) None None) = inr r ->
  status_code r = 200 ->
  body r = Some (VDict d) ->
  absent_or_object d "item" ->
  absent_or_objects (sub_object d "item") "artists" ->
  absent_or_object (sub_object d "item") "album" ->
  absent_or_object (sub_object d "item") "external_urls" ->
  let out := run (GET_currently_playing access_token) in
  out = Ok (JSONResponse (tolerant_track_data d) cors_headers_full) /\
  (Py.lookup d (VStr "item") = None ->
   out = Ok (JSONResponse (no_item_track_data d) cors_headers_full)).
Proof.
  intros Hu Hs Hb Hitem Hart Halb Hext.
  assert (G : run (GET_currently_playing access_token)
              = Ok (JSONResponse (tolerant_track_data d) cors_headers_full)).
  { cbv [get_currently_playing run try_except mbind requests_get send lift
         ret fst raise_for_status ok json].
    rewrite Hu, Hs, Hb. cbn [Z.eqb Pos.eqb Z.leb Z.ltb Z.compare Pos.compare
      Pos.compare_cont andb negb rbind Py.get].
    unfold tolerant_track_data, at_or, sub_object, elements in *.
    destruct Hitem as [Hi | [it Hi]]; rewrite Hi in *; cbn [rbind Py.get].
    - reflexivity.
    - destruct Hart as [Ha | (l & Ha & Hl)]; rewrite Ha;
        destruct Halb as [Hal | [al Hal]]; rewrite Hal;
        destruct Hext as [He | [ex He]]; rewrite He;
        cbn [rbind Py.get Py.iter mapM map];
        rewrite ?(names_of_objects _ Hl); reflexivity. }
  split; [exact G|].
  intros Hi. cbv zeta. rewrite G.
  unfold tolerant_track_data, no_item_track_data.
  unfold sub_object, at_or, elements. rewrite Hi. reflexivity.
Qed.

(** C9 (as amended). When the client id and the client secret hold
    ASCII characters only, the [Authorization] value [refresh_token]
    builds is the one [requests] builds for [callback]'s
    [auth=(id, secret)]: ["Basic "] followed by the Base64 of
    [id:secret]; both token requests carry it. *)
Theorem basic_auth_agree_on_ascii (code : string) (tok : value) :
  ascii_only (format_env SPOTIFY_CLIENT_ID) = true ->
  ascii_only (format_env SPOTIFY_CLIENT_SECRET) = true ->
  refresh_header = Ok basic_auth /\
  In ("Authorization"%string, basic_auth)
     (headers (refresh_request basic_auth tok)) /\
  In ("Authorization"%string, basic_auth)
     (headers (token_request code)).
Proof.
  intros Hid Hsecret. split; [|split; simpl; auto].
  unfold refresh_authorization, basic_auth_str.
  rewrite encode_ascii_latin1.
  - simpl. rewrite decode_ascii_ok by apply b64encode_ascii. simpl.
    now rewrite !encode_latin1_app.
  - rewrite !ascii_only_app, Hid, Hsecret. reflexivity.
Qed.

(** C6. [login] answers with a redirect and sends nothing upstream.  The
    URL in the [Location] header of that redirect is a fixed function of
    the configuration in which the scopes, joined by single spaces, stand
    escaped as one query parameter value.  (The string the handler itself
    builds holds the spaces as they are; the response class escapes them.)
    When the client id and the redirect URI hold no character to escape,
    the URL is the one the specification words. *)
Theorem login_auth_url_scopes :
  (forall sent,
     GET_login sent
     = (Ok (Redirect
              ("https://accounts.spotify.com/authorize?response_type=code"
               ++ "&client_id="
               ++ quote (format_env SPOTIFY_CLIENT_ID) redirect_safe
               ++ "&redirect_uri="
               ++ quote (format_env SPOTIFY_REDIRECT_URI) redirect_safe
               ++ "&scope=" ++ url_quote (String.concat " " login_scopes))),
        sent)) /\
  (redirect_plain (format_env SPOTIFY_CLIENT_ID) = true ->
   redirect_plain (format_env SPOTIFY_REDIRECT_URI) = true ->
   forall sent,
     GET_login sent
     = (Ok (Redirect
              (spec_buildAuthorizeUrl (format_env SPOTIFY_CLIENT_ID)
                 (format_env SPOTIFY_REDIRECT_URI) login_scopes)),
        sent)).
Proof.
  assert (H : forall sent,
             GET_login sent = (Ok (Redirect (quote auth_url redirect_safe)),
                               sent))
    by reflexivity.
  split.
  - intros sent. rewrite H, login_location.
    cbn [String.append]. reflexivity.
  - intros Hid Huri sent. rewrite H, login_location.
    rewrite (quote_plain _ Hid), (quote_plain _ Huri).
    unfold spec_buildAuthorizeUrl. cbn [String.append]. reflexivity.
Qed.

(** Whatever the later fetches bring, a payload [callback] returns after
    a token response without [expires_in] holds 3600 there. *)
Lemma callback_returned_expires_in (code : string) (d : Py.dict value)
    (r0 : response) (resp : http_response) :
  upstream [] (token_request code) = inr r0 ->
  body r0 = Some (VDict d) ->
  Py.lookup d (VStr "expires_in") = None ->
  run (GET_callback code) = Ok resp ->
  exists content,
    resp = JSONResponse (VDict content) cors_headers /\
    Py.lookup content (VStr "expires_in") = Some (VInt 3600).
Proof.
  intros U0 Hbody Hexp.
  cbv [callback run try_except mbind send lift ret get_json requests_get
       raise_for_status json].
  rewrite U0, Hbody. cbv beta iota. cbn [Py.get]. rewrite Hexp.
  destruct (ok r0); cbv beta iota; [|cbn; discriminate].
  repeat match goal with
         | |- context [if ?b then _ else _] =>
             destruct b; cbv beta iota; cbn [fst raise]; try discriminate
         | |- context [match upstream ?t ?q with _ => _ end] =>
             destruct (upstream t q); cbv beta iota; cbn [fst raise];
             try discriminate
         | |- context [match body ?r with _ => _ end] =>
             destruct (body r); cbv beta iota; cbn [fst raise];
             try discriminate
         | |- context [match get_top_albums ?v with _ => _ end] =>
             destruct (get_top_albums v); cbv beta iota; cbn [fst raise];
             try discriminate
         | |- context [match get_top_genres ?v with _ => _ end] =>
             destruct (get_top_genres v); cbv beta iota; cbn [fst raise];
             try discriminate
         | |- context [match mapping ?v with _ => _ end] =>
             destruct (mapping v); cbv beta iota; cbn [fst raise];
             try discriminate
         end.
  all: try (cbn [except_RequestException fst raise]; discriminate).
  all: try (match goal with e : exn |- _ => destruct e end;
            cbn [except_RequestException fst raise]; discriminate).
  cbn [fst]. intros H. apply Ok_inj in H. subst resp.
  eexists. split; [reflexivity|].
  unfold Py.merge. cbn [fold_left fst snd].
  rewrite !lookup_set_other by reflexivity.
  now rewrite lookup_set_same.
Qed.

(** C10. When the token response of [callback] holds an access token and
    a refresh token but no [expires_in], and the eight fetches that follow
    are answered with JSON the handler can aggregate, the handler returns
    a payload whose [expires_in] is 3600. *)
Theorem callback_default_expires_in (code : string) (d : Py.dict value)
    (r0 : response) (rs : list response) (access_token refresh_token_ : value)
    (profile : Py.dict value)
    (short_artists medium_artists medium_artists_long long_artists
     short_tracks medium_tracks long_tracks : value) :
  answered upstream []
    (token_request code
     :: map (fun u => requests_request "GET" u
                        (bearer (value_str access_token)) None None)
            callback_urls)
    (r0 :: rs) ->
  ok r0 = true ->
  body r0 = Some (VDict d) ->
  Py.lookup d (VStr "access_token") = Some access_token ->
  Py.truthy access_token = true ->
  Py.lookup d (VStr "refresh_token") = Some refresh_token_ ->
  Py.truthy refresh_token_ = true ->
  Py.lookup d (VStr "expires_in") = None ->
  map body rs
  = map Some [VDict profile; short_artists; medium_artists;
              medium_artists_long; long_artists;
              short_tracks; medium_tracks; long_tracks] ->
  Forall (fun v => succeeds (get_top_albums v))
         [short_tracks; medium_tracks; long_tracks] ->
  Forall (fun v => succeeds (get_top_genres v))
         [short_artists; medium_artists; long_artists] ->
  exists content,
    run (GET_callback code)
    = Ok (JSONResponse (VDict content) cors_headers) /\
    Py.lookup content (VStr "expires_in") = Some (VInt 3600).
Proof.
  intros Hans Hok Hbody Hat Tat Hrt Trt Hexp Hrs Halb Hgen.
  do 9 (destruct rs as [|? rs]; try discriminate Hrs).
  cbn [map] in Hrs. injection Hrs as B1 B2 B3 B4 B5 B6 B7 B8.
  cbn [answered map callback_urls] in Hans.
  destruct Hans as (U0 & U1 & U2 & U3 & U4 & U5 & U6 & U7 & U8 & _).
  repeat match goal with
         | H : Forall _ (_ :: _) |- _ => inversion H; clear H; subst
         | H : succeeds _ |- _ => destruct H
         end.
  cbv [callback run try_except mbind send lift ret get_json requests_get
       raise_for_status json].
  rewrite U0, Hok, Hbody. cbv beta iota. cbn [Py.get].
  rewrite Hat, Hrt, Hexp, Tat, Trt. cbn [negb orb].
  rewrite U1, B1. cbv beta iota. rewrite U2, B2. cbv beta iota.
  rewrite U3, B3. cbv beta iota. rewrite U4, B4. cbv beta iota.
  rewrite U5, B5. cbv beta iota. rewrite U6, B6. cbv beta iota.
  rewrite U7, B7. cbv beta iota. rewrite U8, B8. cbv beta iota.
  repeat match goal with
         | H : get_top_albums _ = Ok _ |- _ => rewrite H; clear H
         | H : get_top_genres _ = Ok _ |- _ => rewrite H; clear H
         end.
  cbv beta iota. cbn [mapping fst].
  eexists. split; [reflexivity|].
  unfold Py.merge. cbn [fold_left fst snd].
  rewrite !lookup_set_other by reflexivity.
  now rewrite lookup_set_same.
Qed.

End HandlerFacts.

(** ** The handlers on sample inputs *)

Lemma refresh_token_missing_field_witness :
  let out := run (refresh_token None None
                    (upstream_always (sample_response 200 None))
                    sample_exn_str (Some (VDict []))) in
  out = Raise (HTTPException 500 "Refresh token is required") /\
  reply_status out = 500.
Proof.
  apply (refresh_token_missing_field None None
           (upstream_always (sample_response 200 None)) sample_exn_str []).
  left. reflexivity.
Defined.

Lemma refresh_token_upstream_failure_witness :
  let out := run (refresh_token (Some "id"%string) (Some "secret"%string)
                    (upstream_always (sample_response 401 None))
                    sample_exn_str
                    (Some (VDict [(VStr "refresh_token", VStr "r")]))) in
  out = Raise (HTTPException 500 "Failed to refresh token: ") /\
  reply_status out = 500.
Proof.
  apply (refresh_token_upstream_failure (Some "id"%string)
           (Some "secret"%string)
           (upstream_always (sample_response 401 None)) sample_exn_str
           [(VStr "refresh_token", VStr "r")] (VStr "r")
           "Basic aWQ6c2VjcmV0"%string (sample_response 401 None));
    reflexivity.
Defined.

Lemma token_expired_is_401_witness :
  (let out := run (get_recently_played
                     (upstream_always (sample_response 401 None))
                     sample_exn_str "tok") in
   reply_status out = 401 /\ reply_detail out = Some "Token expired"%string) /\
  (let out := run (get_currently_playing
                     (upstream_always (sample_response 401 None))
                     sample_exn_str "tok") in
   reply_status out = 401 /\ reply_detail out = Some "Token expired"%string).
Proof.
  destruct (token_expired_is_401 (upstream_always (sample_response 401 None))
              sample_exn_str "tok" (sample_response 401 None) eq_refl)
    as [H1 H2].
  split; [apply H1 | apply H2]; reflexivity.
Defined.

Lemma currently_playing_tolerates_absent_witness :
  let out := run (get_currently_playing
                    (upstream_always (sample_response 200 (Some (VDict []))))
                    sample_exn_str "tok") in
  out = Ok (JSONResponse (tolerant_track_data []) cors_headers_full) /\
  (Py.lookup (V := value) [] (VStr "item") = None ->
   out = Ok (JSONResponse (no_item_track_data []) cors_headers_full)).
Proof.
  apply (currently_playing_tolerates_absent
           (upstream_always (sample_response 200 (Some (VDict []))))
           sample_exn_str "tok" (sample_response 200 (Some (VDict []))) []);
    try reflexivity; left; reflexivity.
Defined.

(** On the empty 200 payload the handler succeeds, and the [artists]
    sub-field of [track] is the empty list, not null. *)
Lemma currently_playing_not_all_null :
  ~ (forall content hdrs,
       run (get_currently_playing
              (upstream_always (sample_response 200 (Some (VDict []))))
              sample_exn_str "tok") = Ok (JSONResponse content hdrs) ->
       Forall (fun kv => snd kv = VNone) (track_subfields content)).
Proof.
  intros H. specialize (H _ _ eq_refl). simpl in H.
  inversion H as [|? ? _ Hrest]. inversion Hrest as [|? ? Hartists _].
  discriminate Hartists.
Qed.

Lemma basic_auth_agree_on_ascii_witness :
  refresh_authorization (Some "id"%string) (Some "secret"%string)
  = Ok (basic_auth_str (Some "id"%string) (Some "secret"%string)) /\
  In ("Authorization"%string,
      basic_auth_str (Some "id"%string) (Some "secret"%string))
     (headers (refresh_request
                 (basic_auth_str (Some "id"%string) (Some "secret"%string))
                 (VStr "r"))) /\
  In ("Authorization"%string,
      basic_auth_str (Some "id"%string) (Some "secret"%string))
     (headers (callback_token_request (Some "id"%string)
                 (Some "secret"%string) None "code")).
Proof.
  apply (basic_auth_agree_on_ascii (Some "id"%string) (Some "secret"%string)
           None "code" (VStr "r")); reflexivity.
Defined.

(** With a client id outside ASCII, [refresh_token] fails to encode its
    header while [requests] encodes the one of [callback] as Latin-1. *)
Lemma basic_auth_differ_outside_ascii :
  ~ (forall client_id client_secret : option string,
       refresh_authorization client_id client_secret
       = Ok (basic_auth_str client_id client_secret)).
Proof.
  intros H. specialize (H latin1_client_id (Some "s"%string)).
  discriminate H.
Qed.

(** The string [login] builds holds the spaces themselves; what the
    redirect carries is that string quoted. *)
Lemma login_auth_url_unescaped :
  login_auth_url (Some "id"%string) (Some "uri"%string)
  <> spec_buildAuthorizeUrl "id" "uri" login_scopes.
Proof.
  intros H.
  assert (E : String.eqb (login_auth_url (Some "id"%string) (Some "uri"%string))
                (spec_buildAuthorizeUrl "id" "uri" login_scopes) = true)
    by (apply String.eqb_eq; exact H).
  vm_compute in E. discriminate E.
Qed.

(** The redirect of [login] for a sample configuration. *)
Example login_sample :
  run (login (Some "id"%string) (Some "https://h/cb"%string))
  = Ok (Redirect
          ("https://accounts.spotify.com/authorize?response_type=code"
           ++ "&client_id=id&redirect_uri=https://h/cb"
           ++ "&scope=user-read-recently-played%20user-read-private"
           ++ "%20user-read-email%20user-top-read"
           ++ "%20user-read-currently-playing")).
Proof. reflexivity. Qed.

Lemma login_auth_url_scopes_witness :
  login (Some "client-id"%string)
        (Some "https://recap.example/callback"%string) []
  = (Ok (Redirect
           (spec_buildAuthorizeUrl "client-id"
              "https://recap.example/callback" login_scopes)),
     []).
Proof.
  apply (proj2 (login_auth_url_scopes (Some "client-id"%string)
                  (Some "https://recap.example/callback"%string)));
    reflexivity.
Defined.

Lemma callback_default_expires_in_witness :
  exists content,
    run (callback None None None
           (upstream_always
              (sample_response 200 (Some (VDict sample_token_data))))
           sample_exn_str sample_value_str "code")
    = Ok (JSONResponse (VDict content) cors_headers) /\
    Py.lookup content (VStr "expires_in") = Some (VInt 3600).
Proof.
  apply (callback_default_expires_in None None None
           (upstream_always
              (sample_response 200 (Some (VDict sample_token_data))))
           sample_exn_str sample_value_str "code" sample_token_data
           (sample_response 200 (Some (VDict sample_token_data)))
           (repeat (sample_response 200 (Some (VDict sample_token_data))) 8)
           (VStr "a") (VStr "r") sample_token_data
           (VDict sample_token_data) (VDict sample_token_data)
           (VDict sample_token_data) (VDict sample_token_data)
           (VDict sample_token_data) (VDict sample_token_data)
           (VDict sample_token_data));
    try reflexivity.
  - simpl. tauto.
  - repeat constructor; exists []; reflexivity.
  - repeat constructor; exists []; reflexivity.
Defined.

(** A payload whose [item] is present but null is not tolerated: [.get] is
    looked up on [None] and the exception leaves the handler. *)
Example currently_playing_null_item :
  run (get_currently_playing
         (upstream_always
            (sample_response 200 (Some (VDict [(VStr "item", VNone)]))))
         sample_exn_str "tok")
  = Raise AttributeError.
Proof. reflexivity. Qed.

(** * Further properties of the aggregators *)

Lemma occurrences_In (k : value) (p : list value) :
  Py.hashable k = true -> In k p -> 1 <= occurrences k p.
Proof.
  intros Hk. induction p as [|x p IH]; simpl; [easy|].
  intros [-> | H].
  - rewrite (key_eqb_refl _ Hk). pose proof (occurrences_nonneg k p). lia.
  - specialize (IH H). destruct (Py.key_eqb k x); lia.
Qed.

Lemma tally_positive {V : Type} (cnt : V -> Z) (d : Py.dict V)
    (p : list value) :
  tallies cnt d p -> Forall (fun kv => 1 <= cnt (snd kv)) d.
Proof.
  intros (Hk & Hc & _ & Hh). rewrite Forall_forall in *. intros kv Hkv.
  rewrite (Hc kv Hkv).
  assert (Hin : In (fst kv) p)
    by (apply distinct_incl; rewrite <- Hk; now apply in_map).
  apply occurrences_In; auto.
Qed.

Lemma tally_first_seen {V : Type} (cnt : V -> Z) (d : Py.dict V)
    (p : list value) :
  tallies cnt d p ->
  StronglySorted
    (fun a b => (first_index (fst a) p < first_index (fst b) p)%nat) d.
Proof.
  intros (Hk & _ & _ & Hh).
  apply (StronglySorted_map
           (fun a b => (first_index a p < first_index b p)%nat) fst).
  rewrite Hk. now apply distinct_first_index.
Qed.

Lemma tally_keys_distinct {V : Type} (cnt : V -> Z) (d : Py.dict V)
    (p : list value) :
  tallies cnt d p ->
  StronglySorted (fun a b => Py.key_eqb (fst a) (fst b) = false) d.
Proof.
  intros (Hk & _).
  apply (StronglySorted_map (fun a b => Py.key_eqb a b = false) fst).
  rewrite Hk. apply distinct_pairwise.
Qed.

Lemma map_album_id (d : Py.dict album_stat) :
  map album_id (map (fun kv => {| stats := snd kv; album_id := fst kv |}) d)
  = map fst d.
Proof. rewrite map_map. apply map_ext. reflexivity. Qed.

(** X1. [get_top_albums] returns exactly as many aggregates as there are
    distinct album ids in the input, capped at ten; it returns the empty
    list exactly when no track carries an album id. *)
Theorem get_top_albums_size (tracks_data : value) (out : list top_album)
    (items : list value) :
  get_top_albums tracks_data = Ok out ->
  track_list tracks_data = Ok items ->
  length out = Nat.min 10 (length (distinct (album_ids items))) /\
  (out = [] <-> album_ids items = []).
Proof.
  intros H Hitems.
  destruct (get_top_albums_inv _ _ H) as (items' & d & Hi & Ht & _ & ->).
  assert (items' = items) by congruence. subst items'.
  destruct Ht as (Hk & _).
  assert (Hlen : length (firstn 10
                   (sort_desc (fun x => count (stats x))
                      (map (fun kv => {| stats := snd kv; album_id := fst kv |})
                           d)))
                 = Nat.min 10 (length (distinct (album_ids items)))).
  { rewrite length_firstn, sort_desc_length, length_map.
    now rewrite <- Hk, length_map. }
  split; [exact Hlen|].
  split; intros Hnil.
  - rewrite Hnil in Hlen. simpl in Hlen.
    destruct (album_ids items) as [|i r]; [reflexivity|].
    simpl in Hlen. lia.
  - rewrite Hnil in Hlen. simpl in Hlen. now apply length_zero_iff_nil.
Qed.

Lemma get_top_albums_size_witness :
  length sample_top_albums
  = Nat.min 10 (length (distinct (album_ids sample_items))) /\
  (sample_top_albums = [] <-> album_ids sample_items = []).
Proof.
  apply (get_top_albums_size sample_tracks); reflexivity.
Defined.

(** The ids and counts of the aggregates, sorted by decreasing count, are
    the ranking of the album ids met. *)
Lemma album_ranking (d : Py.dict album_stat) (p : list value) :
  tallies count d p ->
  ranking p
    (map (fun a => (album_id a, count (stats a)))
       (sort_desc (fun x => count (stats x))
          (map (fun kv => {| stats := snd kv; album_id := fst kv |}) d))).
Proof.
  intros Ht. pose proof (tally_first_seen _ _ _ Ht) as Hfirst.
  destruct Ht as (Hk & Hc & _ & Hh). split; [|split].
  - rewrite map_map. cbn [fst]. rewrite <- Hk, <- map_album_id.
    apply Permutation_map, sort_desc_perm.
  - apply Forall_map. cbn [fst snd].
    eapply Permutation_Forall; [symmetry; apply sort_desc_perm|].
    apply Forall_map. exact Hc.
  - apply StronglySorted_map. unfold genre_order. cbn [fst snd].
    apply (sort_desc_sorted (fun x => count (stats x))
             (fun a b => (first_index (album_id a) p
                          < first_index (album_id b) p)%nat)).
    apply StronglySorted_map. exact Hfirst.
Qed.

(** X2. The aggregates come by decreasing count, albums with equal counts
    in the order in which their ids were first met; no id comes twice.
    The list is the first ten entries of the ranking of all the albums
    met, each with the number of tracks of the input that carry its id;
    there is but one such ranking, so which albums are kept, with which
    counts and in which order, is fixed by the ids of the tracks. *)
Theorem get_top_albums_ranking (tracks_data : value) (out : list top_album)
    (items : list value) :
  get_top_albums tracks_data = Ok out ->
  track_list tracks_data = Ok items ->
  StronglySorted (album_order (album_ids items)) out /\
  StronglySorted (fun a b => Py.key_eqb (album_id a) (album_id b) = false)
                 out /\
  (exists rest,
     StronglySorted (album_order (album_ids items)) (out ++ rest) /\
     Permutation (map album_id (out ++ rest)) (distinct (album_ids items)) /\
     Forall (fun a => count (stats a)
                      = occurrences (album_id a) (album_ids items))
            (out ++ rest) /\
     out = firstn 10 (out ++ rest) /\
     (rest <> [] -> length out = 10%nat)) /\
  (forall r,
     ranking (album_ids items) r ->
     map (fun a => (album_id a, count (stats a))) out = firstn 10 r).
Proof.
  intros H Hitems.
  destruct (get_top_albums_inv _ _ H) as (items' & d & Hi & Ht & _ & ->).
  assert (items' = items) by congruence. subst items'.
  pose proof (album_ranking _ _ Ht) as Hrank.
  set (mk := fun kv : value * album_stat =>
               {| stats := snd kv; album_id := fst kv |}) in *.
  set (sorted := sort_desc (fun x => count (stats x)) (map mk d)) in *.
  assert (Hsorted : StronglySorted (album_order (album_ids items)) sorted).
  { apply (sort_desc_sorted (fun x => count (stats x))
             (fun a b => (first_index (album_id a) (album_ids items)
                          < first_index (album_id b) (album_ids items))%nat)).
    apply StronglySorted_map. exact (tally_first_seen _ _ _ Ht). }
  assert (Hdist : StronglySorted
            (fun a b => Py.key_eqb (album_id a) (album_id b) = false) sorted).
  { eapply StronglySorted_perm_sym;
      [ intros a b; now rewrite key_eqb_sym
      | symmetry; apply sort_desc_perm | ].
    apply StronglySorted_map. exact (tally_keys_distinct _ _ _ Ht). }
  split; [now apply StronglySorted_firstn|].
  split; [now apply StronglySorted_firstn|]. split.
  - exists (skipn 10 sorted). rewrite firstn_skipn.
    split; [exact Hsorted|]. split; [|split; [|split; [reflexivity|]]].
    + destruct Ht as (Hk & _). rewrite <- Hk, <- map_album_id.
      apply Permutation_map, sort_desc_perm.
    + destruct Hrank as (_ & Hc & _).
      rewrite Forall_map in Hc. exact Hc.
    + intros Hrest. rewrite length_firstn.
      destruct (Nat.le_gt_cases (length sorted) 10) as [Hle|Hgt]; [|lia].
      now rewrite (skipn_all2 _ Hle) in Hrest.
  - intros r Hr. rewrite <- firstn_map. f_equal.
    exact (ranking_unique _ _ _ Hrank Hr).
Qed.

(** Twelve tracks over eleven albums, the album met twice coming last: it
    is kept, at the head, and the last of the others is cut off. *)
Lemma get_top_albums_ranking_witness :
  StronglySorted (album_order (album_ids eleven_albums_items))
                 eleven_albums_top /\
  StronglySorted (fun a b => Py.key_eqb (album_id a) (album_id b) = false)
                 eleven_albums_top /\
  (exists rest,
     StronglySorted (album_order (album_ids eleven_albums_items))
                    (eleven_albums_top ++ rest) /\
     Permutation (map album_id (eleven_albums_top ++ rest))
                 (distinct (album_ids eleven_albums_items)) /\
     Forall (fun a => count (stats a)
                      = occurrences (album_id a)
                          (album_ids eleven_albums_items))
            (eleven_albums_top ++ rest) /\
     eleven_albums_top = firstn 10 (eleven_albums_top ++ rest) /\
     (rest <> [] -> length eleven_albums_top = 10%nat)) /\
  (forall r,
     ranking (album_ids eleven_albums_items) r ->
     map (fun a => (album_id a, count (stats a))) eleven_albums_top
     = firstn 10 r).
Proof.
  apply (get_top_albums_ranking eleven_albums_tracks); reflexivity.
Defined.

(** X3. Every aggregate counts at least one track, and its count is the
    length of its [tracks]. *)
Theorem get_top_albums_count_tracks (tracks_data : value)
    (out : list top_album) :
  get_top_albums tracks_data = Ok out ->
  Forall (fun a => 1 <= count (stats a) /\
                   count (stats a) = Z.of_nat (length (tracks (stats a))))
         out.
Proof.
  intros H.
  destruct (get_top_albums_inv _ _ H) as (items & d & Hi & Ht & Hcol & ->).
  pose proof (tally_positive _ _ _ Ht) as Hpos.
  pose proof (tally_keys_truthy _ _ Ht) as Htr.
  destruct Ht as (_ & Hc & _).
  apply Forall_firstn_sorted, Forall_map. unfold collected in Hcol.
  rewrite Forall_forall in *. intros kv Hkv. cbn [stats album_id].
  split; [now apply Hpos|].
  rewrite (Hcol kv Hkv), length_map, (Hc kv Hkv).
  apply occurrences_album_ids. now apply Htr.
Qed.

Lemma get_top_albums_count_tracks_witness :
  Forall (fun a => 1 <= count (stats a) /\
                   count (stats a) = Z.of_nat (length (tracks (stats a))))
         sample_top_albums.
Proof.
  apply (get_top_albums_count_tracks sample_tracks). reflexivity.
Defined.

Lemma find_app_found {A : Type} (f : A -> bool) (l l' : list A) (x : A) :
  find f l = Some x -> find f (l ++ l') = Some x.
Proof.
  induction l as [|a l IH]; simpl; [discriminate|].
  destruct (f a); auto.
Qed.

Lemma find_filter_nil {A : Type} (f : A -> bool) (l : list A) :
  filter f l = [] -> find f l = None.
Proof.
  induction l as [|a l IH]; simpl; [reflexivity|].
  destruct (f a); [discriminate | auto].
Qed.

Lemma find_snoc_first {A : Type} (f : A -> bool) (l : list A) (t : A) :
  filter f l = [] -> f t = true -> find f (l ++ [t]) = Some t.
Proof.
  intros Hnil Ht. induction l as [|a l IH]; simpl.
  - now rewrite Ht.
  - simpl in Hnil. destruct (f a); [discriminate | auto].
Qed.

Lemma modify_Forall {V : Type} (P : value * V -> Prop) (d : Py.dict V)
    (k : value) (f : V -> V) (d' : Py.dict V) :
  (forall k0 v, P (k0, v) -> P (k0, f v)) ->
  Forall P d -> Py.modify d k f = Ok d' -> Forall P d'.
Proof.
  intros Hf Hd. revert d'. induction Hd as [|[k0 v0] r Hkv Hr IH]; simpl;
    intros d'; [discriminate|].
  destruct (Py.key_eqb k0 k).
  - intros [= <-]. constructor; auto.
  - destruct (Py.modify r k f) as [r'|]; simpl; [|discriminate].
    intros [= <-]. constructor; auto.
Qed.

Lemma sourced_snoc (d : Py.dict album_stat) (items : list value) (t : value) :
  sourced d items -> sourced d (items ++ [t]).
Proof.
  unfold sourced. intros H. eapply Forall_impl; [|exact H].
  intros kv (t0 & album & fresh & Hfind & Hrest).
  exists t0, album, fresh. split; [now apply find_app_found | exact Hrest].
Qed.

Lemma sourced_modify (d : Py.dict album_stat) (items : list value)
    (k : value) (f : album_stat -> album_stat) (d' : Py.dict album_stat) :
  (forall st, same_metadata (f st) st) ->
  sourced d items -> Py.modify d k f = Ok d' -> sourced d' items.
Proof.
  intros Hf Hd Hm. unfold sourced in *.
  eapply modify_Forall; [|exact Hd|exact Hm].
  intros k0 v (t0 & album & fresh & Hfind & Ha & Hi & Hn & Hmeta).
  exists t0, album, fresh. repeat split; auto; cbn [snd] in *;
    destruct (Hf v) as (F1 & F2 & F3 & F4 & F5 & F6);
    destruct Hmeta as (M1 & M2 & M3 & M4 & M5 & M6); congruence.
Qed.

Lemma album_step_sourced (d : Py.dict album_stat) (items : list value)
    (t : value) (d' : Py.dict album_stat) :
  tallies count d (album_ids items) -> sourced d items ->
  album_step d t = Ok d' -> sourced d' (items ++ [t]).
Proof.
  intros Hd Hs H. apply (sourced_snoc _ _ t) in Hs.
  unfold album_step in H.
  bind_inv H. bind_inv H. rename x into album, x0 into k.
  assert (Hid : track_album_id t = Some k)
    by (unfold track_album_id; now rewrite E, E0).
  destruct (Py.truthy k) eqn:Tk; simpl in H.
  2:{ apply Ok_inj in H. now subst d'. }
  bind_inv H. unfold Py.contains in E1.
  destruct (Py.hashable k) eqn:Hk; [|discriminate]. apply Ok_inj in E1.
  bind_inv H. bind_inv H. bind_inv H. bind_inv H.
  destruct (Py.lookup d k) as [st0|] eqn:L; subst x.
  - apply Ok_inj in E2. subst x0.
    pose proof (modify_modify _ _ _ _ _ _ E3 H) as Hm.
    eapply sourced_modify; [|exact Hs|exact Hm].
    intros st. repeat split.
  - bind_inv E2. apply Ok_inj in E2. subst x0.
    rewrite (set_absent _ _ _ L) in E3.
    rewrite (modify_absent_snoc _ _ _ _ L (key_eqb_refl _ Hk)) in E3.
    apply Ok_inj in E3. subst x1.
    rewrite (modify_absent_snoc _ _ _ _ L (key_eqb_refl _ Hk)) in H.
    apply Ok_inj in H. subst d'.
    apply Forall_app. split; [exact Hs|]. constructor; [|constructor].
    assert (Hnone : filter (belongs_to k) items = []).
    { apply length_zero_iff_nil.
      pose proof (occurrences_album_ids k items Tk) as Hocc.
      rewrite occurrences_absent in Hocc; [lia|].
      destruct Hd as (Hkeys & _).
      rewrite <- existsb_distinct, <- Hkeys.
      apply absent_keys. now apply lookup_None. }
    exists t, album, x. cbn [fst snd].
    split; [|split; [exact E|split; [exact E0|split; [exact E1|]]]].
    + apply find_snoc_first; [exact Hnone|].
      unfold belongs_to. now rewrite Hid, (key_eqb_refl _ Hk).
    + repeat split.
Qed.

Lemma album_loop_sourced (items : list value) (d : Py.dict album_stat)
    (done : list value) (d' : Py.dict album_stat) :
  tallies count d (album_ids done) -> sourced d done ->
  foldM album_step items d = Ok d' -> sourced d' (done ++ items).
Proof.
  revert d done. induction items as [|t r IH]; intros d done Hd Hs H;
    cbn [foldM] in H.
  - apply Ok_inj in H. subst d'. now rewrite app_nil_r.
  - bind_inv H. change (t :: r) with ([t] ++ r). rewrite app_assoc.
    eapply IH; eauto.
    + rewrite album_ids_app. eapply album_step_tallies; eauto.
    + eapply album_step_sourced; eauto.
Qed.

(** X4. Each aggregate is described by the first track of its album in
    the input: its name, artists, images, release date, number of tracks
    and address are those of that track's album object, its id is that
    track's id object, and later tracks of the album change none of
    them. *)
Theorem get_top_albums_first_metadata (tracks_data : value)
    (out : list top_album) (items : list value) :
  get_top_albums tracks_data = Ok out ->
  track_list tracks_data = Ok items ->
  Forall (fun a =>
            exists t album fresh,
              find (belongs_to (album_id a)) items = Some t /\
              Py.get t "album" (VDict []) = Ok album /\
              Py.get album "id" VNone = Ok (album_id a) /\
              new_album_stat album = Ok fresh /\
              same_metadata (stats a) fresh) out.
Proof.
  intros H Hitems. unfold get_top_albums in H.
  bind_inv H. bind_inv H. bind_inv H. cbv beta zeta in H.
  apply Ok_inj in H. subst out.
  assert (x0 = items) by (unfold track_list in Hitems; rewrite E in Hitems;
                          simpl in Hitems; congruence).
  subst x0.
  pose proof (album_loop_sourced _ _ [] _ (tallies_nil _) (Forall_nil _) E1)
    as Hs.
  simpl in Hs. apply Forall_firstn_sorted, Forall_map. exact Hs.
Qed.

Lemma get_top_albums_first_metadata_witness :
  Forall (fun a =>
            exists t album fresh,
              find (belongs_to (album_id a)) sample_items = Some t /\
              Py.get t "album" (VDict []) = Ok album /\
              Py.get album "id" VNone = Ok (album_id a) /\
              new_album_stat album = Ok fresh /\
              same_metadata (stats a) fresh) sample_top_albums.
Proof.
  apply (get_top_albums_first_metadata sample_tracks); reflexivity.
Defined.

(** ** What the aggregators need and how they fail *)

Lemma foldM_Ok_each {A S : Type} (f : S -> A -> result S) (l : list A)
    (acc s : S) :
  foldM f l acc = Ok s -> Forall (fun x => exists s1 s2, f s1 x = Ok s2) l.
Proof.
  revert acc. induction l as [|x l IH]; simpl; intros acc H; [constructor|].
  bind_inv H. constructor; eauto.
Qed.

Lemma album_step_usable (d d' : Py.dict album_stat) (t : value) :
  album_step d t = Ok d' -> usable_track t.
Proof.
  unfold album_step. intros H. bind_inv H. bind_inv H.
  destruct t as [| | | | |?|td]; try discriminate E.
  cbn [Py.get] in E. apply Ok_inj in E.
  assert (Hal : absent_or_object td "album" /\
                x = VDict (sub_object td "album")).
  { unfold absent_or_object, sub_object.
    destruct (Py.lookup td (VStr "album")) as [v|]; subst x.
    - destruct v; try discriminate E0. split; [right; eauto | reflexivity].
    - split; [now left | reflexivity]. }
  destruct Hal as (Hal & ->). cbn [Py.get] in E0. apply Ok_inj in E0.
  exists td. split; [reflexivity|]. split; [exact Hal|].
  fold (at_or (sub_object td "album") "id" VNone) in E0. rewrite E0.
  intros Tk. rewrite Tk in H. cbn [negb] in H.
  bind_inv H.
  match goal with
  | Hc : Py.contains _ _ = Ok _ |- _ => unfold Py.contains in Hc; revert Hc
  end.
  destruct (Py.hashable x0); [reflexivity | discriminate].
Qed.

(** X5. [get_top_albums] returns only when its argument is an object and
    every item is an object whose [album] is absent or an object, with an
    id that is falsy or hashable: one malformed item anywhere makes the
    whole call raise. *)
Theorem get_top_albums_requires_shape (tracks_data : value)
    (out : list top_album) :
  get_top_albums tracks_data = Ok out ->
  exists d items,
    tracks_data = VDict d /\ track_list tracks_data = Ok items /\
    Forall usable_track items.
Proof.
  intros H. unfold get_top_albums in H.
  bind_inv H. bind_inv H. bind_inv H.
  destruct tracks_data as [| | | | |?|d]; try discriminate E.
  exists d, x0. split; [reflexivity|]. split.
  - unfold track_list. now rewrite E.
  - eapply Forall_impl; [|exact (foldM_Ok_each _ _ _ _ E1)].
    intros t (s1 & s2 & Hstep). exact (album_step_usable _ _ _ Hstep).
Qed.

Lemma get_top_albums_requires_shape_witness :
  exists d items,
    sample_tracks = VDict d /\ track_list sample_tracks = Ok items /\
    Forall usable_track items.
Proof.
  apply (get_top_albums_requires_shape sample_tracks sample_top_albums).
  reflexivity.
Defined.

Lemma raises_only_bind {A B : Type} (P : exn -> Prop) (r : result A)
    (k : A -> result B) :
  raises_only P r -> (forall a, r = Ok a -> raises_only P (k a)) ->
  raises_only P (rbind r k).
Proof.
  intros Hr Hk e. destruct r as [a|e0]; simpl.
  - now apply Hk.
  - intros [= <-]. now apply Hr.
Qed.

Lemma raises_only_Ok {A : Type} (P : exn -> Prop) (a : A) :
  raises_only P (Ok a).
Proof. intros e. discriminate. Qed.

Lemma raises_only_get (o : value) (k : string) (default : value) :
  raises_only shape_error (Py.get o k default).
Proof.
  intros e. destruct o; simpl; try discriminate; intros [= <-]; now left.
Qed.

Lemma raises_only_iter (o : value) : raises_only shape_error (Py.iter o).
Proof.
  intros e. destruct o; simpl; try discriminate; intros [= <-]; now right.
Qed.

Lemma raises_only_mapM {A B : Type} (P : exn -> Prop) (f : A -> result B)
    (l : list A) :
  (forall x, raises_only P (f x)) -> raises_only P (mapM f l).
Proof.
  intros Hf. induction l as [|x l IH]; simpl; [apply raises_only_Ok|].
  apply raises_only_bind; [apply Hf|]. intros y _.
  apply raises_only_bind; [exact IH|]. intros ys _. apply raises_only_Ok.
Qed.

Lemma raises_only_foldM {A S : Type} (P : exn -> Prop)
    (f : S -> A -> result S) (l : list A) (acc : S) :
  (forall s x, raises_only P (f s x)) -> raises_only P (foldM f l acc).
Proof.
  intros Hf. revert acc. induction l as [|x l IH]; intros acc; simpl;
    [apply raises_only_Ok|].
  apply raises_only_bind; [apply Hf|]. intros s _. apply IH.
Qed.

Lemma new_album_stat_raises (album : value) :
  raises_only shape_error (new_album_stat album).
Proof.
  unfold new_album_stat.
  repeat (apply raises_only_bind;
          [ first [ apply raises_only_get | apply raises_only_iter
                  | apply raises_only_mapM; intros; apply raises_only_get ]
          | intros ? _ ]).
  apply raises_only_Ok.
Qed.

Lemma album_step_raises (d : Py.dict album_stat) (t : value) :
  raises_only shape_error (album_step d t).
Proof.
  intros e H. unfold album_step in H.
  destruct t as [| | | | |?|td]; try (injection H as <-; now left).
  cbn [Py.get rbind] in H.
  destruct (Py.get _ "id" VNone) as [k|e0] eqn:Eid; cbn [rbind] in H;
    [|injection H as <-; exact (raises_only_get _ _ _ _ Eid)].
  destruct (Py.truthy k); cbn [negb] in H; [|discriminate].
  unfold Py.contains in H.
  destruct (Py.hashable k) eqn:Hk; cbn [rbind] in H;
    [|injection H as <-; now right].
  destruct (Py.lookup d k) as [st0|] eqn:L; cbn [rbind] in H.
  - destruct (modify_twice d k incr_count
                (append_track
                   (VDict [(VStr "name", at_or td "name" VNone);
                           (VStr "popularity", at_or td "popularity" VNone)]))
                _ L) as (d1 & d2 & H1 & H2).
    rewrite H1 in H. cbn [rbind] in H. unfold at_or in H2. rewrite H2 in H.
    discriminate.
  - destruct (new_album_stat _) as [fresh|e0] eqn:En; cbn [rbind] in H;
      [|injection H as <-; exact (new_album_stat_raises _ _ En)].
    rewrite (set_absent _ _ _ L) in H.
    rewrite (modify_absent_snoc _ _ _ _ L (key_eqb_refl _ Hk)) in H.
    cbn [rbind] in H.
    rewrite (modify_absent_snoc _ _ _ _ L (key_eqb_refl _ Hk)) in H.
    discriminate.
Qed.

Lemma get_top_albums_shape_errors (tracks_data : value) :
  raises_only shape_error (get_top_albums tracks_data).
Proof.
  unfold get_top_albums.
  apply raises_only_bind; [apply raises_only_get|]. intros items_v _.
  apply raises_only_bind; [apply raises_only_iter|]. intros items _.
  apply raises_only_bind;
    [apply raises_only_foldM; intros; apply album_step_raises|].
  intros d _. apply raises_only_Ok.
Qed.

(** X6. When [get_top_albums] raises, the exception is an
    [AttributeError] (something that should be an object is not) or a
    [TypeError] (something is not iterable, or an id is unhashable); the
    lookups of [album_stats] never raise [KeyError]. *)
Theorem get_top_albums_raises (tracks_data : value) (e : exn) :
  get_top_albums tracks_data = Raise e ->
  e = AttributeError \/ e = TypeError.
Proof. apply get_top_albums_shape_errors. Qed.

Lemma get_top_albums_raises_witness :
  AttributeError = AttributeError \/ AttributeError = TypeError.
Proof.
  apply (get_top_albums_raises (VList [])). reflexivity.
Defined.

(** ** The genre counts *)

Lemma get_top_genres_inv (artists_data : value) (out : Py.dict Z) :
  get_top_genres artists_data = Ok out ->
  exists tags d,
    genre_tags artists_data = Ok tags /\
    tallies (fun n => n) d tags /\
    out = firstn 10 (sort_desc snd d).
Proof.
  intros H. unfold get_top_genres in H.
  bind_inv H. bind_inv H. bind_inv H. cbv beta zeta in H.
  apply Ok_inj in H. subst out.
  destruct (artist_loop_flat _ _ _ E1) as (per & Hper & Hloop).
  pose proof (genre_loop_tallies _ _ [] _ (tallies_nil _) Hloop) as Ht.
  simpl in Ht. exists (concat per), x1. split; [|split; [exact Ht|]].
  - unfold genre_tags. rewrite E. simpl. rewrite E0. simpl. now rewrite Hper.
  - apply of_pairs_distinct, StronglySorted_firstn.
    eapply StronglySorted_perm_sym;
      [ intros a b; now rewrite key_eqb_sym
      | symmetry; apply sort_desc_perm
      | exact (tally_keys_distinct _ _ _ Ht) ].
Qed.

Lemma total_perm {V : Type} (cnt : V -> Z) (l l' : Py.dict V) :
  Permutation l l' -> total cnt l = total cnt l'.
Proof. induction 1; simpl; lia. Qed.

Lemma total_firstn {V : Type} (cnt : V -> Z) (n : nat) (l : Py.dict V) :
  Forall (fun kv => 0 <= cnt (snd kv)) l ->
  total cnt (firstn n l) <= total cnt l.
Proof.
  intros H. revert n. induction H as [|a l Ha Hl IH]; intros [|n]; simpl;
    try lia.
  - assert (0 <= total cnt l); [|lia].
    clear IH. induction Hl; simpl; lia.
  - specialize (IH n). lia.
Qed.

(** X7. Every genre [get_top_genres] returns has a count of at least one;
    it returns as many genres as it met distinct ones, capped at ten; the
    counts add up to at most the number of genre tags, and to exactly that
    number when at most ten distinct genres were met. *)
Theorem get_top_genres_counts (artists_data : value) (out : Py.dict Z) :
  get_top_genres artists_data = Ok out ->
  exists tags,
    genre_tags artists_data = Ok tags /\
    Forall (fun gc => 1 <= snd gc) out /\
    length out = Nat.min 10 (length (distinct tags)) /\
    total (fun n => n) out <= Z.of_nat (length tags) /\
    ((length (distinct tags) <= 10)%nat ->
     total (fun n => n) out = Z.of_nat (length tags)).
Proof.
  intros H. destruct (get_top_genres_inv _ _ H) as (tags & d & Ht & Hd & ->).
  exists tags. split; [exact Ht|].
  pose proof (tally_positive _ _ _ Hd) as Hpos.
  destruct Hd as (Hk & _ & Hs & _).
  assert (Hlen : length (sort_desc snd d) = length (distinct tags))
    by now rewrite sort_desc_length, <- Hk, length_map.
  split; [now apply Forall_firstn_sorted|].
  split; [now rewrite length_firstn, Hlen|].
  split.
  - rewrite <- Hs, <- (total_perm _ _ _ (sort_desc_perm snd d)).
    apply total_firstn.
    eapply Permutation_Forall; [symmetry; apply sort_desc_perm|].
    eapply Forall_impl; [|exact Hpos]. cbv beta. intros kv Hkv. lia.
  - intros Hle. rewrite firstn_all2 by lia.
    now rewrite (total_perm _ _ _ (sort_desc_perm snd d)).
Qed.

Lemma get_top_genres_counts_witness :
  exists tags,
    genre_tags sample_artists = Ok tags /\
    Forall (fun gc => 1 <= snd gc) sample_genres /\
    length sample_genres = Nat.min 10 (length (distinct tags)) /\
    total (fun n => n) sample_genres <= Z.of_nat (length tags) /\
    ((length (distinct tags) <= 10)%nat ->
     total (fun n => n) sample_genres = Z.of_nat (length tags)).
Proof.
  apply (get_top_genres_counts sample_artists). reflexivity.
Defined.

Lemma genre_step_raises (d : Py.dict Z) (g : value) :
  raises_only shape_error (genre_step d g).
Proof.
  intros e. unfold genre_step, Py.dict_get.
  destruct (Py.hashable g); simpl; [discriminate|].
  intros [= <-]. now right.
Qed.

Lemma artist_step_raises (d : Py.dict Z) (a : value) :
  raises_only shape_error (artist_step d a).
Proof.
  unfold artist_step.
  apply raises_only_bind; [apply raises_only_get|]. intros gv _.
  apply raises_only_bind; [apply raises_only_iter|]. intros gs _.
  apply raises_only_foldM. intros. apply genre_step_raises.
Qed.

Lemma get_top_genres_shape_errors (artists_data : value) :
  raises_only shape_error (get_top_genres artists_data).
Proof.
  unfold get_top_genres.
  apply raises_only_bind; [apply raises_only_get|]. intros items_v _.
  apply raises_only_bind; [apply raises_only_iter|]. intros items _.
  apply raises_only_bind;
    [apply raises_only_foldM; intros; apply artist_step_raises|].
  intros d _. apply raises_only_Ok.
Qed.

(** X8. [get_top_genres] returns only when every genre tag it meets is
    hashable (a string, a number, a boolean or null); when it raises, the
    exception is an [AttributeError] or a [TypeError]. *)
Theorem get_top_genres_failures (artists_data : value) :
  (forall out tags,
     get_top_genres artists_data = Ok out ->
     genre_tags artists_data = Ok tags ->
     Forall (fun g => Py.hashable g = true) tags) /\
  (forall e,
     get_top_genres artists_data = Raise e ->
     e = AttributeError \/ e = TypeError).
Proof.
  split.
  - intros out tags H Htags.
    destruct (get_top_genres_inv _ _ H) as (tags' & d & Ht & Hd & _).
    assert (tags' = tags) by congruence. subst tags'.
    now destruct Hd as (_ & _ & _ & Hh).
  - apply get_top_genres_shape_errors.
Qed.

Lemma get_top_genres_failures_witness :
  Forall (fun g => Py.hashable g = true)
         (repeat (VStr "pop") 15 ++ repeat (VStr "rock") 3) /\
  (TypeError = AttributeError \/ TypeError = TypeError).
Proof.
  destruct (get_top_genres_failures sample_artists) as [H1 _].
  destruct (get_top_genres_failures
              (VDict [(VStr "items",
                       VList [VDict [(VStr "genres", VList [VList []])]])]))
    as [_ H2].
  split.
  - apply (H1 sample_genres); reflexivity.
  - apply H2. reflexivity.
Defined.

(** * Further properties of the request handlers *)

Lemma encode_ascii_fails (s : string) :
  ascii_only s = false -> encode_ascii s = Raise UnicodeEncodeError.
Proof.
  unfold ascii_only, encode_ascii.
  induction (list_ascii_of_string s) as [|c l IH]; simpl; [discriminate|].
  destruct (N_of_ascii c <? 128)%N; simpl; [|reflexivity].
  intros H. now rewrite (IH H).
Qed.

Section HandlerOutcomes.
Variables SPOTIFY_CLIENT_ID SPOTIFY_CLIENT_SECRET SPOTIFY_REDIRECT_URI
  : option string.
Variable upstream : list request -> request -> string + response.
Variable exn_str : exn -> string.
Variable value_str : value -> string.

Local Abbreviation POST_refresh_token :=
  (refresh_token SPOTIFY_CLIENT_ID SPOTIFY_CLIENT_SECRET upstream exn_str)
  (only parsing).
Local Abbreviation GET_recently_played :=
  (get_recently_played upstream exn_str) (only parsing).
Local Abbreviation GET_currently_playing :=
  (get_currently_playing upstream exn_str) (only parsing).
Local Abbreviation GET_callback :=
  (callback SPOTIFY_CLIENT_ID SPOTIFY_CLIENT_SECRET SPOTIFY_REDIRECT_URI
     upstream exn_str value_str) (only parsing).
Local Abbreviation token_request :=
  (callback_token_request SPOTIFY_CLIENT_ID SPOTIFY_CLIENT_SECRET
     SPOTIFY_REDIRECT_URI) (only parsing).
Local Abbreviation refresh_header :=
  (refresh_authorization SPOTIFY_CLIENT_ID SPOTIFY_CLIENT_SECRET)
  (only parsing).
Local Abbreviation recently_played_request access_token :=
  (requests_request "GET"
     "https://api.spotify.com/v1/me/player/recently-played"
     (bearer access_token) None None) (only parsing).
Local Abbreviation currently_playing_request access_token :=
  (requests_request "GET"
     "https://api.spotify.com/v1/me/player/currently-playing"
     (bearer access_token) None None) (only parsing).

(** X9. Whatever the inbound body and whatever the upstream does,
    [refresh_token] ends in one of two ways: a JSON response with the two
    CORS headers, or an [HTTPException] of status 500.  It never replies
    400 or 401, never lets another exception out, and sends at most one
    request upstream. *)
Theorem refresh_token_outcomes (request_body : option value) :
  let out := run (POST_refresh_token request_body) in
  ((exists content, out = Ok (JSONResponse content cors_headers)) \/
   (exists detail, out = Raise (HTTPException 500 detail))) /\
  (reply_status out = 200 \/ reply_status out = 500) /\
  (length (trace (POST_refresh_token request_body)) <= 1)%nat.
Proof.
  cbv [refresh_token run trace try_except mbind send lift ret raise fst snd
       request_json json].
  destruct request_body as [data|]; cbn [rbind];
    [|split; [right; eauto | split; [now right | simpl; lia]]].
  destruct (Py.get data "refresh_token" VNone) as [tok|e0];
    [|split; [right; eauto | split; [now right | simpl; lia]]].
  destruct (Py.truthy tok); cbn [negb];
    [|split; [right; eauto | split; [now right | simpl; lia]]].
  destruct refresh_header as [h|e0];
    [|split; [right; eauto | split; [now right | simpl; lia]]].
  destruct (upstream [] (refresh_request h tok)) as [msg|r];
    [split; [right; eauto | split; [now right | simpl; lia]]|].
  destruct (ok r); cbn [negb];
    [|split; [right; eauto | split; [now right | simpl; lia]]].
  destruct (body r) as [v|];
    split; [left; eauto | split; [now left | simpl; lia]
           |right; eauto | split; [now right | simpl; lia]].
Qed.

(** X10. When the token endpoint answers a refresh with a status that is
    not an error status and a JSON body, [refresh_token] hands that body
    back unchanged, whatever it holds. *)
Theorem refresh_token_passes_body (d : Py.dict value) (tok : value)
    (h : string) (r : response) (v : value) :
  Py.lookup d (VStr "refresh_token") = Some tok ->
  Py.truthy tok = true ->
  refresh_header = Ok h ->
  upstream [] (refresh_request h tok) = inr r ->
  ok r = true ->
  body r = Some v ->
  run (POST_refresh_token (Some (VDict d)))
  = Ok (JSONResponse v cors_headers) /\
  trace (POST_refresh_token (Some (VDict d))) = [refresh_request h tok].
Proof.
  intros Hd Ht Hh Hu Hok Hb.
  cbv [refresh_token run trace try_except mbind send lift ret raise fst snd
       request_json json].
  cbn [rbind Py.get]. rewrite Hd, Ht, Hh. cbn [negb].
  rewrite Hu, Hok, Hb. cbn [negb]. split; reflexivity.
Qed.

(** X11. A refresh request whose body lacks the token is turned down
    before anything is sent upstream. *)
Theorem refresh_token_missing_sends_nothing (d : Py.dict value) :
  lacks_refresh_token d ->
  trace (POST_refresh_token (Some (VDict d))) = [].
Proof.
  intros H.
  cbv [refresh_token run trace try_except mbind send lift ret raise fst snd
       request_json json].
  cbn [rbind Py.get].
  destruct H as [-> | [-> | ->]]; reflexivity.
Qed.

(** X12. With a client id or a client secret that holds a character
    outside ASCII, [refresh_token] cannot build its header: every refresh
    request is answered 500 and nothing is sent upstream. *)
Theorem refresh_token_unencodable_credentials (request_body : option value) :
  ascii_only (format_env SPOTIFY_CLIENT_ID) = false \/
  ascii_only (format_env SPOTIFY_CLIENT_SECRET) = false ->
  reply_status (run (POST_refresh_token request_body)) = 500 /\
  trace (POST_refresh_token request_body) = [].
Proof.
  intros H.
  assert (Hh : refresh_header = Raise UnicodeEncodeError).
  { unfold refresh_authorization. rewrite encode_ascii_fails; [reflexivity|].
    rewrite !ascii_only_app.
    destruct H as [-> | ->]; [reflexivity|].
    now rewrite !andb_false_r. }
  cbv [refresh_token run trace try_except mbind send lift ret raise fst snd
       request_json json].
  destruct request_body as [data|]; cbn [rbind]; [|split; reflexivity].
  destruct (Py.get data "refresh_token" VNone) as [tok|e0];
    [|split; reflexivity].
  destruct (Py.truthy tok); cbn [negb]; [|split; reflexivity].
  rewrite Hh. split; reflexivity.
Qed.

(** How [get_recently_played] can end. *)
Lemma recently_played_ends (access_token : string) :
  exists out,
    GET_recently_played access_token []
    = (out, [recently_played_request access_token]) /\
    ((exists content, out = Ok (Returned content)) \/
     out = Raise (HTTPException 401 "Token expired") \/
     (exists detail, out = Raise (HTTPException 500 detail))).
Proof.
  cbv [get_recently_played try_except mbind requests_get send lift
       ret raise raise_for_status json].
  destruct (upstream [] _) as [msg|r]; cbn [except_RequestException raise];
    [eexists; split; [reflexivity | right; right; eauto]|].
  destruct (status_code r =? 401); cbn [except_RequestException raise];
    [eexists; split; [reflexivity | right; now left]|].
  destruct (ok r); cbn [except_RequestException raise];
    [|eexists; split; [reflexivity | right; right; eauto]].
  destruct (body r); cbn [except_RequestException raise];
    eexists; (split; [reflexivity|]); [left; eauto | right; right; eauto].
Qed.

(** X13. Whatever the upstream does, [get_recently_played] sends exactly
    one request and ends in one of three ways: it returns a payload, it
    replies 401 "Token expired", or the reply is a 500. *)
Theorem recently_played_outcomes (access_token : string) :
  let out := run (GET_recently_played access_token) in
  ((exists content, out = Ok (Returned content)) \/
   out = Raise (HTTPException 401 "Token expired") \/
   reply_status out = 500) /\
  trace (GET_recently_played access_token)
  = [recently_played_request access_token].
Proof.
  destruct (recently_played_ends access_token) as (out & Hrun & Hout).
  unfold run, trace. rewrite Hrun. cbn [fst snd]. split; [|reflexivity].
  destruct Hout as [H | [H | (detail & ->)]]; auto.
Qed.

(** X14. [get_recently_played] returns a payload exactly when the upstream
    answers with a status that is neither 401 nor an error status and with
    a JSON body, and the payload is that body, unchanged. *)
Theorem recently_played_returns_iff (access_token : string) (v : value) :
  run (GET_recently_played access_token) = Ok (Returned v) <->
  exists r,
    upstream [] (recently_played_request access_token) = inr r /\
    status_code r <> 401 /\ ok r = true /\ body r = Some v.
Proof.
  cbv [get_recently_played run try_except mbind requests_get send lift
       ret raise fst raise_for_status json].
  split.
  - destruct (upstream [] _) as [msg|r] eqn:Hu;
      cbn [except_RequestException raise]; [discriminate|].
    destruct (status_code r =? 401) eqn:E401;
      cbn [except_RequestException raise]; [discriminate|].
    destruct (ok r) eqn:Hok; cbn [except_RequestException raise];
      [|discriminate].
    destruct (body r) eqn:Hb; cbn [except_RequestException raise];
      [|discriminate].
    intros [= ->]. exists r. apply Z.eqb_neq in E401. auto.
  - intros (r & -> & H401 & -> & ->). apply Z.eqb_neq in H401.
    now rewrite H401.
Qed.

(** X15. When the upstream answers 204, [get_currently_playing] replies
    with the "nothing is playing" payload and the four CORS headers,
    without looking at the body. *)
Theorem currently_playing_nothing (access_token : string) (r : response) :
  upstream [] (currently_playing_request access_token) = inr r ->
  status_code r = 204 ->
  run (GET_currently_playing access_token)
  = Ok (JSONResponse
          (VDict [(VStr "is_playing", VBool false); (VStr "track", VNone)])
          cors_headers_full).
Proof.
  intros Hu Hs.
  cbv [get_currently_playing run try_except mbind requests_get send fst].
  now rewrite Hu, Hs.
Qed.

Ltac shape_block :=
  repeat (apply raises_only_bind;
          [ first [ apply raises_only_get | apply raises_only_iter
                  | apply raises_only_mapM; intros; apply raises_only_get ]
          | intros ? _ ]);
  apply raises_only_Ok.

(** How [get_currently_playing] can end. *)
Lemma currently_playing_ends (access_token : string) :
  exists out,
    GET_currently_playing access_token []
    = (out, [currently_playing_request access_token]) /\
    ((exists content, out = Ok (JSONResponse content cors_headers_full)) \/
     out = Raise (HTTPException 401 "Token expired") \/
     (exists detail, out = Raise (HTTPException 500 detail)) \/
     out = Raise AttributeError \/ out = Raise TypeError).
Proof.
  cbv [get_currently_playing try_except mbind requests_get send
       lift ret raise raise_for_status json].
  destruct (upstream [] _) as [msg|r]; cbn [except_RequestException raise];
    [eexists; split; [reflexivity | right; right; left; eauto]|].
  destruct (status_code r =? 204);
    [eexists; split; [reflexivity | left; eauto]|].
  destruct (status_code r =? 401); cbn [except_RequestException raise];
    [eexists; split; [reflexivity | right; now left]|].
  destruct (ok r); cbn [except_RequestException raise];
    [|eexists; split; [reflexivity | right; right; left; eauto]].
  destruct (body r) as [data|]; cbn [except_RequestException raise];
    [|eexists; split; [reflexivity | right; right; left; eauto]].
  match goal with
  | |- context [match ?b with Ok _ => _ | Raise _ => _ end] =>
      assert (Hb : raises_only shape_error b) by shape_block;
      destruct b as [track_data|e] eqn:Eb
  end.
  - eexists; split; [reflexivity | left; eauto].
  - destruct (Hb e eq_refl) as [-> | ->]; cbn [except_RequestException];
      eexists; (split; [reflexivity|]);
      [ right; right; right; left; reflexivity
      | right; right; right; right; reflexivity ].
Qed.

(** X16. Whatever the upstream does, [get_currently_playing] sends exactly
    one request and ends in one of three ways: a JSON response with the
    four CORS headers, a 401 "Token expired", or a reply of status 500 (an
    upstream failure, or a payload of the wrong shape whose exception
    leaves the handler). *)
Theorem currently_playing_outcomes (access_token : string) :
  let out := run (GET_currently_playing access_token) in
  ((exists content, out = Ok (JSONResponse content cors_headers_full)) \/
   out = Raise (HTTPException 401 "Token expired") \/
   reply_status out = 500) /\
  trace (GET_currently_playing access_token)
  = [currently_playing_request access_token].
Proof.
  destruct (currently_playing_ends access_token) as (out & Hrun & Hout).
  unfold run, trace. rewrite Hrun. cbn [fst snd]. split; [|reflexivity].
  destruct Hout as [H | [H | [(detail & ->) | [-> | ->]]]]; auto.
Qed.

(** ** The callback *)

Lemma lookup_merge_other {V : Type} (p l : Py.dict V) (k : value) :
  Forall (fun kv => Py.key_eqb (fst kv) k = false) l ->
  Py.lookup (Py.merge p l) k = Py.lookup p k.
Proof.
  unfold Py.merge. intros H. revert p.
  induction H as [|kv l Hkv Hl IH]; intros p; simpl; [reflexivity|].
  rewrite IH. now apply lookup_set_other.
Qed.

(** What [callback] does when every exchange goes through. *)
Lemma callback_runs (code : string) (x : callback_exchange)
    (albums : list (list top_album)) (genres : list (Py.dict Z)) :
  exchanged upstream value_str (token_request code) x ->
  aggregated x albums genres ->
  GET_callback code []
  = (Ok (JSONResponse (VDict (composed_payload x albums genres)) cors_headers),
     token_request code :: callback_fetches (value_str (cx_access_token x))).
Proof.
  intros (r0 & rs & Hans & Hok & Hbody & Tat & Trt & Hrs) (Halb & Hgen).
  do 9 (destruct rs as [|? rs]; try discriminate Hrs).
  do 4 (destruct albums as [|? albums]; try discriminate Halb).
  do 4 (destruct genres as [|? genres]; try discriminate Hgen).
  cbn [map cx_bodies] in Hrs, Halb, Hgen.
  injection Hrs as B1 B2 B3 B4 B5 B6 B7 B8.
  injection Halb as A1 A2 A3. injection Hgen as G1 G2 G3.
  cbn [answered map callback_fetches callback_urls] in Hans.
  destruct Hans as (U0 & U1 & U2 & U3 & U4 & U5 & U6 & U7 & U8 & _).
  unfold cx_access_token, cx_refresh_token, at_or in *.
  cbv [callback run try_except mbind send lift ret get_json requests_get
       raise_for_status json].
  rewrite U0, Hok, Hbody. cbv beta iota. cbn [Py.get].
  rewrite Tat, Trt. cbn [negb orb].
  rewrite U1, B1. cbv beta iota. rewrite U2, B2. cbv beta iota.
  rewrite U3, B3. cbv beta iota. rewrite U4, B4. cbv beta iota.
  rewrite U5, B5. cbv beta iota. rewrite U6, B6. cbv beta iota.
  rewrite U7, B7. cbv beta iota. rewrite U8, B8. cbv beta iota.
  rewrite A1, A2, A3. cbv beta iota. rewrite G1, G2, G3. cbv beta iota.
  cbn [mapping]. reflexivity.
Qed.

(** X17. On a token response that lacks the access token or the refresh
    token, [callback] replies 400 "Failed to retrieve tokens" (the
    exception passes its [except] clause) and fetches nothing further. *)
Theorem callback_missing_tokens (code : string) (r0 : response)
    (d : Py.dict value) :
  upstream [] (token_request code) = inr r0 ->
  ok r0 = true ->
  body r0 = Some (VDict d) ->
  Py.truthy (at_or d "access_token" VNone) = false \/
  Py.truthy (at_or d "refresh_token" VNone) = false ->
  run (GET_callback code)
  = Raise (HTTPException 400 "Failed to retrieve tokens") /\
  trace (GET_callback code) = [token_request code].
Proof.
  intros U0 Hok Hbody Hmiss. unfold at_or in Hmiss.
  cbv [callback run trace try_except mbind send lift ret raise get_json
       requests_get raise_for_status json fst snd].
  rewrite U0, Hok, Hbody. cbv beta iota. cbn [Py.get].
  destruct Hmiss as [-> | ->]; cbn [negb orb]; rewrite ?orb_true_r;
    split; reflexivity.
Qed.

(** X18. When the token exchange itself fails (no answer, or an error
    status), [callback] replies 500 with a detail that starts
    "Error exchanging token: " and fetches nothing further. *)
Theorem callback_token_exchange_fails (code : string) :
  (exists msg, upstream [] (token_request code) = inl msg) \/
  (exists r, upstream [] (token_request code) = inr r /\ ok r = false) ->
  (exists e,
     run (GET_callback code)
     = Raise (HTTPException 500
                ("Error exchanging token: "
                 ++ exn_str (RequestException e))%string)) /\
  reply_status (run (GET_callback code)) = 500 /\
  trace (GET_callback code) = [token_request code].
Proof.
  intros H.
  cbv [callback run trace try_except mbind send lift ret raise get_json
       requests_get raise_for_status json fst snd].
  destruct H as [(msg & ->) | (r & -> & ->)];
    cbn [except_RequestException raise]; repeat split; eauto.
Qed.

Ltac payload_lookup :=
  repeat (rewrite lookup_set_other by reflexivity);
  rewrite lookup_set_same by reflexivity; reflexivity.

(** X19. When every exchange goes through, [callback] replies with a
    payload in which [top_albums] and [top_genres] hold the aggregations
    of the three track listings and of the three artist listings, and the
    seven listings themselves are passed on unchanged; the status codes of
    the eight fetches play no part. *)
Theorem callback_composes (code : string) (x : callback_exchange)
    (albums : list (list top_album)) (genres : list (Py.dict Z)) :
  exchanged upstream value_str (token_request code) x ->
  aggregated x albums genres ->
  exists content,
    run (GET_callback code) = Ok (JSONResponse (VDict content) cors_headers) /\
    Py.lookup content (VStr "top_albums")
    = Some (terms_value (map albums_value albums)) /\
    Py.lookup content (VStr "top_genres")
    = Some (terms_value (map genres_value genres)) /\
    map (fun k => Py.lookup content (VStr k))
        ["short_term"; "medium_term"; "long_term"; "medium_term_artists_long";
         "short_term_tracks"; "medium_term_tracks"; "long_term_tracks"]%string
    = map Some
        [cx_short_artists x; cx_medium_artists x; cx_long_artists x;
         cx_medium_artists_long x;
         cx_short_tracks x; cx_medium_tracks x; cx_long_tracks x].
Proof.
  intros Hx Ha. exists (composed_payload x albums genres).
  unfold run. rewrite (callback_runs _ _ _ _ Hx Ha). split; [reflexivity|].
  unfold composed_payload, Py.merge. cbn [fold_left fst snd map].
  split; [payload_lookup|]. split; [payload_lookup|].
  repeat (apply (f_equal2 cons); [payload_lookup|]). reflexivity.
Qed.

(** X20. In the payload of [callback] the token fields are those of the
    token response, with 3600 for a missing [expires_in], even when the
    profile holds fields of the same names; every profile field whose name
    [callback] does not set itself is kept as it is. *)
Theorem callback_merges_profile (code : string) (x : callback_exchange)
    (albums : list (list top_album)) (genres : list (Py.dict Z)) :
  exchanged upstream value_str (token_request code) x ->
  aggregated x albums genres ->
  exists content,
    run (GET_callback code) = Ok (JSONResponse (VDict content) cors_headers) /\
    Py.lookup content (VStr "access_token") = Some (cx_access_token x) /\
    Py.lookup content (VStr "refresh_token") = Some (cx_refresh_token x) /\
    Py.lookup content (VStr "expires_in")
    = Some (at_or (cx_token x) "expires_in" (VInt 3600)) /\
    (forall k,
       Forall (fun s => Py.key_eqb (VStr s) k = false) callback_keys ->
       Py.lookup content k = Py.lookup (cx_profile x) k).
Proof.
  intros Hx Ha. exists (composed_payload x albums genres).
  unfold run. rewrite (callback_runs _ _ _ _ Hx Ha). split; [reflexivity|].
  split; [|split; [|split]].
  - unfold composed_payload, Py.merge. cbn [fold_left fst snd].
    payload_lookup.
  - unfold composed_payload, Py.merge. cbn [fold_left fst snd].
    payload_lookup.
  - unfold composed_payload, Py.merge. cbn [fold_left fst snd].
    payload_lookup.
  - intros k Hk. unfold composed_payload. apply lookup_merge_other.
    unfold callback_keys in Hk.
    repeat match goal with
           | H : Forall _ (_ :: _) |- _ => inversion H; clear H; subst
           end.
    repeat constructor; assumption.
Qed.

(** X21. When every exchange goes through, [callback] sends nine requests
    in a fixed order: the token request, then the eight fetches, each
    carrying the access token as a bearer token. *)
Theorem callback_requests (code : string) (x : callback_exchange)
    (albums : list (list top_album)) (genres : list (Py.dict Z)) :
  exchanged upstream value_str (token_request code) x ->
  aggregated x albums genres ->
  trace (GET_callback code)
  = token_request code :: callback_fetches (value_str (cx_access_token x)) /\
  Forall (fun q => headers q
                   = [("Authorization"%string,
                       ("Bearer " ++ value_str (cx_access_token x))%string)])
         (callback_fetches (value_str (cx_access_token x))).
Proof.
  intros Hx Ha. unfold trace. rewrite (callback_runs _ _ _ _ Hx Ha).
  split; [reflexivity|]. repeat constructor.
Qed.

Lemma f_equal2_inv_cons {A : Type} (a b : A) (l l' : list A) :
  a :: l = b :: l' -> a = b /\ l = l'.
Proof. intros [= -> ->]. auto. Qed.

Lemma mapping_raises (v : value) : raises_only shape_error (mapping v).
Proof.
  intros e. destruct v; simpl; try discriminate; intros [= <-]; now right.
Qed.

Ltac callback_end :=
  cbn [except_RequestException raise];
  eexists; eexists;
  split; [reflexivity|];
  split; [simpl; lia|];
  first [ left; eexists; reflexivity
        | right; left; reflexivity
        | right; right; left; eexists; reflexivity
        | right; right; right; left; reflexivity
        | right; right; right; right; reflexivity ].

Ltac callback_case r lemma :=
  let E := fresh "E" in
  destruct r eqn:E;
  [ cbv beta iota
  | apply lemma in E; destruct E as [-> | ->]; callback_end ].

(** How [callback] can end, with the requests it has sent by then. *)
Lemma callback_ends (code : string) :
  exists out rest,
    GET_callback code [] = (out, token_request code :: rest) /\
    (length rest <= 8)%nat /\
    ((exists content, out = Ok (JSONResponse (VDict content) cors_headers)) \/
     out = Raise (HTTPException 400 "Failed to retrieve tokens") \/
     (exists detail, out = Raise (HTTPException 500 detail)) \/
     out = Raise AttributeError \/ out = Raise TypeError).
Proof.
  cbv [callback try_except mbind send lift ret get_json requests_get
       raise_for_status json].
  repeat match goal with
         | |- context [match upstream ?t ?q with _ => _ end] =>
             destruct (upstream t q); cbv beta iota; [callback_end|]
         | |- context [if ok ?r then _ else _] =>
             destruct (ok r); cbv beta iota; [|callback_end]
         | |- context [match body ?r with _ => _ end] =>
             destruct (body r); cbv beta iota; [|callback_end]
         | |- context [match Py.get ?v ?k ?d with _ => _ end] =>
             callback_case (Py.get v k d) raises_only_get
         | |- context [if ?b then _ else _] =>
             destruct b; cbv beta iota; [callback_end|]
         | |- context [match get_top_albums ?v with _ => _ end] =>
             callback_case (get_top_albums v) get_top_albums_shape_errors
         | |- context [match get_top_genres ?v with _ => _ end] =>
             callback_case (get_top_genres v) get_top_genres_shape_errors
         | |- context [match mapping ?v with _ => _ end] =>
             callback_case (mapping v) mapping_raises
         end.
  callback_end.
Qed.

(** X22. Whatever the upstream does, [callback] ends in one of three
    ways: the JSON payload with the two CORS headers, a 400 "Failed to
    retrieve tokens", or a reply of status 500.  Its first request is the
    token request and it sends at most nine. *)
Theorem callback_outcomes (code : string) :
  let out := run (GET_callback code) in
  ((exists content, out = Ok (JSONResponse (VDict content) cors_headers)) \/
   out = Raise (HTTPException 400 "Failed to retrieve tokens") \/
   reply_status out = 500) /\
  (exists rest,
     trace (GET_callback code) = token_request code :: rest /\
     (length rest <= 8)%nat).
Proof.
  destruct (callback_ends code) as (out & rest & Hrun & Hlen & Hout).
  unfold run, trace. rewrite Hrun. cbn [fst snd].
  split; [|eauto].
  destruct Hout as [H | [H | [(d & ->) | [-> | ->]]]]; auto.
Qed.

(** X23. The fetches of [callback] are made one after the other and the
    first that gets no answer ends the call: the reply is a 500 whose
    detail starts "Error exchanging token: ", nothing of what was fetched
    is returned, and no later fetch is sent. *)
Theorem callback_fetch_fails (code : string) (d : Py.dict value)
    (r0 : response) (rs : list response) (vs : list value) (msg : string) :
  let fetches :=
    callback_fetches (value_str (at_or d "access_token" VNone)) in
  answered upstream []
    (token_request code :: firstn (length rs) fetches) (r0 :: rs) ->
  ok r0 = true ->
  body r0 = Some (VDict d) ->
  Py.truthy (at_or d "access_token" VNone) = true ->
  Py.truthy (at_or d "refresh_token" VNone) = true ->
  map body rs = map Some vs ->
  (length rs < 8)%nat ->
  upstream (token_request code :: firstn (length rs) fetches)
           (nth (length rs) fetches (token_request code)) = inl msg ->
  run (GET_callback code)
  = Raise (HTTPException 500
             ("Error exchanging token: "
              ++ exn_str (RequestException (ConnectionError msg)))%string) /\
  trace (GET_callback code)
  = token_request code :: firstn (S (length rs)) fetches.
Proof.
  intros fetches Hans Hok Hbody Tat Trt Hrs Hlen Hfail.
  subst fetches. unfold at_or in *.
  destruct rs as [|r1 [|r2 [|r3 [|r4 [|r5 [|r6 [|r7 [|r8 rs]]]]]]]];
    try (exfalso; simpl in Hlen; lia);
    destruct vs as [|v1 [|v2 [|v3 [|v4 [|v5 [|v6 [|v7 [|v8 vs]]]]]]]];
    cbn [map] in Hrs; try discriminate Hrs;
    repeat match goal with
           | H : _ :: _ = _ :: _ |- _ =>
               apply f_equal2_inv_cons in H; destruct H as [? H]
           end.
  all: cbn [length firstn nth callback_fetches callback_urls map answered app]
         in Hans, Hfail;
       repeat match goal with H : _ /\ _ |- _ => destruct H end;
       cbv [callback run trace try_except mbind send lift ret get_json
            requests_get raise_for_status json];
       cbn [app];
       repeat match goal with
              | H : upstream _ _ = _ |- _ =>
                  rewrite H; clear H; cbv beta iota; cbn [app]
              | H : ok _ = _ |- _ =>
                  rewrite H; clear H; cbv beta iota; cbn [app]
              | H : body _ = _ |- _ =>
                  rewrite H; clear H; cbv beta iota; cbn [app]
              | H : Py.truthy _ = _ |- _ =>
                  rewrite H; clear H; cbn [negb orb app]
              | |- context [Py.get (VDict _) _ _] => cbn [Py.get]
              end;
       split; reflexivity.
Qed.

End HandlerOutcomes.

(** ** The handlers on sample inputs, continued *)

Lemma refresh_token_passes_body_witness :
  run (refresh_token (Some "id"%string) (Some "secret"%string)
         sample_upstream sample_exn_str
         (Some (VDict [(VStr "refresh_token", VStr "r")])))
  = Ok (JSONResponse (VDict sample_token_data) cors_headers) /\
  trace (refresh_token (Some "id"%string) (Some "secret"%string)
           sample_upstream sample_exn_str
           (Some (VDict [(VStr "refresh_token", VStr "r")])))
  = [refresh_request "Basic aWQ6c2VjcmV0" (VStr "r")].
Proof.
  apply (refresh_token_passes_body (Some "id"%string) (Some "secret"%string)
           sample_upstream sample_exn_str
           [(VStr "refresh_token", VStr "r")] (VStr "r")
           "Basic aWQ6c2VjcmV0"%string
           (sample_response 200 (Some (VDict sample_token_data)))
           (VDict sample_token_data));
    reflexivity.
Defined.

Lemma refresh_token_missing_sends_nothing_witness :
  trace (refresh_token None None sample_upstream sample_exn_str
           (Some (VDict []))) = [].
Proof.
  apply (refresh_token_missing_sends_nothing None None sample_upstream
           sample_exn_str []).
  left. reflexivity.
Defined.

Lemma refresh_token_unencodable_credentials_witness :
  reply_status
    (run (refresh_token latin1_client_id (Some "s"%string) sample_upstream
            sample_exn_str (Some (VDict [(VStr "refresh_token", VStr "r")]))))
  = 500 /\
  trace (refresh_token latin1_client_id (Some "s"%string) sample_upstream
           sample_exn_str (Some (VDict [(VStr "refresh_token", VStr "r")])))
  = [].
Proof.
  apply (refresh_token_unencodable_credentials latin1_client_id
           (Some "s"%string) sample_upstream sample_exn_str).
  left. reflexivity.
Defined.

Lemma recently_played_returns_iff_witness :
  run (get_recently_played sample_upstream sample_exn_str "tok")
  = Ok (Returned (VDict sample_token_data)).
Proof.
  apply (proj2 (recently_played_returns_iff sample_upstream sample_exn_str
                  "tok" (VDict sample_token_data))).
  exists (sample_response 200 (Some (VDict sample_token_data))).
  repeat split. discriminate.
Defined.

Lemma currently_playing_nothing_witness :
  run (get_currently_playing (upstream_always (sample_response 204 None))
         sample_exn_str "tok")
  = Ok (JSONResponse
          (VDict [(VStr "is_playing", VBool false); (VStr "track", VNone)])
          cors_headers_full).
Proof.
  apply (currently_playing_nothing
           (upstream_always (sample_response 204 None)) sample_exn_str "tok"
           (sample_response 204 None)); reflexivity.
Defined.

Lemma callback_missing_tokens_witness :
  run (callback None None None
         (upstream_always (sample_response 200 (Some (VDict []))))
         sample_exn_str sample_value_str "code")
  = Raise (HTTPException 400 "Failed to retrieve tokens") /\
  trace (callback None None None
           (upstream_always (sample_response 200 (Some (VDict []))))
           sample_exn_str sample_value_str "code")
  = [callback_token_request None None None "code"].
Proof.
  apply (callback_missing_tokens None None None
           (upstream_always (sample_response 200 (Some (VDict []))))
           sample_exn_str sample_value_str "code"
           (sample_response 200 (Some (VDict []))) []);
    try reflexivity.
  left. reflexivity.
Defined.

Lemma callback_token_exchange_fails_witness :
  (exists e,
     run (callback None None None
            (upstream_always (sample_response 401 None))
            sample_exn_str sample_value_str "code")
     = Raise (HTTPException 500
                ("Error exchanging token: "
                 ++ sample_exn_str (RequestException e))%string)) /\
  reply_status
    (run (callback None None None
            (upstream_always (sample_response 401 None))
            sample_exn_str sample_value_str "code")) = 500 /\
  trace (callback None None None
           (upstream_always (sample_response 401 None))
           sample_exn_str sample_value_str "code")
  = [callback_token_request None None None "code"].
Proof.
  apply (callback_token_exchange_fails None None None
           (upstream_always (sample_response 401 None))
           sample_exn_str sample_value_str "code").
  right. exists (sample_response 401 None). split; reflexivity.
Defined.

Lemma sample_exchanged :
  exchanged sample_upstream sample_value_str
    (callback_token_request None None None "code") sample_exchange.
Proof.
  exists (sample_response 200 (Some (VDict sample_token_data))),
         (repeat (sample_response 200 (Some (VDict sample_token_data))) 8).
  simpl. tauto.
Defined.

Lemma sample_aggregated : aggregated sample_exchange [[]; []; []] [[]; []; []].
Proof. split; reflexivity. Defined.

Lemma callback_composes_witness :
  exists content,
    run (callback None None None sample_upstream sample_exn_str
           sample_value_str "code")
    = Ok (JSONResponse (VDict content) cors_headers) /\
    Py.lookup content (VStr "top_albums")
    = Some (terms_value (map albums_value [[]; []; []])) /\
    Py.lookup content (VStr "top_genres")
    = Some (terms_value (map genres_value [[]; []; []])) /\
    map (fun k => Py.lookup content (VStr k))
        ["short_term"; "medium_term"; "long_term"; "medium_term_artists_long";
         "short_term_tracks"; "medium_term_tracks"; "long_term_tracks"]%string
    = map Some
        [cx_short_artists sample_exchange; cx_medium_artists sample_exchange;
         cx_long_artists sample_exchange;
         cx_medium_artists_long sample_exchange;
         cx_short_tracks sample_exchange; cx_medium_tracks sample_exchange;
         cx_long_tracks sample_exchange].
Proof.
  exact (callback_composes None None None sample_upstream sample_exn_str
           sample_value_str "code" sample_exchange _ _
           sample_exchanged sample_aggregated).
Defined.

Lemma callback_merges_profile_witness :
  exists content,
    run (callback None None None sample_upstream sample_exn_str
           sample_value_str "code")
    = Ok (JSONResponse (VDict content) cors_headers) /\
    Py.lookup content (VStr "access_token")
    = Some (cx_access_token sample_exchange) /\
    Py.lookup content (VStr "refresh_token")
    = Some (cx_refresh_token sample_exchange) /\
    Py.lookup content (VStr "expires_in")
    = Some (at_or (cx_token sample_exchange) "expires_in" (VInt 3600)) /\
    (forall k,
       Forall (fun s => Py.key_eqb (VStr s) k = false) callback_keys ->
       Py.lookup content k = Py.lookup (cx_profile sample_exchange) k).
Proof.
  exact (callback_merges_profile None None None sample_upstream
           sample_exn_str sample_value_str "code" sample_exchange _ _
           sample_exchanged sample_aggregated).
Defined.

Lemma callback_requests_witness :
  trace (callback None None None sample_upstream sample_exn_str
           sample_value_str "code")
  = callback_token_request None None None "code"
    :: callback_fetches (sample_value_str (cx_access_token sample_exchange)) /\
  Forall (fun q => headers q
                   = [("Authorization"%string,
                       ("Bearer "
                        ++ sample_value_str (cx_access_token sample_exchange))
                       %string)])
         (callback_fetches
            (sample_value_str (cx_access_token sample_exchange))).
Proof.
  exact (callback_requests None None None sample_upstream sample_exn_str
           sample_value_str "code" sample_exchange _ _
           sample_exchanged sample_aggregated).
Defined.

Lemma callback_fetch_fails_witness :
  run (callback None None None sample_upstream_down sample_exn_str
         sample_value_str "code")
  = Raise (HTTPException 500 "Error exchanging token: error") /\
  trace (callback None None None sample_upstream_down sample_exn_str
           sample_value_str "code")
  = [callback_token_request None None None "code";
     requests_request "GET" "https://api.spotify.com/v1/me" (bearer "a")
       None None].
Proof.
  apply (callback_fetch_fails None None None sample_upstream_down
           sample_exn_str sample_value_str "code" sample_token_data
           (sample_response 200 (Some (VDict sample_token_data))) [] []
           "unreachable"); try reflexivity.
  - simpl. tauto.
  - simpl. lia.
Defined.
